(** * goodpack-server: the stock ledger, the price ledger and the code generators

    A shallow embedding of the ledger and code-generation functions of the
    server ([models/product.go], [handlers/stock_adjustment_handler.go],
    [handlers/purchase_handler.go], the purchase repository and the SKU
    generator), and the properties the specification states about them;
    then the sale handler with its repository, the stock functions of the
    migration ([handlers/product_handler.go]) and further properties of all
    of these.

    Conventions of the embedding:
    - Go's [int] is the 64-bit two's-complement integer of the platforms the
      server is built for; a value is a [Z] and every [+], [-] and [++] of the
      source is written with its wrap-around ([GoInt.add], [GoInt.sub]).
    - Go's [float64] is Rocq's primitive binary64 float; sums, products and
      quotients are rounded one operation at a time.
    - Go's [string] is a sequence of bytes: Rocq's [string].
    - A pointer into a struct ([&product.Stock.VAT]) is modelled by reading the
      field, computing its new value and writing it back to the same field. *)

From Stdlib Require Import ZArith Lia Bool List String Ascii DecimalString.
From Stdlib Require Import PrimFloat SpecFloat FloatOps FloatAxioms.
From Stdlib Require Import Setoid Morphisms.
Import ListNotations.

Local Open Scope string_scope.
Local Open Scope Z_scope.

(* ================================================================== *)
(** ** Go's machine integers *)
(* ================================================================== *)

Module GoInt.

Definition int := Z.

Definition MinInt : Z := - 2 ^ 63.
Definition MaxInt : Z := 2 ^ 63 - 1.

(** The values an [int] variable can hold. *)
Definition int_ok (z : Z) : Prop := MinInt <= z <= MaxInt.

Definition in_range (z : Z) : bool := (MinInt <=? z) && (z <=? MaxInt).

(** Two's-complement reduction of a mathematical integer to an [int]. *)
Definition wrap (z : Z) : Z := (z + 2 ^ 63) mod 2 ^ 64 - 2 ^ 63.

(** [a + b] and [a - b] on [int]. *)
Definition add (a b : Z) : Z := wrap (a + b).
Definition sub (a b : Z) : Z := wrap (a - b).

End GoInt.

(* ================================================================== *)
(** ** Go's float64 and its conversions to and from int *)
(* ================================================================== *)

Module GoFloat.

Import GoInt.

(** What a conversion [int(f)] yields when [f] is a NaN, an infinity or
    has an integer part outside [int]: the language leaves the value to the
    implementation, so it is a parameter of the model. *)
Class Platform := { unrepresentable : float -> Z }.

(** The integer part of a finite float: the fraction is discarded
    (truncation towards zero). *)
Definition trunc (f : float) : option Z :=
  match Prim2SF f with
  | S754_zero _ => Some 0
  | S754_finite s m e => Some (cond_Zopp s (Z.shiftl (Zpos m) e))
  | S754_infinity _ => None
  | S754_nan => None
  end.

(** The conversion [int(f)]. *)
Definition to_int `{Platform} (f : float) : Z :=
  match trunc f with
  | Some z => if in_range z then z else wrap (unrepresentable f)
  | None => wrap (unrepresentable f)
  end.

(** The conversion [float64(z)]: the nearest float, ties to even. *)
Definition of_int (z : Z) : float :=
  SF2Prim (binary_normalize prec emax z 0 false).

End GoFloat.

(* ================================================================== *)
(** ** Go's standard library, as far as the program calls it *)
(* ================================================================== *)

Module strconv.

Import GoInt.

Definition is_digit (c : ascii) : bool :=
  (48 <=? Z.of_N (N_of_ascii c)) && (Z.of_N (N_of_ascii c) <=? 57).

Definition digit_value (c : ascii) : Z := Z.of_N (N_of_ascii c) - 48.

(** The value of a string of decimal digits, read from the left with the
    accumulator [acc]; [None] on any other byte. *)
Fixpoint digits_value (acc : Z) (s : string) : option Z :=
  match s with
  | EmptyString => Some acc
  | String c rest =>
      if is_digit c then digits_value (10 * acc + digit_value c) rest
      else None
  end.

(** [strconv.Atoi]: an optional sign, then one or more decimal digits, the
    value within [int]; [None] is the error result. *)
Definition Atoi (s : string) : option Z :=
  let '(neg, ds) :=
    match s with
    | String "+"%char rest => (false, rest)
    | String "-"%char rest => (true, rest)
    | _ => (false, s)
    end in
  match ds with
  | EmptyString => None
  | _ =>
      match digits_value 0 ds with
      | Some v =>
          let z := if neg then - v else v in
          if in_range z then Some z else None
      | None => None
      end
  end.

End strconv.

Module fmt.

Import GoInt.

Inductive arg :=
| ArgInt (n : Z)
| ArgString (s : string).

(** The decimal digits of a natural number. *)
Definition decimal (n : Z) : string :=
  DecimalString.NilZero.string_of_uint (N.to_uint (Z.to_N n)).

Fixpoint zeros (n : nat) : string :=
  match n with
  | O => EmptyString
  | S n' => String "0"%char (zeros n')
  end.

(** Digits padded on the left with zeros up to [width] bytes. *)
Definition pad0 (width : nat) (digits : string) : string :=
  zeros (width - String.length digits) ++ digits.

(** The verb [%04d]: the sign first, then zeros up to a total width of
    four, then the digits. *)
Definition fmt_04d (n : Z) : string :=
  if n <? 0 then String "-"%char (pad0 3 (decimal (- n)))
  else pad0 4 (decimal n).

(** [fmt.Sprintf] for the verbs the program uses: [%%], [%s] with a string
    operand, [%d] and [%04d] with an int operand.  [None] stands for every
    call outside this fragment (another verb, a missing, surplus or
    ill-typed operand), where the real function prints an error marker. *)
Fixpoint Sprintf (format : string) (args : list arg) : option string :=
  match format with
  | EmptyString =>
      match args with
      | [] => Some EmptyString
      | _ :: _ => None
      end
  | String "%"%char (String "%"%char rest) =>
      option_map (String "%"%char) (Sprintf rest args)
  | String "%"%char (String "s"%char rest) =>
      match args with
      | ArgString s :: args' => option_map (append s) (Sprintf rest args')
      | _ => None
      end
  | String "%"%char (String "d"%char rest) =>
      match args with
      | ArgInt n :: args' =>
          option_map
            (append (if n <? 0 then String "-"%char (decimal (- n))
                     else decimal n))
            (Sprintf rest args')
      | _ => None
      end
  | String "%"%char (String "0"%char (String "4"%char (String "d"%char rest))) =>
      match args with
      | ArgInt n :: args' => option_map (append (fmt_04d n)) (Sprintf rest args')
      | _ => None
      end
  | String "%"%char _ => None
  | String c rest => option_map (String c) (Sprintf rest args)
  end.

End fmt.

Module strings.

(** [strings.ToLower], [strings.ToUpper] and [strings.Fields] map and split
    by Unicode code points; the model takes them as given. *)
Class Strings := {
  ToLower : string -> string;
  ToUpper : string -> string;
  Fields : string -> list string
}.

End strings.

(* ================================================================== *)
(** ** package models *)
(* ================================================================== *)

Module models.

Import GoInt GoFloat.

(** [time.Time], as far as the program looks at it: the calendar year and
    month of the instant, and the rest of the instant. *)
Record Time := mkTime {
  Year : int;
  Month : int;
  Instant : Z
}.

(** [primitive.ObjectID], written as its hexadecimal form. *)
Definition ObjectID := string.

Record PriceInfo := mkPriceInfo {
  Latest : float;
  Min : float;
  Max : float;
  Average : float;
  AverageYTD : float;
  AverageMTD : float;
  YTDCount : int;
  YTDTotal : float;
  YTDYear : int;
  MTDCount : int;
  MTDTotal : float;
  MTDMonth : int;
  MTDYear : int
}.

Record TierPrice := mkTierPrice {
  MinQuantity : int;
  MaxQuantity : option int;
  TierPrice_Price : PriceInfo;
  WholesalePrice : float
}.

Record Price := mkPrice {
  PurchaseVAT : PriceInfo;
  PurchaseNonVAT : PriceInfo;
  SaleVAT : PriceInfo;
  SaleNonVAT : PriceInfo;
  SalesTiers : list TierPrice
}.

Record StockInfo := mkStockInfo {
  Purchased : int;
  Sold : int;
  Remaining : int
}.

Record Stock := mkStock {
  VAT : StockInfo;
  NonVAT : StockInfo;
  ActualStock : int
}.

Record Product := mkProduct {
  ID : ObjectID;
  SKUID : string;
  Code : string;
  Name : string;
  Description : string;
  Color : string;
  Size : string;
  Category : string;
  QRData : string;
  ImageURL : option string;
  Product_Price : Price;
  Product_Stock : Stock;
  CreatedAt : Time;
  UpdatedAt : Time
}.

(** Assignments to one field of a product ([p.Stock = s], ...). *)
Definition set_Stock (p : Product) (s : Stock) : Product :=
  mkProduct (ID p) (SKUID p) (Code p) (Name p) (Description p) (Color p)
    (Size p) (Category p) (QRData p) (ImageURL p) (Product_Price p) s
    (CreatedAt p) (UpdatedAt p).

Definition set_Price (p : Product) (pr : Price) : Product :=
  mkProduct (ID p) (SKUID p) (Code p) (Name p) (Description p) (Color p)
    (Size p) (Category p) (QRData p) (ImageURL p) pr (Product_Stock p)
    (CreatedAt p) (UpdatedAt p).

Definition set_UpdatedAt (p : Product) (t : Time) : Product :=
  mkProduct (ID p) (SKUID p) (Code p) (Name p) (Description p) (Color p)
    (Size p) (Category p) (QRData p) (ImageURL p) (Product_Price p)
    (Product_Stock p) (CreatedAt p) t.

(** The expression [float64(int(x*100+0.5)) / 100] that [UpdatePrice]
    applies to [Average], [AverageYTD] and [AverageMTD]. *)
Definition round2 `{Platform} (x : float) : float :=
  (of_int (to_int (x * 100 + 0.5)) / 100)%float.

(** The body of [UpdatePrice] on the selected [*PriceInfo]; [now] is the
    value [time.Now()] returned. *)
Definition updatePriceInfo `{Platform} (now : Time) (priceInfo : PriceInfo)
    (newPrice : float) : PriceInfo :=
  let currentYear := Year now in
  let currentMonth := Month now in
  (* 1. latest *)
  let latest := newPrice in
  (* 2. min *)
  let min :=
    if (Min priceInfo =? 0)%float || (newPrice <? Min priceInfo)%float
    then newPrice else Min priceInfo in
  (* 3. max *)
  let max :=
    if (Max priceInfo <? newPrice)%float then newPrice else Max priceInfo in
  (* 4. average, then rounded to two places *)
  let average :=
    round2 (if (Average priceInfo =? 0)%float then newPrice
            else ((Average priceInfo + newPrice) / 2)%float) in
  (* 5. YTD *)
  let '(ytdYear, ytdCount, ytdTotal, averageYTD) :=
    if negb (YTDYear priceInfo =? currentYear) then
      (currentYear, 1, newPrice, newPrice)
    else
      let count := add (YTDCount priceInfo) 1 in
      let total := (YTDTotal priceInfo + newPrice)%float in
      (YTDYear priceInfo, count, total, round2 (total / of_int count)%float) in
  (* 6. MTD *)
  let '(mtdYear, mtdMonth, mtdCount, mtdTotal, averageMTD) :=
    if negb (MTDYear priceInfo =? currentYear)
       || negb (MTDMonth priceInfo =? currentMonth) then
      (currentYear, currentMonth, 1, newPrice, newPrice)
    else
      let count := add (MTDCount priceInfo) 1 in
      let total := (MTDTotal priceInfo + newPrice)%float in
      (MTDYear priceInfo, MTDMonth priceInfo, count, total,
       round2 (total / of_int count)%float) in
  mkPriceInfo latest min max average averageYTD averageMTD
    ytdCount ytdTotal ytdYear mtdCount mtdTotal mtdMonth mtdYear.

(** [Product.UpdatePrice] ([models/product.go]): the bucket is chosen by
    [(isPurchase, isVAT)] and updated through the pointer to it. *)
Definition UpdatePrice `{Platform} (now : Time) (p : Product)
    (newPrice : float) (isVAT isPurchase : bool) : Product :=
  let price := Product_Price p in
  let upd := fun priceInfo => updatePriceInfo now priceInfo newPrice in
  if isPurchase then
    if isVAT then
      set_Price p (mkPrice (upd (PurchaseVAT price)) (PurchaseNonVAT price)
                           (SaleVAT price) (SaleNonVAT price) (SalesTiers price))
    else
      set_Price p (mkPrice (PurchaseVAT price) (upd (PurchaseNonVAT price))
                           (SaleVAT price) (SaleNonVAT price) (SalesTiers price))
  else
    if isVAT then
      set_Price p (mkPrice (PurchaseVAT price) (PurchaseNonVAT price)
                           (upd (SaleVAT price)) (SaleNonVAT price) (SalesTiers price))
    else
      set_Price p (mkPrice (PurchaseVAT price) (PurchaseNonVAT price)
                           (SaleVAT price) (upd (SaleNonVAT price)) (SalesTiers price)).

(** [models/stock_adjustment.go]: the string-typed enumerations. *)
Definition StockAdjustmentType := string.
Definition AdjustmentTypeAdd : StockAdjustmentType := "add".
Definition AdjustmentTypeReduce : StockAdjustmentType := "reduce".

Definition StockType := string.
Definition StockTypeVAT : StockType := "vat".
Definition StockTypeNonVAT : StockType := "nonvat".
Definition StockTypeActualStock : StockType := "actualstock".

Definition SourceType := string.
Definition SourceTypePurchase : SourceType := "purchase".
Definition SourceTypeSale : SourceType := "sale".
Definition SourceTypeAdjustment : SourceType := "adjustment".
Definition SourceTypeMigration : SourceType := "migration".

(** [StockAdjustment]: the audit record of one stock change. *)
Record StockAdjustment := mkStockAdjustment {
  SA_ID : ObjectID;
  ProductID : string;
  ProductName : string;
  SA_SKUID : string;
  AdjustmentType : StockAdjustmentType;
  SA_StockType : StockType;
  Quantity : int;
  BeforeVATPurchased : int;
  BeforeVATSold : int;
  BeforeVATRemaining : int;
  BeforeNonVATPurchased : int;
  BeforeNonVATSold : int;
  BeforeNonVATRemaining : int;
  BeforeActualStock : int;
  AfterVATPurchased : int;
  AfterVATSold : int;
  AfterVATRemaining : int;
  AfterNonVATPurchased : int;
  AfterNonVATSold : int;
  AfterNonVATRemaining : int;
  AfterActualStock : int;
  SA_SourceType : SourceType;
  SourceID : option string;
  SourceCode : option string;
  Notes : option string;
  CreatedBy : option string;
  SA_CreatedAt : Time
}.

(** The zero [ObjectID] ([primitive.NilObjectID]). *)
Definition NilObjectID : ObjectID := "000000000000000000000000".

Record StockAdjustmentRequest := mkStockAdjustmentRequest {
  Req_AdjustmentType : StockAdjustmentType;
  Req_StockType : StockType;
  Req_Quantity : int;
  Req_Notes : option string
}.

(** [StockAdjustmentRequest.ToStockAdjustment]: the record with the before
    values of [product]; the after values are still zero.  [now] is the value
    [time.Now()] returned. *)
Definition ToStockAdjustment (now : Time) (req : StockAdjustmentRequest)
    (product : Product) (sourceType : SourceType)
    (sourceID sourceCode : option string) : StockAdjustment :=
  let st := Product_Stock product in
  mkStockAdjustment NilObjectID (ID product) (Name product) (SKUID product)
    (Req_AdjustmentType req) (Req_StockType req) (Req_Quantity req)
    (Purchased (VAT st)) (Sold (VAT st)) (Remaining (VAT st))
    (Purchased (NonVAT st)) (Sold (NonVAT st)) (Remaining (NonVAT st))
    (ActualStock st)
    0 0 0 0 0 0 0
    sourceType sourceID sourceCode (Req_Notes req) None now.

(** [StockAdjustment.SetAfterValues]. *)
Definition SetAfterValues (sa : StockAdjustment) (product : Product)
    : StockAdjustment :=
  let st := Product_Stock product in
  mkStockAdjustment (SA_ID sa) (ProductID sa) (ProductName sa) (SA_SKUID sa)
    (AdjustmentType sa) (SA_StockType sa) (Quantity sa)
    (BeforeVATPurchased sa) (BeforeVATSold sa) (BeforeVATRemaining sa)
    (BeforeNonVATPurchased sa) (BeforeNonVATSold sa)
    (BeforeNonVATRemaining sa) (BeforeActualStock sa)
    (Purchased (VAT st)) (Sold (VAT st)) (Remaining (VAT st))
    (Purchased (NonVAT st)) (Sold (NonVAT st)) (Remaining (NonVAT st))
    (ActualStock st)
    (SA_SourceType sa) (SourceID sa) (SourceCode sa) (Notes sa)
    (CreatedBy sa) (SA_CreatedAt sa).

Definition set_SA_ID (sa : StockAdjustment) (id : ObjectID) : StockAdjustment :=
  mkStockAdjustment id (ProductID sa) (ProductName sa) (SA_SKUID sa)
    (AdjustmentType sa) (SA_StockType sa) (Quantity sa)
    (BeforeVATPurchased sa) (BeforeVATSold sa) (BeforeVATRemaining sa)
    (BeforeNonVATPurchased sa) (BeforeNonVATSold sa)
    (BeforeNonVATRemaining sa) (BeforeActualStock sa)
    (AfterVATPurchased sa) (AfterVATSold sa) (AfterVATRemaining sa)
    (AfterNonVATPurchased sa) (AfterNonVATSold sa)
    (AfterNonVATRemaining sa) (AfterActualStock sa)
    (SA_SourceType sa) (SourceID sa) (SourceCode sa) (Notes sa)
    (CreatedBy sa) (SA_CreatedAt sa).

(** [PurchaseItem] and [Purchase]; of a purchase, the fields the modelled
    functions read. *)
Record PurchaseItem := mkPurchaseItem {
  Item_ProductID : string;
  Item_ProductName : string;
  Item_ProductCode : string;
  Item_Quantity : int;
  UnitPrice : float;
  TotalPrice : float
}.

Record Purchase := mkPurchase {
  Purchase_ID : ObjectID;
  PurchaseCode : string;
  CustomerID : string;
  Items : list PurchaseItem;
  IsVAT : bool
}.

End models.

(* ================================================================== *)
(** ** The world outside the program: database, clock, standard output *)
(* ================================================================== *)

Module runtime.

Import models.

(** A Go [error], by its message. *)
Definition error := string.

(** The state a handler runs in.  The three collections hold their
    documents in natural order.  [outcome] gives, call after call, what the
    database driver answers to a fallible operation ([None]: no error of its
    own); [now] the successive readings of the clock; [fresh] the object ids
    the driver generates.  [calls], [ticks] and [allocs] count how many of
    each were consumed. *)
Record World := mkWorld {
  products : list Product;
  adjustments : list StockAdjustment;
  purchases : list Purchase;
  stdout : list string;
  outcome : nat -> option error;
  calls : nat;
  now : nat -> Time;
  ticks : nat;
  fresh : nat -> ObjectID;
  allocs : nat
}.

Definition M (A : Type) : Type := World -> A * World.

Definition ret {A} (a : A) : M A := fun w => (a, w).

Definition bind {A B} (c : M A) (k : A -> M B) : M B :=
  fun w => let '(a, w') := c w in k a w'.

Definition get : M World := fun w => (w, w).

Definition set_products (ps : list Product) : M unit := fun w =>
  (tt, mkWorld ps (adjustments w) (purchases w) (stdout w) (outcome w)
         (calls w) (now w) (ticks w) (fresh w) (allocs w)).

Definition set_adjustments (l : list StockAdjustment) : M unit := fun w =>
  (tt, mkWorld (products w) l (purchases w) (stdout w) (outcome w)
         (calls w) (now w) (ticks w) (fresh w) (allocs w)).

(** One fallible operation of the database driver. *)
Definition driver_call : M (option error) := fun w =>
  (outcome w (calls w),
   mkWorld (products w) (adjustments w) (purchases w) (stdout w) (outcome w)
     (S (calls w)) (now w) (ticks w) (fresh w) (allocs w)).

(** [time.Now()]. *)
Definition time_Now : M Time := fun w =>
  (now w (ticks w),
   mkWorld (products w) (adjustments w) (purchases w) (stdout w) (outcome w)
     (calls w) (now w) (S (ticks w)) (fresh w) (allocs w)).

(** [primitive.NewObjectID()]. *)
Definition NewObjectID : M ObjectID := fun w =>
  (fresh w (allocs w),
   mkWorld (products w) (adjustments w) (purchases w) (stdout w) (outcome w)
     (calls w) (now w) (ticks w) (fresh w) (S (allocs w))).

(** A line printed by [fmt.Printf]. *)
Definition print (line : string) : M unit := fun w =>
  (tt, mkWorld (products w) (adjustments w) (purchases w) (stdout w ++ [line])
         (outcome w) (calls w) (now w) (ticks w) (fresh w) (allocs w)).

Declare Scope monad_scope.
Delimit Scope monad_scope with monad.
Notation "x <- c ;; k" := (bind c (fun x => k))
  (at level 100, c at next level, right associativity) : monad_scope.
Notation "c ;;; k" := (bind c (fun _ => k))
  (at level 100, right associativity) : monad_scope.

End runtime.

Module mongo.

Import runtime.

(** The server's regular-expression matching behind a [$regex] filter:
    [regex_match pattern options subject]. *)
Class Regex := { regex_match : string -> string -> string -> bool }.

Definition ErrNoDocuments : error := "mongo: no documents in result".
Definition ErrDuplicateKey : error := "E11000 duplicate key error".

(** [ReplaceOne]: the first document the filter selects is replaced. *)
Fixpoint replace_first {A} (f : A -> bool) (x : A) (l : list A) : list A :=
  match l with
  | [] => []
  | y :: l' => if f y then x :: l' else y :: replace_first f x l'
  end.

(** [DeleteOne]: the first document the filter selects is removed. *)
Fixpoint delete_first {A} (f : A -> bool) (l : list A) : list A :=
  match l with
  | [] => []
  | y :: l' => if f y then l' else y :: delete_first f l'
  end.

(** A descending sort on a string key, by bytes (the server's simple binary
    comparison). *)
Fixpoint insert_desc {A} (key : A -> string) (x : A) (l : list A) : list A :=
  match l with
  | [] => [x]
  | y :: l' =>
      if String.leb (key y) (key x) then x :: y :: l'
      else y :: insert_desc key x l'
  end.

Definition sort_desc {A} (key : A -> string) (l : list A) : list A :=
  fold_right (insert_desc key) [] l.

Definition is_hex (c : ascii) : bool :=
  let n := Z.of_N (N_of_ascii c) in
  ((48 <=? n) && (n <=? 57)) || ((97 <=? n) && (n <=? 102))
  || ((65 <=? n) && (n <=? 70)).

Definition lower_hex (c : ascii) : ascii :=
  let n := N_of_ascii c in
  if (65 <=? Z.of_N n) && (Z.of_N n <=? 70) then ascii_of_N (n + 32) else c.

(** [primitive.ObjectIDFromHex]: 24 hexadecimal digits, else an error. *)
Definition ObjectIDFromHex (s : string) : option models.ObjectID :=
  let l := list_ascii_of_string s in
  if (Nat.eqb (List.length l) 24) && forallb is_hex l
  then Some (string_of_list_ascii (map lower_hex l))
  else None.

Definition ErrInvalidHex : error :=
  "the provided hex string is not a valid ObjectID".

End mongo.

(* ================================================================== *)
(** ** package repository *)
(* ================================================================== *)

Module repository.

Import GoInt models runtime mongo.
Local Open Scope monad_scope.

Module ProductRepository.

Definition GetByID (id : string) : M (error + Product) :=
  match ObjectIDFromHex id with
  | None => ret (inl ErrInvalidHex)
  | Some objectID =>
      e <- driver_call ;;
      match e with
      | Some err => ret (inl err)
      | None =>
          w <- get ;;
          match find (fun p => String.eqb (ID p) objectID) (products w) with
          | Some product => ret (inr product)
          | None => ret (inl ErrNoDocuments)
          end
      end
  end.

Definition GetBySKUID (skuID : string) : M (error + Product) :=
  e <- driver_call ;;
  match e with
  | Some err => ret (inl err)
  | None =>
      w <- get ;;
      match find (fun p => String.eqb (SKUID p) skuID) (products w) with
      | Some product => ret (inr product)
      | None => ret (inl ErrNoDocuments)
      end
  end.

Definition Update (id : string) (product : Product) : M (option error) :=
  match ObjectIDFromHex id with
  | None => ret (Some ErrInvalidHex)
  | Some objectID =>
      e <- driver_call ;;
      match e with
      | Some err => ret (Some err)
      | None =>
          w <- get ;;
          set_products
            (replace_first (fun p => String.eqb (ID p) objectID) product
               (products w)) ;;;
          ret None
      end
  end.

End ProductRepository.

Module StockAdjustmentRepository.

Definition Create (adjustment : StockAdjustment) : M (option error) :=
  adjustment <-
    (if String.eqb (SA_ID adjustment) NilObjectID
     then id <- NewObjectID ;; ret (set_SA_ID adjustment id)
     else ret adjustment) ;;
  e <- driver_call ;;
  match e with
  | Some err => ret (Some err)
  | None =>
      w <- get ;;
      if existsb (fun a => String.eqb (SA_ID a) (SA_ID adjustment))
           (adjustments w)
      then ret (Some ErrDuplicateKey)
      else set_adjustments (adjustments w ++ [adjustment]) ;;; ret None
  end.

Definition GetByID (id : string) : M (error + StockAdjustment) :=
  match ObjectIDFromHex id with
  | None => ret (inl ErrInvalidHex)
  | Some objectID =>
      e <- driver_call ;;
      match e with
      | Some err => ret (inl err)
      | None =>
          w <- get ;;
          match find (fun a => String.eqb (SA_ID a) objectID)
                  (adjustments w) with
          | Some adjustment => ret (inr adjustment)
          | None => ret (inl ErrNoDocuments)
          end
      end
  end.

Definition Delete (id : string) : M (option error) :=
  match ObjectIDFromHex id with
  | None => ret (Some ErrInvalidHex)
  | Some objectID =>
      e <- driver_call ;;
      match e with
      | Some err => ret (Some err)
      | None =>
          w <- get ;;
          let selected := fun a => String.eqb (SA_ID a) objectID in
          if existsb selected (adjustments w) then
            set_adjustments (delete_first selected (adjustments w)) ;;;
            ret None
          else ret (Some ErrNoDocuments)
      end
  end.

End StockAdjustmentRepository.

Module PurchaseRepository.

(** The last four bytes of a string of at least four bytes. *)
Definition last4 (code : string) : string :=
  substring (String.length code - 4) 4 code.

(** [GetNextSequenceNumber]: the purchases whose code matches
    [^prefix] with option [i], sorted by code descending, limit 1. *)
Definition GetNextSequenceNumber `{Regex} (prefix : string)
    : M (Z * option error) :=
  e <- driver_call ;;                              (* collection.Find *)
  match e with
  | Some err => ret (1, Some err)
  | None =>
      w <- get ;;
      let cursor :=
        firstn 1
          (sort_desc PurchaseCode
             (filter (fun p => regex_match ("^" ++ prefix) "i" (PurchaseCode p))
                (purchases w))) in
      match cursor with
      | lastPurchase :: _ =>                        (* cursor.Next *)
          e <- driver_call ;;                      (* cursor.Decode *)
          match e with
          | Some err => ret (1, Some err)
          | None =>
              let code := PurchaseCode lastPurchase in
              if negb (String.eqb code "") then
                if (4 <=? String.length code)%nat then
                  match strconv.Atoi (last4 code) with
                  | Some seq => ret (add seq 1, None)
                  | None => ret (1, None)
                  end
                else ret (1, None)
              else ret (1, None)
          end
      | [] => ret (1, None)
      end
  end.

End PurchaseRepository.

End repository.

(* ================================================================== *)
(** ** package config *)
(* ================================================================== *)

Module config.

Import strings.

Record CategoryItem := mkCategoryItem {
  Name : string;
  Abbreviation : string;
  English : string
}.

Record ConfigData := mkConfigData {
  Categories : list CategoryItem
}.

Record ConfigLoader := mkConfigLoader {
  config : ConfigData
}.

(** The conversion [string(b)] of a byte: the UTF-8 encoding of the code
    point with that number. *)
Definition string_of_byte (b : ascii) : string :=
  let n := N_of_ascii b in
  if (n <? 128)%N then String b EmptyString
  else String (ascii_of_N (192 + n / 64))
         (String (ascii_of_N (128 + n mod 64)) EmptyString).

(** [ConfigLoader.GetCategoryAbbreviation]. *)
Definition GetCategoryAbbreviation `{Strings} (cl : ConfigLoader)
    (categoryName : string) : string :=
  let categoryLower := ToLower categoryName in
  match find (fun category =>
                String.eqb (ToLower (Name category)) categoryLower
                || String.eqb (ToLower (English category)) categoryLower)
             (Categories (config cl)) with
  | Some category => Abbreviation category
  | None =>
      let words := Fields categoryName in
      if Nat.eqb (List.length words) 1 then
        if (3 <=? String.length categoryName)%nat
        then ToUpper (substring 0 3 categoryName)
        else ToUpper categoryName
      else
        let abbrev :=
          fold_left
            (fun abbrev word =>
               match word with
               | String b _ => abbrev ++ ToUpper (string_of_byte b)
               | EmptyString => abbrev
               end)
            words "" in
        if (3 <? String.length abbrev)%nat then substring 0 3 abbrev
        else abbrev
  end.

End config.

(* ================================================================== *)
(** ** package utils: the SKU generator *)
(* ================================================================== *)

Module utils.

Import GoInt strings runtime.

Record SKUGenerator := mkSKUGenerator {
  configLoader : config.ConfigLoader
}.

Definition getCategoryAbbreviation `{Strings} (sg : SKUGenerator)
    (category : string) : string :=
  config.GetCategoryAbbreviation (configLoader sg) category.

(** [GenerateSKUID]: the format string is itself built by [Sprintf] from
    the abbreviation, then applied to the number. *)
Definition GenerateSKUID `{Strings} (sg : SKUGenerator) (category : string)
    (lastNumber : Z) : option string :=
  let abbrev := getCategoryAbbreviation sg category in
  let nextNumber := add lastNumber 1 in
  match fmt.Sprintf "%s-%%04d" [fmt.ArgString abbrev] with
  | Some format => fmt.Sprintf format [fmt.ArgInt nextNumber]
  | None => None
  end.

Definition is_upper (c : ascii) : bool :=
  (65 <=? Z.of_N (N_of_ascii c)) && (Z.of_N (N_of_ascii c) <=? 90).

(** [regexp.FindStringSubmatch] for the pattern [^([A-Z]{2,3})-(\d{4})$]:
    the two groups of a match. *)
Definition matchSKUID (skuID : string) : option (string * string) :=
  let letters := forallb is_upper in
  let digits := forallb strconv.is_digit in
  match list_ascii_of_string skuID with
  | [a; b; dash; d1; d2; d3; d4] =>
      if letters [a; b] && Ascii.eqb dash "-" && digits [d1; d2; d3; d4]
      then Some (string_of_list_ascii [a; b],
                 string_of_list_ascii [d1; d2; d3; d4])
      else None
  | [a; b; c; dash; d1; d2; d3; d4] =>
      if letters [a; b; c] && Ascii.eqb dash "-" && digits [d1; d2; d3; d4]
      then Some (string_of_list_ascii [a; b; c],
                 string_of_list_ascii [d1; d2; d3; d4])
      else None
  | _ => None
  end.

(** [ParseSKUID]: category, number and error. *)
Definition ParseSKUID (skuID : string) : string * Z * option error :=
  match matchSKUID skuID with
  | None => ("", 0, Some ("invalid SKU ID format: " ++ skuID))
  | Some (category, digits) =>
      match strconv.Atoi digits with
      | None => ("", 0, Some ("invalid number in SKU ID: " ++ skuID))
      | Some number => (category, number, None)
      end
  end.

(** [GetNextSKUNumber]: the loop over [existingSKUs], with [maxNumber] as
    its state. *)
Definition GetNextSKUNumber `{Strings} (sg : SKUGenerator) (category : string)
    (existingSKUs : list string) : Z :=
  let categoryAbbrev := getCategoryAbbreviation sg category in
  fold_left
    (fun maxNumber sku =>
       match ParseSKUID sku with
       | (_, _, Some _) => maxNumber
       | (parsedCategory, number, None) =>
           if String.eqb parsedCategory categoryAbbrev && (maxNumber <? number)
           then number else maxNumber
       end)
    existingSKUs 0.

End utils.

(* ================================================================== *)
(** ** package handlers: the stock ledger *)
(* ================================================================== *)

Module handlers.

Import GoInt GoFloat models runtime repository.
Local Open Scope monad_scope.

(** [ApplyStockAdjustment] ([handlers/stock_adjustment_handler.go]).  The
    product is mutated in place in the source; here the mutated product is
    returned. *)
Definition ApplyStockAdjustment (product : Product)
    (adjustmentType : StockAdjustmentType) (stockType : StockType)
    (quantity : int) : Product :=
  let stock := Product_Stock product in
  if String.eqb stockType StockTypeActualStock then
    if String.eqb adjustmentType AdjustmentTypeAdd then
      set_Stock product
        (mkStock (VAT stock) (NonVAT stock) (add (ActualStock stock) quantity))
    else
      set_Stock product
        (mkStock (VAT stock) (NonVAT stock) (sub (ActualStock stock) quantity))
  else
    (* stockInfo points to product.Stock.VAT or to product.Stock.NonVAT *)
    let isVAT := String.eqb stockType StockTypeVAT in
    let stockInfo := if isVAT then VAT stock else NonVAT stock in
    let store (si : StockInfo) (actual : int) : Product :=
      set_Stock product
        (if isVAT then mkStock si (NonVAT stock) actual
         else mkStock (VAT stock) si actual) in
    if String.eqb adjustmentType AdjustmentTypeAdd then
      store (mkStockInfo (add (Purchased stockInfo) quantity)
                         (Sold stockInfo)
                         (add (Remaining stockInfo) quantity))
            (add (ActualStock stock) quantity)
    else
      store (mkStockInfo (Purchased stockInfo)
                         (add (Sold stockInfo) quantity)
                         (sub (Remaining stockInfo) quantity))
            (sub (ActualStock stock) quantity).

(** What a handler wrote to its [http.ResponseWriter]: the status and the
    body, a plain-text error ([http.Error]) or the JSON of a product. *)
Inductive Body :=
| BodyError (message : string)
| BodyProduct (product : Product).

Record Response := mkResponse {
  StatusCode : Z;
  ResponseBody : Body
}.

Definition http_Error (message : string) (code : Z) : Response :=
  mkResponse code (BodyError message).

Definition json_Encode (product : Product) : Response :=
  mkResponse 200 (BodyProduct product).

Definition LF : string := String (ascii_of_nat 10) EmptyString.

(** [RecordStockChange]: the before values and the after values are both
    read from the product as it is passed in. *)
Definition RecordStockChange (product : Product) (sourceType : SourceType)
    (sourceID sourceCode : option string)
    (adjustmentType : StockAdjustmentType) (stockType : StockType)
    (quantity : int) (notes : option string) : M (option error) :=
  createdAt <- time_Now ;;
  let st := Product_Stock product in
  let adjustment :=
    mkStockAdjustment NilObjectID (ID product) (Name product) (SKUID product)
      adjustmentType stockType quantity
      (Purchased (VAT st)) (Sold (VAT st)) (Remaining (VAT st))
      (Purchased (NonVAT st)) (Sold (NonVAT st)) (Remaining (NonVAT st))
      (ActualStock st)
      0 0 0 0 0 0 0
      sourceType sourceID sourceCode notes None createdAt in
  let adjustment := SetAfterValues adjustment product in
  StockAdjustmentRepository.Create adjustment.

(** The first step of [AdjustStock]: the product by its object id, and
    failing that by its SKU id. *)
Definition lookupProduct (productID : string) : M (error + Product) :=
  r <- ProductRepository.GetByID productID ;;
  match r with
  | inr product => ret (inr product)
  | inl _ => ProductRepository.GetBySKUID productID
  end.

(** [StockAdjustmentHandler.AdjustStock]; [productID] is the path variable
    and [body] the decoded request ([None]: the body did not decode). *)
Definition AdjustStock (productID : string)
    (body : option StockAdjustmentRequest) : M Response :=
  r <- lookupProduct productID ;;
  match r with
  | inl _ => ret (http_Error "Product not found" 404)
  | inr product =>
  match body with
  | None => ret (http_Error "Invalid request body" 400)
  | Some req =>
  if Req_Quantity req <=? 0 then
    ret (http_Error "Quantity must be greater than 0" 400)
  else if negb (String.eqb (Req_AdjustmentType req) AdjustmentTypeAdd)
          && negb (String.eqb (Req_AdjustmentType req) AdjustmentTypeReduce) then
    ret (http_Error "Invalid adjustment type. Must be 'add' or 'reduce'" 400)
  else if negb (String.eqb (Req_StockType req) StockTypeVAT)
          && negb (String.eqb (Req_StockType req) StockTypeNonVAT)
          && negb (String.eqb (Req_StockType req) StockTypeActualStock) then
    ret (http_Error
           "Invalid stock type. Must be 'vat', 'nonvat', or 'actualstock'" 400)
  else
    createdAt <- time_Now ;;
    let adjustment :=
      ToStockAdjustment createdAt req product SourceTypeAdjustment None None in
    let product :=
      ApplyStockAdjustment product (Req_AdjustmentType req)
        (Req_StockType req) (Req_Quantity req) in
    updatedAt <- time_Now ;;
    let product := set_UpdatedAt product updatedAt in
    e <- ProductRepository.Update (ID product) product ;;
    match e with
    | Some _ => ret (http_Error "Failed to update product stock" 500)
    | None =>
        let adjustment := SetAfterValues adjustment product in
        e <- StockAdjustmentRepository.Create adjustment ;;
        match e with
        | Some err =>
            print ("Warning: Failed to save stock adjustment history: "
                   ++ err ++ LF)
        | None => ret tt
        end ;;;
        ret (json_Encode product)
    end
  end
  end.

(** [StockAdjustmentHandler.DeleteStockAdjustment]. *)
Definition DeleteStockAdjustment (adjustmentID : string) : M Response :=
  r <- StockAdjustmentRepository.GetByID adjustmentID ;;
  match r with
  | inl _ => ret (http_Error "Stock adjustment not found" 404)
  | inr adjustment =>
  r <- ProductRepository.GetByID (ProductID adjustment) ;;
  match r with
  | inl _ => ret (http_Error "Product not found" 500)
  | inr product =>
    let reverseType :=
      if String.eqb (AdjustmentType adjustment) AdjustmentTypeAdd
      then AdjustmentTypeReduce else AdjustmentTypeAdd in
    let product :=
      ApplyStockAdjustment product reverseType (SA_StockType adjustment)
        (Quantity adjustment) in
    updatedAt <- time_Now ;;
    let product := set_UpdatedAt product updatedAt in
    e <- ProductRepository.Update (ID product) product ;;
    match e with
    | Some _ => ret (http_Error "Failed to update product stock" 500)
    | None =>
        e <- StockAdjustmentRepository.Delete adjustmentID ;;
        match e with
        | Some _ => ret (http_Error "Failed to delete stock adjustment" 500)
        | None => ret (json_Encode product)
        end
    end
  end
  end.

(** A [for ... range] loop whose body may [continue]. *)
Fixpoint for_range {A} (l : list A) (body : A -> M unit) : M unit :=
  match l with
  | [] => ret tt
  | x :: l' => body x ;;; for_range l' body
  end.

(** The prefix of the note of a purchase's audit record (bytes of the
    UTF-8 text of the source). *)
Definition purchaseNotePrefix : string := "ซื้อจากรายการ ".

(** One iteration of the loop of [updateProductData]. *)
Definition updateProductItem `{Platform} (purchase : Purchase)
    (item : PurchaseItem) : M unit :=
  r <- ProductRepository.GetByID (Item_ProductID item) ;;
  match r with
  | inl _ => ret tt
  | inr product =>
      t <- time_Now ;;
      let product := UpdatePrice t product (UnitPrice item) (IsVAT purchase) true in
      let stockType :=
        if IsVAT purchase then StockTypeVAT else StockTypeNonVAT in
      let product :=
        ApplyStockAdjustment product AdjustmentTypeAdd stockType
          (Item_Quantity item) in
      e <- ProductRepository.Update (Item_ProductID item) product ;;
      match e with
      | Some _ => ret tt
      | None =>
          let purchaseID := Purchase_ID purchase in
          let purchaseCode := PurchaseCode purchase in
          let notes := purchaseNotePrefix ++ purchaseCode in
          e <- RecordStockChange product SourceTypePurchase
                 (Some purchaseID) (Some purchaseCode)
                 AdjustmentTypeAdd stockType (Item_Quantity item) (Some notes) ;;
          match e with
          | Some err =>
              print ("Warning: Failed to record stock change history: "
                     ++ err ++ LF)
          | None => ret tt
          end
      end
  end.

(** [PurchaseHandler.updateProductData]. *)
Definition updateProductData `{Platform} (purchase : Purchase)
    : M (option error) :=
  for_range (Items purchase) (updateProductItem purchase) ;;;
  ret None.

End handlers.

(* ================================================================== *)
(** ** Concrete platforms, used to run the model on examples *)
(* ================================================================== *)

Module examples.

Import GoInt GoFloat strings mongo models.

(** amd64: the conversion instruction answers the "integer indefinite"
    value, the least [int], for every operand it cannot represent. *)
Definition amd64 : Platform := {| unrepresentable := fun _ => MinInt |}.

Definition map_string (f : ascii -> ascii) (s : string) : string :=
  string_of_list_ascii (map f (list_ascii_of_string s)).

Definition lower_ascii (c : ascii) : ascii :=
  let n := N_of_ascii c in
  if (65 <=? Z.of_N n) && (Z.of_N n <=? 90) then ascii_of_N (n + 32) else c.

Definition upper_ascii (c : ascii) : ascii :=
  let n := N_of_ascii c in
  if (97 <=? Z.of_N n) && (Z.of_N n <=? 122) then ascii_of_N (n - 32) else c.

Definition is_space (c : ascii) : bool :=
  let n := Z.of_N (N_of_ascii c) in
  (n =? 32) || ((9 <=? n) && (n <=? 13)).

(** Splitting around runs of white space; [word] is the field being read,
    in reverse. *)
Fixpoint fields_aux (word : list ascii) (l : list ascii) : list string :=
  let flush := fun rest =>
    match word with
    | [] => rest
    | _ :: _ => string_of_list_ascii (rev word) :: rest
    end in
  match l with
  | [] => flush []
  | c :: l' =>
      if is_space c then flush (fields_aux [] l')
      else fields_aux (c :: word) l'
  end.

(** The three functions of package [strings] on text made of ASCII bytes
    (other bytes are passed through unchanged). *)
Definition ascii_strings : Strings := {|
  ToLower := map_string lower_ascii;
  ToUpper := map_string upper_ascii;
  Fields := fun s => fields_aux [] (list_ascii_of_string s)
|}.

(** A regular-expression engine for the patterns [^literal], the literal
    free of metacharacters: a match is a prefix, compared without regard to
    the case of ASCII letters under option [i]. *)
Definition literal_regex : Regex := {|
  regex_match := fun pattern options subject =>
    match pattern with
    | String "^"%char literal =>
        if String.eqb options "i"
        then String.prefix (map_string lower_ascii literal)
               (map_string lower_ascii subject)
        else String.prefix literal subject
    | _ => false
    end
|}.

Definition zeroTime : Time := mkTime 0 0 0.
Definition zeroPriceInfo : PriceInfo :=
  mkPriceInfo 0 0 0 0 0 0 0 0 0 0 0 0 0.
Definition zeroPrice : Price :=
  mkPrice zeroPriceInfo zeroPriceInfo zeroPriceInfo zeroPriceInfo [].
Definition zeroStockInfo : StockInfo := mkStockInfo 0 0 0.
Definition zeroStock : Stock := mkStock zeroStockInfo zeroStockInfo 0.

(** A product whose price history and stock counters are all zero. *)
Definition zeroProduct : Product :=
  mkProduct "65f000000000000000000001" "ABC-0001" "ABC-s/RE" "box" "" "red"
    "s" "abc" "ABC-0001" None zeroPrice zeroStock zeroTime zeroTime.

(** A world whose driver never fails, with four purchases on record. *)
Definition purchaseWorld : runtime.World :=
  runtime.mkWorld [] []
    [ mkPurchase "65f0000000000000000000a1" "PUR-VAT-6701-0001" "c1" [] true;
      mkPurchase "65f0000000000000000000a3" "PUR-VAT-6701-0003" "c1" [] true;
      mkPurchase "65f0000000000000000000a2" "PUR-VAT-6701-0002" "c2" [] true;
      mkPurchase "65f0000000000000000000b9" "PUR-NV-6701-0009" "c2" [] false ]
    [] (fun _ => None) 0 (fun _ => zeroTime) 0 (fun _ => NilObjectID) 0.

(** A generator whose configuration has no category. *)
Definition bareGenerator : utils.SKUGenerator :=
  utils.mkSKUGenerator (config.mkConfigLoader (config.mkConfigData [])).

(** A world with one product on record, stock all zero, and one audit
    record of an earlier addition of 5 to its ["vat"] stock; the driver
    fails on the calls listed in [failing]. *)
Definition auditRecord : StockAdjustment :=
  mkStockAdjustment "65f0000000000000000000c1" "65f000000000000000000001"
    "box" "ABC-0001" AdjustmentTypeAdd StockTypeVAT 5
    0 0 0 0 0 0 0  5 0 5 0 0 0 5
    SourceTypeAdjustment None None None None zeroTime.

(** The product after that addition. *)
Definition stockedProduct : Product :=
  set_Stock zeroProduct (mkStock (mkStockInfo 5 0 5) zeroStockInfo 5).

Definition shopWorld (failing : list nat) : runtime.World :=
  runtime.mkWorld [stockedProduct] [auditRecord] [] []
    (fun n => if existsb (Nat.eqb n) failing then Some "connection reset" else None)
    0 (fun _ => zeroTime) 0 (fun _ => "65f0000000000000000000d1") 0.

Definition purchaseOfTen : Purchase :=
  mkPurchase "65f0000000000000000000a1" "PUR-VAT-6701-0001" "c1"
    [mkPurchaseItem "65f000000000000000000001" "box" "ABC-s/RE" 10 100 1000]
    true.

End examples.

(* ================================================================== *)
(** ** The specification's reading of the rounding *)
(* ================================================================== *)

Module spec.

Import GoInt GoFloat.

(** The greatest integer not above a finite float ([None] for an infinity
    or a NaN). *)
Definition floorZ (f : float) : option Z :=
  match Prim2SF f with
  | S754_zero _ => Some 0
  | S754_finite s m e => Some (Z.shiftl (if s then Zneg m else Zpos m) e)
  | S754_infinity _ => None
  | S754_nan => None
  end.

(** [floor] as a float; an infinity or a NaN is its own floor. *)
Definition floor (f : float) : float :=
  match floorZ f with
  | Some n => of_int n
  | None => f
  end.

(** [round2(x) = floor(x*100 + 0.5) / 100], as the specification writes
    it. *)
Definition round2_floor (x : float) : float :=
  (floor (x * 100 + 0.5) / 100)%float.

(** Text without a percent sign. *)
Definition no_percent (s : string) : Prop :=
  ~ In "%"%char (list_ascii_of_string s).

(** The four decimal digits of a number below 10000. *)
Definition pad4 (n : Z) : string :=
  let digit := fun d => ascii_of_N (Z.to_N (48 + d mod 10)) in
  String (digit (n / 1000)) (String (digit (n / 100))
    (String (digit (n / 10)) (String (digit n) EmptyString))).

(** [purchased - sold - remaining] of a [StockInfo], computed on [int];
    and the same on the integers. *)
Definition balance (si : models.StockInfo) : Z :=
  sub (sub (models.Purchased si) (models.Sold si)) (models.Remaining si).

Definition balanceZ (si : models.StockInfo) : Z :=
  models.Purchased si - models.Sold si - models.Remaining si.

(** The relation [purchased - sold == remaining], as Go evaluates it. *)
Definition consistent (si : models.StockInfo) : Prop :=
  sub (models.Purchased si) (models.Sold si) = models.Remaining si.

End spec.

(* ================================================================== *)
(** ** More of Go's standard library *)
(* ================================================================== *)

Module text.

Import fmt.

(** The verb [%0Nd] of [fmt.Sprintf] at width [width]: the sign first, then
    zeros up to the width, then the digits. *)
Definition fmt_0d (width : nat) (n : Z) : string :=
  if n <? 0 then String "-"%char (pad0 (width - 1) (decimal (- n)))
  else pad0 width (decimal n).

(** [strings.Split(s, sep)] for a separator [sep] of one byte: the pieces
    between the separators, one more than there are separators. *)
Fixpoint Split (s : string) (sep : ascii) : list string :=
  match s with
  | EmptyString => [EmptyString]
  | String c rest =>
      if Ascii.eqb c sep then EmptyString :: Split rest sep
      else
        match Split rest sep with
        | piece :: pieces => String c piece :: pieces
        | [] => [String c EmptyString]
        end
  end.

End text.

(* ================================================================== *)
(** ** package handlers: the purchase code *)
(* ================================================================== *)

Module purchase_handler.

Import GoInt models runtime mongo repository text.
Local Open Scope monad_scope.

(** [PurchaseHandler.generatePurchaseID] ([handlers/purchase_handler.go]). *)
Definition generatePurchaseID `{Regex} (isVAT : bool)
    : M (string * option error) :=
  now <- time_Now ;;
  let beYear := add (Year now) 543 in
  (* fmt.Sprintf("%02d%02d", beYear%100, int(now.Month())) *)
  let dateStr := fmt_0d 2 (Z.rem beYear 100) ++ fmt_0d 2 (Month now) in
  let prefix :=
    if isVAT then "PUR-VAT-" ++ dateStr else "PUR-NV-" ++ dateStr in
  r <- PurchaseRepository.GetNextSequenceNumber prefix ;;
  match r with
  | (_, Some err) => ret ("", Some err)
  | (nextSeq, None) =>
      let seqStr := fmt_0d 4 nextSeq in
      ret (prefix ++ "-" ++ seqStr, None)
  end.

End purchase_handler.

(* ================================================================== *)
(** ** package models: sales and quotations *)
(* ================================================================== *)

Module sale_models.

Import GoInt models runtime.
Local Open Scope monad_scope.

(** [SaleItem] and [Sale] ([models/sale.go]); of a sale, the fields the
    modelled functions read or write. *)
Record SaleItem := mkSaleItem {
  SaleItem_ProductID : string;
  SaleItem_ProductName : string;
  SaleItem_ProductCode : string;
  SaleItem_Quantity : int;
  SaleItem_UnitPrice : float;
  SaleItem_TotalPrice : float
}.

Record Sale := mkSale {
  Sale_ID : ObjectID;
  SaleCode : string;
  QuotationCode : option string;
  Sale_CustomerID : string;
  Sale_Items : list SaleItem;
  Sale_IsVAT : bool;
  Sale_CreatedAt : Time;
  Sale_UpdatedAt : Time
}.

Record SaleRequest := mkSaleRequest {
  SaleReq_CustomerID : string;
  SaleReq_Items : list SaleItem;
  SaleReq_IsVAT : bool;
  SaleReq_QuotationCode : option string
}.

(** [SaleRequest.ToSale]: the id and the code are left at their zero
    values. *)
Definition ToSale (sr : SaleRequest) : M Sale :=
  now <- time_Now ;;
  ret (mkSale NilObjectID "" (SaleReq_QuotationCode sr)
         (SaleReq_CustomerID sr) (SaleReq_Items sr) (SaleReq_IsVAT sr)
         now now).

Definition set_SaleCode (s : Sale) (code : string) : Sale :=
  mkSale (Sale_ID s) code (QuotationCode s) (Sale_CustomerID s)
    (Sale_Items s) (Sale_IsVAT s) (Sale_CreatedAt s) (Sale_UpdatedAt s).

Definition set_Sale_ID (s : Sale) (id : ObjectID) : Sale :=
  mkSale id (SaleCode s) (QuotationCode s) (Sale_CustomerID s)
    (Sale_Items s) (Sale_IsVAT s) (Sale_CreatedAt s) (Sale_UpdatedAt s).

(** [Quotation] ([models/product.go]); the fields
    [updateQuotationWithSaleCode] reads or writes. *)
Record Quotation := mkQuotation {
  Quotation_ID : ObjectID;
  Quotation_Code : string;
  Quotation_SaleCode : option string;
  Quotation_UpdatedAt : Time
}.

End sale_models.

(* ================================================================== *)
(** ** package handlers: the migration of purchases and sales *)
(* ================================================================== *)

Module migration.

Import GoInt GoFloat strings models runtime repository sale_models.
Local Open Scope monad_scope.

(** Assignments to the fields of [product.Stock]. *)
Definition set_VAT (s : Stock) (si : StockInfo) : Stock :=
  mkStock si (NonVAT s) (ActualStock s).

Definition set_NonVAT (s : Stock) (si : StockInfo) : Stock :=
  mkStock (VAT s) si (ActualStock s).

Definition set_ActualStock (s : Stock) (n : int) : Stock :=
  mkStock (VAT s) (NonVAT s) n.

Definition set_Remaining (si : StockInfo) (n : int) : StockInfo :=
  mkStockInfo (Purchased si) (Sold si) n.

(** The statements of [updateProductsFromPurchase] that change the stock
    of the product of one item. *)
Definition purchasedStock (isVAT : bool) (quantity : int) (s : Stock)
    : Stock :=
  let s :=
    if isVAT then
      set_VAT s (mkStockInfo (add (Purchased (VAT s)) quantity)
                             (Sold (VAT s))
                             (add (Remaining (VAT s)) quantity))
    else
      set_NonVAT s (mkStockInfo (add (Purchased (NonVAT s)) quantity)
                                (Sold (NonVAT s))
                                (add (Remaining (NonVAT s)) quantity)) in
  set_ActualStock s (add (ActualStock s) quantity).

(** [MigrationHandler.updateProductsFromPurchase]
    ([handlers/product_handler.go]): the loop over the items; the first
    failure returns. *)
Fixpoint updateProductsFromPurchase_items `{Platform} (purchase : Purchase)
    (items : list PurchaseItem) : M (option error) :=
  match items with
  | [] => ret None
  | item :: rest =>
      r <- ProductRepository.GetByID (Item_ProductID item) ;;
      match r with
      | inl err =>
          ret (Some ("failed to get product " ++ Item_ProductID item ++ ": "
                     ++ err))
      | inr product =>
          t <- time_Now ;;
          let product :=
            UpdatePrice t product (UnitPrice item) (IsVAT purchase) true in
          let product :=
            set_Stock product
              (purchasedStock (IsVAT purchase) (Item_Quantity item)
                 (Product_Stock product)) in
          e <- ProductRepository.Update (Item_ProductID item) product ;;
          match e with
          | Some err =>
              ret (Some ("failed to update product " ++ Item_ProductID item
                         ++ ": " ++ err))
          | None => updateProductsFromPurchase_items purchase rest
          end
      end
  end.

Definition updateProductsFromPurchase `{Platform} (purchase : Purchase)
    : M (option error) :=
  updateProductsFromPurchase_items purchase (Items purchase).

(** The statements of [updateProductsFromSale] that change the stock of
    the product of one item: the sale, then the three floors at zero. *)
Definition soldStock (isVAT : bool) (quantity : int) (s : Stock) : Stock :=
  let s :=
    if isVAT then
      set_VAT s (mkStockInfo (Purchased (VAT s))
                             (add (Sold (VAT s)) quantity)
                             (sub (Remaining (VAT s)) quantity))
    else
      set_NonVAT s (mkStockInfo (Purchased (NonVAT s))
                                (add (Sold (NonVAT s)) quantity)
                                (sub (Remaining (NonVAT s)) quantity)) in
  let s := set_ActualStock s (sub (ActualStock s) quantity) in
  let s := if ActualStock s <? 0 then set_ActualStock s 0 else s in
  let s :=
    if Remaining (VAT s) <? 0 then set_VAT s (set_Remaining (VAT s) 0)
    else s in
  let s :=
    if Remaining (NonVAT s) <? 0
    then set_NonVAT s (set_Remaining (NonVAT s) 0)
    else s in
  s.

(** [MigrationHandler.updateProductsFromSale]. *)
Fixpoint updateProductsFromSale_items `{Platform} (sale : Sale)
    (items : list SaleItem) : M (option error) :=
  match items with
  | [] => ret None
  | item :: rest =>
      r <- ProductRepository.GetByID (SaleItem_ProductID item) ;;
      match r with
      | inl err =>
          ret (Some ("failed to get product " ++ SaleItem_ProductID item
                     ++ ": " ++ err))
      | inr product =>
          t <- time_Now ;;
          let product :=
            UpdatePrice t product (SaleItem_UnitPrice item) (Sale_IsVAT sale)
              false in
          let product :=
            set_Stock product
              (soldStock (Sale_IsVAT sale) (SaleItem_Quantity item)
                 (Product_Stock product)) in
          e <- ProductRepository.Update (SaleItem_ProductID item) product ;;
          match e with
          | Some err =>
              ret (Some ("failed to update product "
                         ++ SaleItem_ProductID item ++ ": " ++ err))
          | None => updateProductsFromSale_items sale rest
          end
      end
  end.

Definition updateProductsFromSale `{Platform} (sale : Sale)
    : M (option error) :=
  updateProductsFromSale_items sale (Sale_Items sale).

(** The two bytes [generateProductCode] keeps of each of its operands. *)
Definition twoBytes `{Strings} (s : string) : string :=
  let code := ToUpper s in
  if (2 <? String.length code)%nat then substring 0 2 code
  else if Nat.eqb (String.length code) 1 then code ++ "X"
  else if Nat.eqb (String.length code) 0 then "XX"
  else code.

(** [MigrationHandler.generateProductCode]. *)
Definition generateProductCode `{Strings} (category size color : string)
    : option string :=
  let categoryPrefix := twoBytes category in
  let sizeCode := twoBytes size in
  let colorCode := twoBytes color in
  fmt.Sprintf "%s-%s/%s"
    [fmt.ArgString categoryPrefix; fmt.ArgString sizeCode;
     fmt.ArgString colorCode].

End migration.

(* ================================================================== *)
(** ** The sales and the quotations beside the world *)
(* ================================================================== *)

Module shop.

Import GoInt models runtime mongo sale_models text.

(** The world together with the two collections the sale handler adds to
    it. *)
Record Shop := mkShop {
  world : World;
  sales : list Sale;
  quotations : list Quotation
}.

Definition ShopM (A : Type) : Type := Shop -> A * Shop.

Definition Sret {A} (a : A) : ShopM A := fun s => (a, s).

Definition Sbind {A B} (c : ShopM A) (k : A -> ShopM B) : ShopM B :=
  fun s => let '(a, s') := c s in k a s'.

(** A computation on the world, run in the shop. *)
Definition lift {A} (c : M A) : ShopM A := fun s =>
  let '(a, w) := c (world s) in (a, mkShop w (sales s) (quotations s)).

Definition Sget : ShopM Shop := fun s => (s, s).

Definition set_sales (l : list Sale) : ShopM unit := fun s =>
  (tt, mkShop (world s) l (quotations s)).

Definition set_quotations (l : list Quotation) : ShopM unit := fun s =>
  (tt, mkShop (world s) (sales s) l).

Declare Scope shop_scope.
Delimit Scope shop_scope with shop.
Notation "x <- c ;; k" := (Sbind c (fun x => k))
  (at level 100, c at next level, right associativity) : shop_scope.
Notation "c ;;; k" := (Sbind c (fun _ => k))
  (at level 100, right associativity) : shop_scope.

Local Open Scope shop_scope.

Module SaleRepository.

(** [InsertOne]: a document without an id is given a fresh one by the
    driver; the struct passed in is not changed. *)
Definition Create (sale : Sale) : ShopM (option error) :=
  document <-
    (if String.eqb (Sale_ID sale) NilObjectID
     then id <- lift NewObjectID ;; Sret (set_Sale_ID sale id)
     else Sret sale) ;;
  e <- lift driver_call ;;
  match e with
  | Some err => Sret (Some err)
  | None =>
      s <- Sget ;;
      if existsb (fun x => String.eqb (Sale_ID x) (Sale_ID document)) (sales s)
      then Sret (Some ErrDuplicateKey)
      else set_sales (sales s ++ [document]) ;;; Sret None
  end.

Definition GetByID (id : string) : ShopM (error + Sale) :=
  match ObjectIDFromHex id with
  | None => Sret (inl ErrInvalidHex)
  | Some objectID =>
      e <- lift driver_call ;;
      match e with
      | Some err => Sret (inl err)
      | None =>
          s <- Sget ;;
          match find (fun x => String.eqb (Sale_ID x) objectID) (sales s) with
          | Some sale => Sret (inr sale)
          | None => Sret (inl ErrNoDocuments)
          end
      end
  end.

(** [Delete]: the number of deleted documents is not looked at. *)
Definition Delete (id : string) : ShopM (option error) :=
  match ObjectIDFromHex id with
  | None => Sret (Some ErrInvalidHex)
  | Some objectID =>
      e <- lift driver_call ;;
      match e with
      | Some err => Sret (Some err)
      | None =>
          s <- Sget ;;
          set_sales
            (delete_first (fun x => String.eqb (Sale_ID x) objectID) (sales s)) ;;;
          Sret None
      end
  end.

(** The statements of [GetNextSequenceNumber] after the cursor was read:
    the number that follows the code of the last sale. *)
Definition sequenceAfter (saleCode : string) : Z :=
  if String.eqb saleCode "" then 1
  else
    let parts := Split saleCode "-" in
    if (List.length parts <? 3)%nat then 1
    else
      let seqStr := last parts "" in
      match strconv.Atoi seqStr with
      | Some seq => add seq 1
      | None => 1
      end.

(** [GetNextSequenceNumber]: the sales whose code matches [^prefix] with
    option [i], sorted by code descending, limit 1. *)
Definition GetNextSequenceNumber `{Regex} (prefix : string)
    : ShopM (Z * option error) :=
  e <- lift driver_call ;;                              (* collection.Find *)
  match e with
  | Some err => Sret (0, Some err)
  | None =>
      s <- Sget ;;
      let cursor :=
        firstn 1
          (sort_desc SaleCode
             (filter (fun x => regex_match ("^" ++ prefix) "i" (SaleCode x))
                (sales s))) in
      match cursor with
      | lastSale :: _ =>                                (* cursor.Next *)
          e <- lift driver_call ;;                      (* cursor.Decode *)
          match e with
          | Some err => Sret (0, Some err)
          | None => Sret (sequenceAfter (SaleCode lastSale), None)
          end
      | [] => Sret (sequenceAfter "", None)   (* lastSale is the zero Sale *)
      end
  end.

End SaleRepository.

Module QuotationRepository.

Definition GetByCode (code : string) : ShopM (error + Quotation) :=
  e <- lift driver_call ;;
  match e with
  | Some err => Sret (inl err)
  | None =>
      s <- Sget ;;
      match find (fun q => String.eqb (Quotation_Code q) code)
              (quotations s) with
      | Some quotation => Sret (inr quotation)
      | None => Sret (inl ErrNoDocuments)
      end
  end.

Definition Update (id : string) (quotation : Quotation) : ShopM (option error) :=
  match ObjectIDFromHex id with
  | None => Sret (Some ErrInvalidHex)
  | Some objectID =>
      e <- lift driver_call ;;
      match e with
      | Some err => Sret (Some err)
      | None =>
          s <- Sget ;;
          set_quotations
            (replace_first (fun q => String.eqb (Quotation_ID q) objectID)
               quotation (quotations s)) ;;;
          Sret None
      end
  end.

End QuotationRepository.

End shop.

(* ================================================================== *)
(** ** package handlers: sales *)
(* ================================================================== *)

Module sale_handler.

Import GoInt GoFloat models runtime mongo repository handlers text.
Import sale_models shop.

(** What the sale handler wrote to its [http.ResponseWriter]. *)
Inductive SaleBody :=
| NoBody
| SaleError (message : string)
| SaleJSON (sale : Sale).

Record SaleResponse := mkSaleResponse {
  SaleStatus : Z;
  SaleContent : SaleBody
}.

Definition sale_Error (message : string) (code : Z) : SaleResponse :=
  mkSaleResponse code (SaleError message).

(** The prefix of the note of a sale's audit record (bytes of the UTF-8
    text of the source). *)
Definition saleNotePrefix : string := "ขายจากรายการ ".

Definition stockTypeOf (isVAT : bool) : StockType :=
  if isVAT then StockTypeVAT else StockTypeNonVAT.

Local Open Scope monad_scope.

(** The first loop of [CreateSale], which cuts the stock of each item;
    [Some response]: the handler has answered and returns. *)
Fixpoint cutStock `{Platform} (sale : Sale) (items : list SaleItem)
    : M (option SaleResponse) :=
  match items with
  | [] => ret None
  | item :: rest =>
      r <- ProductRepository.GetByID (SaleItem_ProductID item) ;;
      match r with
      | inl _ =>
          ret (Some (sale_Error
                       ("Product not found: " ++ SaleItem_ProductID item) 400))
      | inr product =>
          t <- time_Now ;;
          let product :=
            UpdatePrice t product (SaleItem_UnitPrice item) (Sale_IsVAT sale)
              false in
          let stockType := stockTypeOf (Sale_IsVAT sale) in
          let product :=
            ApplyStockAdjustment product AdjustmentTypeReduce stockType
              (SaleItem_Quantity item) in
          e <- ProductRepository.Update (SaleItem_ProductID item) product ;;
          match e with
          | Some _ =>
              ret (Some (sale_Error
                           ("Failed to update product stock: "
                            ++ SaleItem_ProductID item) 500))
          | None =>
              let saleID := Sale_ID sale in
              let saleCode := SaleCode sale in
              let notes := saleNotePrefix ++ saleCode in
              e <- RecordStockChange product SourceTypeSale
                     (Some saleID) (Some saleCode)
                     AdjustmentTypeReduce stockType (SaleItem_Quantity item)
                     (Some notes) ;;
              match e with
              | Some err =>
                  print ("Warning: Failed to record stock change history: "
                         ++ err ++ LF)
              | None => ret tt
              end ;;;
              cutStock sale rest
          end
      end
  end.

(** One iteration of the loop of [DeleteSale] that gives the stock back:
    neither a missing product nor a failed update is reported. *)
Definition restoreItem (sale : Sale) (item : SaleItem) : M unit :=
  r <- ProductRepository.GetByID (SaleItem_ProductID item) ;;
  match r with
  | inr product =>
      let stockType := stockTypeOf (Sale_IsVAT sale) in
      let product :=
        ApplyStockAdjustment product AdjustmentTypeAdd stockType
          (SaleItem_Quantity item) in
      ProductRepository.Update (SaleItem_ProductID item) product ;;;
      ret tt
  | inl _ => ret tt
  end.

Local Close Scope monad_scope.
Local Open Scope shop_scope.

(** [SaleHandler.generateSaleID]. *)
Definition generateSaleID `{Regex} (isVAT : bool) : ShopM (string * option error) :=
  now <- lift time_Now ;;
  let beYear := add (Year now) 543 in
  (* fmt.Sprintf("%02d%02d", beYear%100, int(now.Month())) *)
  let dateStr := fmt_0d 2 (Z.rem beYear 100) ++ fmt_0d 2 (Month now) in
  let prefix := if isVAT then "INV-" ++ dateStr else "NV-" ++ dateStr in
  r <- SaleRepository.GetNextSequenceNumber prefix ;;
  match r with
  | (_, Some err) => Sret ("", Some err)
  | (nextSeq, None) =>
      let seqStr := fmt_0d 4 nextSeq in
      Sret (prefix ++ "-" ++ seqStr, None)
  end.

(** [SaleHandler.updateQuotationWithSaleCode]. *)
Definition updateQuotationWithSaleCode (quotationCode saleCode : string)
    : ShopM (option error) :=
  r <- QuotationRepository.GetByCode quotationCode ;;
  match r with
  | inl err => Sret (Some ("quotation not found: " ++ err))
  | inr quotation =>
      now <- lift time_Now ;;
      let quotation :=
        mkQuotation (Quotation_ID quotation) (Quotation_Code quotation)
          (Some saleCode) now in
      QuotationRepository.Update (Quotation_ID quotation) quotation
  end.

(** [SaleHandler.CreateSale]; [body] is the decoded request ([None]: the
    body did not decode). *)
Definition CreateSale `{Platform} `{Regex} (body : option SaleRequest)
    : ShopM SaleResponse :=
  match body with
  | None => Sret (sale_Error "Invalid request body" 400)
  | Some saleReq =>
  r <- generateSaleID (SaleReq_IsVAT saleReq) ;;
  match r with
  | (_, Some _) => Sret (sale_Error "Failed to generate sale ID" 500)
  | (saleCode, None) =>
  sale <- lift (ToSale saleReq) ;;
  let sale := set_SaleCode sale saleCode in
  r <- lift (cutStock sale (Sale_Items sale)) ;;
  match r with
  | Some response => Sret response
  | None =>
  e <- SaleRepository.Create sale ;;
  match e with
  | Some _ => Sret (sale_Error "Failed to create sale" 500)
  | None =>
      match QuotationCode sale with
      | Some quotationCode =>
          if negb (String.eqb quotationCode "") then
            e <- updateQuotationWithSaleCode quotationCode (SaleCode sale) ;;
            match e with
            | Some err =>
                lift (print ("Warning: Failed to update quotation "
                             ++ quotationCode ++ " with sale code "
                             ++ SaleCode sale ++ ": " ++ err ++ LF))
            | None => Sret tt
            end
          else Sret tt
      | None => Sret tt
      end ;;;
      Sret (mkSaleResponse 201 (SaleJSON sale))
  end
  end
  end
  end.

(** [SaleHandler.DeleteSale]; [path] is the path of the request URL. *)
Definition DeleteSale (path : string) : ShopM SaleResponse :=
  let pathParts := Split path "/" in
  if (List.length pathParts <? 4)%nat then
    Sret (sale_Error "Invalid sale ID" 400)
  else
    let id := last pathParts "" in
    r <- SaleRepository.GetByID id ;;
    match r with
    | inl _ => Sret (sale_Error "Sale not found" 404)
    | inr existingSale =>
        lift (for_range (Sale_Items existingSale) (restoreItem existingSale)) ;;;
        e <- SaleRepository.Delete id ;;
        match e with
        | Some _ => Sret (sale_Error "Failed to delete sale" 500)
        | None => Sret (mkSaleResponse 204 NoBody)
        end
    end.

End sale_handler.

(* ================================================================== *)
(** ** More examples *)
(* ================================================================== *)

Module samples.

Import models runtime examples sale_models.

Definition january : Time := mkTime 2024 1 0.

(** A world in January 2024 (2567 BE) whose driver never fails: the
    product and the audit record of [shopWorld], and three purchases, the
    greatest of the month numbered 9999. *)
Definition busyWorld : World :=
  mkWorld [stockedProduct] [auditRecord]
    [ mkPurchase "65f0000000000000000000a1" "PUR-VAT-6701-0001" "c1" [] true;
      mkPurchase "65f0000000000000000000a2" "PUR-VAT-6701-9999" "c1" [] true;
      mkPurchase "65f0000000000000000000b1" "PUR-NV-6701-0002" "c2" [] false ]
    [] (fun _ => None) 0 (fun _ => january) 0
    (fun _ => "65f0000000000000000000d1") 0.

(** The purchase stored next. *)
Definition overflowPurchase : Purchase :=
  mkPurchase "65f0000000000000000000a3" "PUR-VAT-6701-10000" "c1" [] true.

Definition with_purchases (w : World) (l : list Purchase) : World :=
  mkWorld (products w) (adjustments w) l (stdout w) (outcome w) (calls w)
    (now w) (ticks w) (fresh w) (allocs w).

(** An item for the product on record, and one whose product id is not an
    object id. *)
Definition boxItem : PurchaseItem :=
  mkPurchaseItem "65f000000000000000000001" "box" "ABC-s/RE" 10 100 1000.

Definition ghostItem : PurchaseItem :=
  mkPurchaseItem "ghost" "ghost" "" 3 100 300.

(** A sale of 8 boxes: more than the 5 that remain. *)
Definition saleOfEight : Sale :=
  mkSale "65f0000000000000000000e1" "INV-6701-0001" None "c1"
    [mkSaleItem "65f000000000000000000001" "box" "ABC-s/RE" 8 120 960] true
    january january.

End samples.

(* ================================================================== *)
(** ** Notions the properties are stated with *)
(* ================================================================== *)

Module notions.

Import GoInt models runtime utils.

(** The difference between the counted stock and what the two ledgers say
    remains, as Go computes it. *)
Definition unaccounted (s : Stock) : Z :=
  sub (sub (ActualStock s) (Remaining (VAT s))) (Remaining (NonVAT s)).

(** Two or three capital letters: the letters of a SKU that [ParseSKUID]
    accepts. *)
Definition capitals23 (s : string) : bool :=
  (Nat.eqb (String.length s) 2 || Nat.eqb (String.length s) 3)
  && forallb is_upper (list_ascii_of_string s).

(** Nothing a client can see has changed between two worlds: the three
    collections and the standard output are the same. *)
Definition unchanged (w w' : World) : Prop :=
  products w' = products w /\ adjustments w' = adjustments w
  /\ purchases w' = purchases w /\ stdout w' = stdout w.

(** A request that passes the three checks of [AdjustStock]. *)
Definition well_formed (req : StockAdjustmentRequest) : bool :=
  (0 <? Req_Quantity req)
  && (String.eqb (Req_AdjustmentType req) AdjustmentTypeAdd
      || String.eqb (Req_AdjustmentType req) AdjustmentTypeReduce)
  && (String.eqb (Req_StockType req) StockTypeVAT
      || String.eqb (Req_StockType req) StockTypeNonVAT
      || String.eqb (Req_StockType req) StockTypeActualStock).

(** The two snapshots of an audit record, as stocks. *)
Definition before_stock (a : StockAdjustment) : Stock :=
  mkStock
    (mkStockInfo (BeforeVATPurchased a) (BeforeVATSold a)
       (BeforeVATRemaining a))
    (mkStockInfo (BeforeNonVATPurchased a) (BeforeNonVATSold a)
       (BeforeNonVATRemaining a))
    (BeforeActualStock a).

Definition after_stock (a : StockAdjustment) : Stock :=
  mkStock
    (mkStockInfo (AfterVATPurchased a) (AfterVATSold a) (AfterVATRemaining a))
    (mkStockInfo (AfterNonVATPurchased a) (AfterNonVATSold a)
       (AfterNonVATRemaining a))
    (AfterActualStock a).

(** The prefix of a purchase code at the time [t]: the kind of purchase,
    then the last two digits of the Buddhist year and the month. *)
Definition purchasePrefix (isVAT : bool) (t : Time) : string :=
  (if isVAT then "PUR-VAT-" else "PUR-NV-")
  ++ text.fmt_0d 2 (Z.rem (add (Year t) 543) 100) ++ text.fmt_0d 2 (Month t).

(** A float that is a number: it equals itself. *)
Definition is_number (x : float) : Prop := (x =? x)%float = true.


(** A purchase with other items ([purchase.Items = items]). *)
Definition set_Items (p : Purchase) (items : list PurchaseItem) : Purchase :=
  mkPurchase (Purchase_ID p) (PurchaseCode p) (CustomerID p) items (IsVAT p).

End notions.

(* ================================================================== *)
(** * Properties *)
(* ================================================================== *)

Import GoInt GoFloat strings models runtime mongo repository utils handlers examples spec.

(** ** Arithmetic of [int] *)

Lemma wrap_small (z : Z) : int_ok z -> wrap z = z.
Proof.
  unfold int_ok, MinInt, MaxInt, wrap. intros H.
  rewrite Z.mod_small; lia.
Qed.

Lemma wrap_ok (z : Z) : int_ok (wrap z).
Proof.
  unfold int_ok, MinInt, MaxInt, wrap.
  pose proof (Z.mod_pos_bound (z + 2 ^ 63) (2 ^ 64)). lia.
Qed.

Lemma wrap_shift (z k : Z) : wrap (z + k * 2 ^ 64) = wrap z.
Proof.
  unfold wrap.
  replace (z + k * 2 ^ 64 + 2 ^ 63) with (z + 2 ^ 63 + k * 2 ^ 64) by ring.
  now rewrite Z.mod_add by lia.
Qed.

Lemma wrap_repr (z : Z) : exists k, wrap z = z + k * 2 ^ 64.
Proof.
  exists (- ((z + 2 ^ 63) / 2 ^ 64)). unfold wrap.
  rewrite Z.mod_eq by lia. ring.
Qed.

Lemma wrap_congr (x y k : Z) : x = y + k * 2 ^ 64 -> wrap x = wrap y.
Proof. intros ->. apply wrap_shift. Qed.

Lemma add_exact (a b : Z) : int_ok (a + b) -> add a b = a + b.
Proof. apply wrap_small. Qed.

Lemma sub_exact (a b : Z) : int_ok (a - b) -> sub a b = a - b.
Proof. apply wrap_small. Qed.

Lemma wrap_add_l (a b : Z) : wrap (wrap a + b) = wrap (a + b).
Proof.
  destruct (wrap_repr a) as [k ->].
  apply wrap_congr with (k := k). ring.
Qed.

Lemma wrap_add_r (a b : Z) : wrap (a + wrap b) = wrap (a + b).
Proof. rewrite Z.add_comm, wrap_add_l. f_equal. ring. Qed.

Lemma wrap_sub_l (a b : Z) : wrap (wrap a - b) = wrap (a - b).
Proof.
  destruct (wrap_repr a) as [k ->].
  apply wrap_congr with (k := k). ring.
Qed.

Lemma wrap_sub_r (a b : Z) : wrap (a - wrap b) = wrap (a - b).
Proof.
  destruct (wrap_repr b) as [k ->].
  apply wrap_congr with (k := - k). ring.
Qed.

Lemma sub_add_cancel (a q : Z) : int_ok a -> sub (add a q) q = a.
Proof.
  intros H. unfold sub, add. rewrite wrap_sub_l.
  replace (a + q - q) with a by ring. now apply wrap_small.
Qed.

Lemma add_sub_cancel (a q : Z) : int_ok a -> add (sub a q) q = a.
Proof.
  intros H. unfold sub, add. rewrite wrap_add_l.
  replace (a - q + q) with a by ring. now apply wrap_small.
Qed.


(** ** The stock ledger *)

Section StockLedger.

Variable p : Product.
Variable q : Z.

Let s := Product_Stock p.

(** What each branch of [ApplyStockAdjustment] leaves in the stock. *)

Lemma apply_add_vat :
  Product_Stock (ApplyStockAdjustment p AdjustmentTypeAdd StockTypeVAT q) =
  mkStock (mkStockInfo (add (Purchased (VAT s)) q) (Sold (VAT s))
                       (add (Remaining (VAT s)) q))
          (NonVAT s) (add (ActualStock s) q).
Proof. reflexivity. Qed.

Lemma apply_reduce_vat :
  Product_Stock (ApplyStockAdjustment p AdjustmentTypeReduce StockTypeVAT q) =
  mkStock (mkStockInfo (Purchased (VAT s)) (add (Sold (VAT s)) q)
                       (sub (Remaining (VAT s)) q))
          (NonVAT s) (sub (ActualStock s) q).
Proof. reflexivity. Qed.

Lemma apply_add_nonvat :
  Product_Stock (ApplyStockAdjustment p AdjustmentTypeAdd StockTypeNonVAT q) =
  mkStock (VAT s)
          (mkStockInfo (add (Purchased (NonVAT s)) q) (Sold (NonVAT s))
                       (add (Remaining (NonVAT s)) q))
          (add (ActualStock s) q).
Proof. reflexivity. Qed.

Lemma apply_reduce_nonvat :
  Product_Stock (ApplyStockAdjustment p AdjustmentTypeReduce StockTypeNonVAT q) =
  mkStock (VAT s)
          (mkStockInfo (Purchased (NonVAT s)) (add (Sold (NonVAT s)) q)
                       (sub (Remaining (NonVAT s)) q))
          (sub (ActualStock s) q).
Proof. reflexivity. Qed.

End StockLedger.

(** The four shapes a call can take, whatever strings it is given: the actual
    stock alone, or one of the two [StockInfo] with the actual stock; an
    addition when the type is ["add"], a reduction otherwise. *)
Lemma apply_cases (p : Product) (at_ : StockAdjustmentType) (st : StockType)
    (q : Z) :
  let s := Product_Stock p in
  let s' := Product_Stock (ApplyStockAdjustment p at_ st q) in
  let bump (si : StockInfo) :=
    if String.eqb at_ AdjustmentTypeAdd
    then mkStockInfo (add (Purchased si) q) (Sold si) (add (Remaining si) q)
    else mkStockInfo (Purchased si) (add (Sold si) q) (sub (Remaining si) q) in
  let actual :=
    if String.eqb at_ AdjustmentTypeAdd then add (ActualStock s) q
    else sub (ActualStock s) q in
  s' = if String.eqb st StockTypeActualStock then mkStock (VAT s) (NonVAT s) actual
       else if String.eqb st StockTypeVAT then mkStock (bump (VAT s)) (NonVAT s) actual
       else mkStock (VAT s) (bump (NonVAT s)) actual.
Proof.
  unfold ApplyStockAdjustment. cbv zeta.
  destruct (String.eqb st StockTypeActualStock);
    destruct (String.eqb at_ AdjustmentTypeAdd);
    destruct (String.eqb st StockTypeVAT); reflexivity.
Qed.

(** C1. For every product and every positive quantity [q], an ["add"] on the
    ["vat"] stock raises [vat.purchased], [vat.remaining] and [actualStock] by
    [q], all three in the same call, and changes no other counter.  The
    raise is Go's [+=] on [int]; whenever the sum fits in an [int] it is the
    sum of the integers. *)
Theorem C1_add_vat_raises_three (p : Product) (q : Z) :
  0 < q ->
  let s := Product_Stock p in
  let s' := Product_Stock (ApplyStockAdjustment p AdjustmentTypeAdd StockTypeVAT q) in
  (Purchased (VAT s') = add (Purchased (VAT s)) q
   /\ Remaining (VAT s') = add (Remaining (VAT s)) q
   /\ ActualStock s' = add (ActualStock s) q)
  /\ (int_ok (Purchased (VAT s) + q) -> Purchased (VAT s') = Purchased (VAT s) + q)
  /\ (int_ok (Remaining (VAT s) + q) -> Remaining (VAT s') = Remaining (VAT s) + q)
  /\ (int_ok (ActualStock s + q) -> ActualStock s' = ActualStock s + q)
  /\ Sold (VAT s') = Sold (VAT s)
  /\ NonVAT s' = NonVAT s.
Proof.
  intros Hq s s'. subst s'. rewrite apply_add_vat. fold s. cbn.
  repeat split; auto using add_exact.
Qed.

Lemma C1_add_vat_raises_three_witness :
  let s' := Product_Stock
              (ApplyStockAdjustment zeroProduct AdjustmentTypeAdd StockTypeVAT 7) in
  Purchased (VAT s') = 7 /\ Remaining (VAT s') = 7 /\ ActualStock s' = 7.
Proof.
  cbv zeta.
  destruct (C1_add_vat_raises_three zeroProduct 7 eq_refl) as (_ & Hp & Hr & Ha & _).
  split; [|split]; [apply Hp | apply Hr | apply Ha];
    vm_compute; split; discriminate.
Defined.

(** C2. Scenario B: from a stock that is zero everywhere, adding 10 to the
    ["vat"] stock and then reducing it by 15 leaves purchased 10, sold 15,
    remaining -5 and actual stock -5.  In general a reduction by more than
    what remains is carried out as it is: the result is the negative
    difference, not zero, and the function has no error result. *)
Theorem C2_scenario_B_negative_remaining (p : Product) :
  Product_Stock p = zeroStock ->
  let p1 := ApplyStockAdjustment p AdjustmentTypeAdd StockTypeVAT 10 in
  let p2 := ApplyStockAdjustment p1 AdjustmentTypeReduce StockTypeVAT 15 in
  (Purchased (VAT (Product_Stock p2)) = 10
   /\ Sold (VAT (Product_Stock p2)) = 15
   /\ Remaining (VAT (Product_Stock p2)) = -5
   /\ ActualStock (Product_Stock p2) = -5)
  /\ (forall (p0 : Product) (q : Z),
        let r := Remaining (VAT (Product_Stock p0)) in
        let r' := Remaining (VAT (Product_Stock
                    (ApplyStockAdjustment p0 AdjustmentTypeReduce StockTypeVAT q))) in
        r < q -> int_ok (r - q) -> r' = r - q /\ r' < 0).
Proof.
  intros H p1 p2. split.
  - subst p2 p1. rewrite apply_reduce_vat, apply_add_vat, H.
    vm_compute. repeat split.
  - intros p0 q r r' Hlt Hok. subst r'.
    rewrite apply_reduce_vat. cbn. fold r.
    rewrite (sub_exact _ _ Hok). split; [reflexivity | lia].
Qed.

Lemma C2_scenario_B_negative_remaining_witness :
  Remaining (VAT (Product_Stock
    (ApplyStockAdjustment
       (ApplyStockAdjustment zeroProduct AdjustmentTypeAdd StockTypeVAT 10)
       AdjustmentTypeReduce StockTypeVAT 15))) = -5.
Proof.
  exact (proj1 (proj2 (proj2
           (proj1 (C2_scenario_B_negative_remaining zeroProduct eq_refl))))).
Defined.

(** ** The balance of a [StockInfo] *)

Lemma wrap_mod (z : Z) : wrap z mod 2 ^ 64 = z mod 2 ^ 64.
Proof.
  destruct (wrap_repr z) as [k ->]. now rewrite Z.mod_add by lia.
Qed.

Lemma balance_wrap (si : StockInfo) : balance si = wrap (balanceZ si).
Proof. unfold balance, balanceZ, sub. now rewrite wrap_sub_l. Qed.

Lemma wrap_eq_mod (x y : Z) : wrap x = wrap y <-> x mod 2 ^ 64 = y mod 2 ^ 64.
Proof.
  split; intros H.
  - now rewrite <- (wrap_mod x), <- (wrap_mod y), H.
  - unfold wrap. f_equal.
    rewrite <- (Z.add_mod_idemp_l x), <- (Z.add_mod_idemp_l y) by lia.
    now rewrite H.
Qed.

(** Either update of [ApplyStockAdjustment] keeps the balance. *)
Lemma balance_add (si : StockInfo) (q : Z) :
  balance (mkStockInfo (add (Purchased si) q) (Sold si) (add (Remaining si) q))
  = balance si.
Proof.
  unfold balance, add, sub. cbn [Purchased Sold Remaining].
  rewrite !wrap_sub_l, !wrap_sub_r.
  destruct (wrap_repr (Purchased si + q)) as [k ->].
  apply wrap_congr with (k := k). ring.
Qed.

Lemma balance_reduce (si : StockInfo) (q : Z) :
  balance (mkStockInfo (Purchased si) (add (Sold si) q) (sub (Remaining si) q))
  = balance si.
Proof.
  unfold balance, add, sub. cbn [Purchased Sold Remaining].
  rewrite !wrap_sub_l, !wrap_sub_r.
  destruct (wrap_repr (Sold si + q)) as [k ->].
  apply wrap_congr with (k := - k). ring.
Qed.

Lemma consistent_add (si : StockInfo) (q : Z) :
  consistent si ->
  consistent (mkStockInfo (add (Purchased si) q) (Sold si) (add (Remaining si) q)).
Proof.
  unfold consistent, add, sub. cbn [Purchased Sold Remaining]. intros <-.
  rewrite wrap_sub_l, wrap_add_l. f_equal. ring.
Qed.

Lemma consistent_reduce (si : StockInfo) (q : Z) :
  consistent si ->
  consistent (mkStockInfo (Purchased si) (add (Sold si) q) (sub (Remaining si) q)).
Proof.
  unfold consistent, add, sub. cbn [Purchased Sold Remaining]. intros <-.
  rewrite wrap_sub_r, wrap_sub_l. f_equal. ring.
Qed.

(** C10. Every call of [ApplyStockAdjustment], whatever the adjustment type,
    the stock type and the quantity, leaves [purchased - sold - remaining]
    of the ["vat"] and of the ["nonvat"] [StockInfo] as it was: the value Go
    computes is the same, the integer is the same up to a multiple of 2^64;
    and a [StockInfo] for which [purchased - sold == remaining] held still
    satisfies it afterwards. *)
Theorem C10_balance_unchanged (p : Product) (at_ : StockAdjustmentType)
    (st : StockType) (q : Z) :
  let s := Product_Stock p in
  let s' := Product_Stock (ApplyStockAdjustment p at_ st q) in
  (balance (VAT s') = balance (VAT s) /\ balance (NonVAT s') = balance (NonVAT s))
  /\ (balanceZ (VAT s') mod 2 ^ 64 = balanceZ (VAT s) mod 2 ^ 64
      /\ balanceZ (NonVAT s') mod 2 ^ 64 = balanceZ (NonVAT s) mod 2 ^ 64)
  /\ (consistent (VAT s) -> consistent (VAT s'))
  /\ (consistent (NonVAT s) -> consistent (NonVAT s')).
Proof.
  intros s s'.
  assert (Hb : balance (VAT s') = balance (VAT s)
               /\ balance (NonVAT s') = balance (NonVAT s)).
  { subst s'. rewrite apply_cases. fold s.
    destruct (String.eqb st StockTypeActualStock);
      destruct (String.eqb st StockTypeVAT);
      destruct (String.eqb at_ AdjustmentTypeAdd); cbn [VAT NonVAT];
      auto using balance_add, balance_reduce. }
  split; [exact Hb | split].
  - destruct Hb as [Hv Hn]. rewrite !balance_wrap in Hv, Hn.
    split; now apply wrap_eq_mod.
  - subst s'. rewrite apply_cases. fold s.
    destruct (String.eqb st StockTypeActualStock);
      destruct (String.eqb st StockTypeVAT);
      destruct (String.eqb at_ AdjustmentTypeAdd); cbn [VAT NonVAT];
      auto using consistent_add, consistent_reduce.
Qed.

(** ** The price ledger *)

Section PriceLedger.

Context `{Platform}.

Variable t : Time.
Variable pi : PriceInfo.
Variable v : float.

(** The fields of the updated [PriceInfo], one by one. *)

Ltac by_branches :=
  unfold updatePriceInfo;
  destruct (negb (YTDYear pi =? Year t));
  destruct (negb (MTDYear pi =? Year t) || negb (MTDMonth pi =? Month t));
  reflexivity.

Lemma updatePriceInfo_Latest : Latest (updatePriceInfo t pi v) = v.
Proof. by_branches. Qed.

Lemma updatePriceInfo_Min :
  Min (updatePriceInfo t pi v) =
  if (Min pi =? 0)%float || (v <? Min pi)%float then v else Min pi.
Proof. by_branches. Qed.

Lemma updatePriceInfo_Max :
  Max (updatePriceInfo t pi v) = if (Max pi <? v)%float then v else Max pi.
Proof. by_branches. Qed.

Lemma updatePriceInfo_Average :
  Average (updatePriceInfo t pi v) =
  round2 (if (Average pi =? 0)%float then v else ((Average pi + v) / 2)%float).
Proof. by_branches. Qed.

Lemma updatePriceInfo_YTDCount :
  YTDCount (updatePriceInfo t pi v) =
  if YTDYear pi =? Year t then add (YTDCount pi) 1 else 1.
Proof.
  unfold updatePriceInfo.
  destruct (YTDYear pi =? Year t);
  destruct (negb (MTDYear pi =? Year t) || negb (MTDMonth pi =? Month t));
  reflexivity.
Qed.

Lemma updatePriceInfo_AverageYTD :
  AverageYTD (updatePriceInfo t pi v) =
  if YTDYear pi =? Year t
  then round2 ((YTDTotal pi + v) / of_int (add (YTDCount pi) 1))%float
  else v.
Proof.
  unfold updatePriceInfo.
  destruct (YTDYear pi =? Year t);
  destruct (negb (MTDYear pi =? Year t) || negb (MTDMonth pi =? Month t));
  reflexivity.
Qed.

Lemma updatePriceInfo_AverageMTD :
  AverageMTD (updatePriceInfo t pi v) =
  if (MTDYear pi =? Year t) && (MTDMonth pi =? Month t)
  then round2 ((MTDTotal pi + v) / of_int (add (MTDCount pi) 1))%float
  else v.
Proof.
  unfold updatePriceInfo.
  destruct (YTDYear pi =? Year t);
  destruct (MTDYear pi =? Year t); destruct (MTDMonth pi =? Month t);
  reflexivity.
Qed.

End PriceLedger.

(** C5. A call with [isPurchase = true] and [isVAT = false] rewrites the
    [purchaseNonVAT] bucket and nothing else: the [saleVAT], [saleNonVAT] and
    [purchaseVAT] buckets, the sales tiers and the stock of the product are
    the ones it had. *)
Theorem C5_purchase_nonvat_frame `{Platform} (t : Time) (p : Product) (v : float) :
  let p' := UpdatePrice t p v false true in
  SaleVAT (Product_Price p') = SaleVAT (Product_Price p)
  /\ SaleNonVAT (Product_Price p') = SaleNonVAT (Product_Price p)
  /\ PurchaseVAT (Product_Price p') = PurchaseVAT (Product_Price p)
  /\ SalesTiers (Product_Price p') = SalesTiers (Product_Price p)
  /\ PurchaseNonVAT (Product_Price p')
     = updatePriceInfo t (PurchaseNonVAT (Product_Price p)) v
  /\ p' = set_Price p (Product_Price p').
Proof. cbv zeta. repeat split. Qed.

(** Scenario A on the bucket itself. *)
Lemma scenario_A_bucket `{Platform} (t1 t2 : Time) :
  let b1 := updatePriceInfo t1 zeroPriceInfo 100 in
  let b2 := updatePriceInfo t2 b1 200 in
  (Latest b1 = 100%float /\ Min b1 = 100%float /\ Max b1 = 100%float
   /\ Average b1 = 100%float /\ YTDCount b1 = 1)
  /\ (Average b2 = 150%float /\ Max b2 = 200%float /\ Min b2 = 100%float).
Proof.
  cbv zeta.
  assert (Hmin : Min (updatePriceInfo t1 zeroPriceInfo 100) = 100%float)
    by (rewrite updatePriceInfo_Min; reflexivity).
  assert (Hmax : Max (updatePriceInfo t1 zeroPriceInfo 100) = 100%float)
    by (rewrite updatePriceInfo_Max; reflexivity).
  assert (Havg : Average (updatePriceInfo t1 zeroPriceInfo 100) = 100%float)
    by (rewrite updatePriceInfo_Average; vm_compute; reflexivity).
  repeat split.
  - apply updatePriceInfo_Latest.
  - exact Hmin.
  - exact Hmax.
  - exact Havg.
  - rewrite updatePriceInfo_YTDCount. cbn [YTDYear YTDCount zeroPriceInfo].
    destruct (0 =? Year t1); reflexivity.
  - rewrite updatePriceInfo_Average, Havg. vm_compute. reflexivity.
  - rewrite updatePriceInfo_Max, Hmax. reflexivity.
  - rewrite updatePriceInfo_Min, Hmin. reflexivity.
Qed.

(** C3 (amended). Scenario A: on a [purchaseVAT] bucket that is zero
    everywhere, [UpdatePrice(100, isVAT, isPurchase)] leaves latest, min, max
    and average 100 and [ytdCount] 1, and a second call with 200 leaves
    average 150, max 200 and min 100, whatever the clock reads at either
    call.  The rule for the average: the stored average when it is not 0,
    else the new price, is averaged with the new price (in the first case)
    and the result is rounded to two places in both cases; so on a stored
    average of 0 the average becomes [round2(newPrice)]. *)
Theorem C3_scenario_A_and_average_rule `{Platform} (p : Product) (t1 t2 : Time) :
  PurchaseVAT (Product_Price p) = zeroPriceInfo ->
  let p1 := UpdatePrice t1 p 100 true true in
  let p2 := UpdatePrice t2 p1 200 true true in
  let b1 := PurchaseVAT (Product_Price p1) in
  let b2 := PurchaseVAT (Product_Price p2) in
  (Latest b1 = 100%float /\ Min b1 = 100%float /\ Max b1 = 100%float
   /\ Average b1 = 100%float /\ YTDCount b1 = 1)
  /\ (Average b2 = 150%float /\ Max b2 = 200%float /\ Min b2 = 100%float)
  /\ (forall (t : Time) (p0 : Product) (v : float),
        let a := Average (PurchaseVAT (Product_Price p0)) in
        Average (PurchaseVAT (Product_Price (UpdatePrice t p0 v true true)))
        = if (a =? 0)%float then round2 v else round2 ((a + v) / 2)%float).
Proof.
  intros Hzero p1 p2 b1 b2.
  assert (E1 : b1 = updatePriceInfo t1 zeroPriceInfo 100)
    by (subst b1 p1; cbn; now rewrite Hzero).
  assert (E2 : b2 = updatePriceInfo t2 b1 200) by reflexivity.
  rewrite E2, E1.
  destruct (scenario_A_bucket t1 t2) as [A B].
  split; [exact A | split; [exact B |]].
  intros t p0 v a. cbn [UpdatePrice Product_Price set_Price PurchaseVAT].
  rewrite updatePriceInfo_Average. fold a. now destruct (a =? 0)%float.
Qed.

Lemma C3_scenario_A_and_average_rule_witness :
  Average (PurchaseVAT (Product_Price
    (@UpdatePrice amd64 zeroTime
       (@UpdatePrice amd64 zeroTime zeroProduct 100 true true) 200 true true)))
  = 150%float.
Proof.
  exact (proj1 (proj1 (proj2
    (@C3_scenario_A_and_average_rule amd64 zeroProduct zeroTime zeroTime eq_refl)))).
Defined.

(** C3, as stated, fails: with a stored average of 0 and a new price of
    0.125 the average becomes 0.13, not the new price. *)
Lemma C3_average_is_rounded_counterexample :
  let b := PurchaseVAT (Product_Price
             (@UpdatePrice amd64 zeroTime zeroProduct 0.125 true true)) in
  (Average (PurchaseVAT (Product_Price zeroProduct)) =? 0)%float = true
  /\ Average b = (13 / 100)%float
  /\ Average b <> 0.125%float.
Proof.
  cbv zeta. split; [reflexivity | split].
  - vm_compute. reflexivity.
  - intros E.
    apply (f_equal (fun f => (f =? 0.125)%float)) in E.
    vm_compute in E. discriminate E.
Qed.

(** ** The rounding to two places *)

(** On a float that is not negative, discarding the fraction and taking the
    floor are the same. *)
Lemma trunc_floorZ_nonneg (y : float) :
  (0 <=? y)%float = true -> trunc y = floorZ y.
Proof.
  rewrite leb_spec. unfold trunc, floorZ.
  change (Prim2SF 0) with (S754_zero false).
  destruct (Prim2SF y) as [sy | sy | | sy m e]; try reflexivity.
  destruct sy; [discriminate | reflexivity].
Qed.

Lemma to_int_trunc `{Platform} (y : float) (z : Z) :
  trunc y = Some z -> int_ok z -> to_int y = z.
Proof.
  unfold to_int, int_ok, in_range. intros -> [Hlo Hhi].
  apply Z.leb_le in Hlo, Hhi. now rewrite Hlo, Hhi.
Qed.

(** The rounding discards the fraction of [x*100 + 0.5]. *)
Lemma round2_trunc `{Platform} (x : float) (z : Z) :
  trunc (x * 100 + 0.5) = Some z -> int_ok z ->
  round2 x = (of_int z / 100)%float.
Proof.
  intros Htr Hok. unfold round2. now rewrite (to_int_trunc _ z Htr Hok).
Qed.

(** C4 (amended). The rounding [UpdatePrice] applies to [average], and to
    [averageYTD] and [averageMTD] when their period goes on, is [round2];
    and for every [x] such that [x*100 + 0.5] is not negative and has an
    integer part [z] that fits in an [int],
    [round2(x) = floor(x*100 + 0.5) / 100]: rounding half up on cents. *)
Theorem C4_round2_half_up `{Platform} (x : float) (z : Z) :
  let y := (x * 100 + 0.5)%float in
  (0 <=? y)%float = true -> trunc y = Some z -> z <= MaxInt ->
  round2 x = round2_floor x
  /\ (forall (t : Time) (pi : PriceInfo) (v : float),
        let pi' := updatePriceInfo t pi v in
        Average pi'
        = round2 (if (Average pi =? 0)%float then v
                  else ((Average pi + v) / 2)%float)
        /\ (YTDYear pi = Year t ->
            AverageYTD pi'
            = round2 ((YTDTotal pi + v) / of_int (add (YTDCount pi) 1))%float)
        /\ (MTDYear pi = Year t -> MTDMonth pi = Month t ->
            AverageMTD pi'
            = round2 ((MTDTotal pi + v) / of_int (add (MTDCount pi) 1))%float)).
Proof.
  intros y Hpos Htr Hmax. split.
  - assert (Hfl : floorZ y = Some z)
      by (now rewrite <- (trunc_floorZ_nonneg y Hpos)).
    assert (Hok : int_ok z).
    { split; [| exact Hmax].
      revert Hfl. unfold floorZ, MinInt. rewrite leb_spec in Hpos.
      change (Prim2SF 0) with (S754_zero false) in Hpos.
      destruct (Prim2SF y) as [sy | sy | | sy m e]; try discriminate.
      - intros [= <-]. lia.
      - destruct sy; [discriminate Hpos|]. intros [= <-].
        pose proof (Z.shiftl_nonneg (Zpos m) e). lia. }
    rewrite (round2_trunc x z Htr Hok).
    unfold round2_floor, floor. fold y. now rewrite Hfl.
  - intros t pi v pi'. subst pi'. split; [apply updatePriceInfo_Average | split].
    + intros Ey. rewrite updatePriceInfo_AverageYTD, Ey, Z.eqb_refl. reflexivity.
    + intros Ey Em.
      rewrite updatePriceInfo_AverageMTD, Ey, Em, !Z.eqb_refl. reflexivity.
Qed.

Lemma C4_round2_half_up_witness :
  @round2 amd64 0.125 = round2_floor 0.125
  /\ @round2 amd64 0.125 = (13 / 100)%float.
Proof.
  split.
  - refine (proj1 (@C4_round2_half_up amd64 0.125 13 eq_refl eq_refl _)).
    vm_compute. discriminate.
  - vm_compute. reflexivity.
Defined.

(** C4, as stated, fails.  On amd64, for [x = 10^17] the integer part of
    [x*100 + 0.5] does not fit in an [int]: the conversion yields the least
    [int] and the code -2^63/100, where the floor formula keeps 10^17.  And
    for [x = -1] the code yields -0.99, the floor formula -1. *)
Lemma C4_floor_counterexample :
  (trunc (1e17 * 100 + 0.5) = Some (10 ^ 19)
   /\ @round2 amd64 1e17 = (of_int MinInt / 100)%float
   /\ round2_floor 1e17 = 1e17%float
   /\ @round2 amd64 1e17 <> round2_floor 1e17)
  /\ (@round2 amd64 (-1) = (-99 / 100)%float
      /\ round2_floor (-1) = (-1)%float
      /\ @round2 amd64 (-1) <> round2_floor (-1)).
Proof.
  split.
  - split; [vm_compute; reflexivity | split; [vm_compute; reflexivity |
      split; [vm_compute; reflexivity |]]].
    intros E.
    apply (f_equal (fun f => (f =? 1e17)%float)) in E.
    vm_compute in E. discriminate E.
  - split; [vm_compute; reflexivity | split; [vm_compute; reflexivity |]].
    intros E.
    apply (f_equal (fun f => (f =? -1)%float)) in E.
    vm_compute in E. discriminate E.
Qed.

(** ** The byte order on strings and the descending sort *)

Lemma ascii_compare_refl (a : ascii) : Ascii.compare a a = Eq.
Proof. apply N.compare_refl. Qed.

Lemma ascii_compare_lt_trans (a b c : ascii) :
  Ascii.compare a b = Lt -> Ascii.compare b c = Lt -> Ascii.compare a c = Lt.
Proof.
  unfold Ascii.compare. rewrite !N.compare_lt_iff. apply N.lt_trans.
Qed.

Lemma string_leb_refl (a : string) : String.leb a a = true.
Proof.
  unfold String.leb.
  induction a as [|x a IH]; cbn; [reflexivity|].
  now rewrite ascii_compare_refl.
Qed.

Lemma string_leb_trans (a b c : string) :
  String.leb a b = true -> String.leb b c = true -> String.leb a c = true.
Proof.
  unfold String.leb. revert b c.
  induction a as [|x a IH]; intros [|y b] [|z c]; cbn; try easy.
  destruct (Ascii.compare x y) eqn:Exy; destruct (Ascii.compare y z) eqn:Eyz;
    try discriminate.
  - apply Ascii.compare_eq_iff in Exy, Eyz. subst.
    rewrite ascii_compare_refl. apply IH.
  - apply Ascii.compare_eq_iff in Exy. subst. now rewrite Eyz.
  - apply Ascii.compare_eq_iff in Eyz. subst. now rewrite Exy.
  - now rewrite (ascii_compare_lt_trans x y z Exy Eyz).
Qed.

Section SortDesc.

Context {A : Type} (key : A -> string).

(** The head of the sorted list is an element of the list whose key is
    above all the others: what a limit of one returns. *)
Lemma sort_desc_head (l : list A) :
  match sort_desc key l with
  | [] => l = []
  | h :: _ =>
      In h l /\ forall y, In y l -> String.leb (key y) (key h) = true
  end.
Proof.
  induction l as [|a l IH]; [reflexivity|].
  change (sort_desc key (a :: l)) with (insert_desc key a (sort_desc key l)).
  destruct (sort_desc key l) as [|h r]; cbn [insert_desc].
  - subst l. split; [now left|].
    intros y [<- | []]. apply string_leb_refl.
  - destruct IH as [Hin Hmax].
    destruct (String.leb (key h) (key a)) eqn:E.
    + split; [now left|].
      intros y [<- | Hy]; [apply string_leb_refl|].
      eapply string_leb_trans; [apply Hmax, Hy | exact E].
    + split; [now right|].
      intros y [<- | Hy]; [| now apply Hmax].
      destruct (String.leb_total (key h) (key a)) as [C | C];
        [congruence | exact C].
Qed.

End SortDesc.

Lemma filter_nil_iff {A} (f : A -> bool) (l : list A) :
  (forall x, In x l -> f x = false) -> filter f l = [].
Proof.
  induction l as [|a l IH]; cbn; intros Hall; [reflexivity|].
  rewrite (Hall a (or_introl eq_refl)). apply IH. intros x Hx. apply Hall. now right.
Qed.

(** ** [strconv.Atoi] on four bytes *)

Lemma digits_value_bound (s : string) (acc v : Z) :
  0 <= acc -> strconv.digits_value acc s = Some v ->
  0 <= v < (acc + 1) * 10 ^ Z.of_nat (String.length s).
Proof.
  revert acc v. induction s as [|c s IH]; intros acc v Hacc; cbn [strconv.digits_value].
  - intros [= <-]. cbn. lia.
  - destruct (strconv.is_digit c) eqn:Hd; [|discriminate].
    intros Hv.
    assert (Hc : 0 <= strconv.digit_value c <= 9).
    { unfold strconv.is_digit in Hd. unfold strconv.digit_value.
      apply andb_prop in Hd. destruct Hd as [H1 H2].
      apply Z.leb_le in H1, H2. lia. }
    apply IH in Hv; [|lia].
    cbn [String.length]. rewrite Nat2Z.inj_succ, Z.pow_succ_r by lia.
    nia.
Qed.

Lemma Atoi_bound (s : string) (v : Z) :
  strconv.Atoi s = Some v ->
  - 10 ^ Z.of_nat (String.length s) < v < 10 ^ Z.of_nat (String.length s).
Proof.
  unfold strconv.Atoi.
  assert (G : forall neg ds,
             (String.length ds <= String.length s)%nat ->
             match ds with
             | EmptyString => None
             | String _ _ =>
                 match strconv.digits_value 0 ds with
                 | Some v0 =>
                     let z := if (neg : bool) then - v0 else v0 in
                     if in_range z then Some z else None
                 | None => None
                 end
             end = Some v ->
             - 10 ^ Z.of_nat (String.length s) < v < 10 ^ Z.of_nat (String.length s)).
  { intros neg ds Hlen. destruct ds as [|c ds]; [discriminate|].
    destruct (strconv.digits_value 0 (String c ds)) as [v0|] eqn:Ev; [|discriminate].
    apply digits_value_bound in Ev; [|lia].
    cbv zeta. destruct (in_range _); [|discriminate]. intros [= <-].
    assert (10 ^ Z.of_nat (String.length (String c ds))
            <= 10 ^ Z.of_nat (String.length s))
      by (apply Z.pow_le_mono_r; lia).
    destruct neg; lia. }
  destruct s as [|c s]; [discriminate|].
  destruct (Ascii.eqb_spec c "+"%char) as [-> | Hp];
    [apply (G false s); cbn; lia|].
  destruct (Ascii.eqb_spec c "-"%char) as [-> | Hm];
    [apply (G true s); cbn; lia|].
  intros Hv. apply (G false (String c s)); [lia|].
  revert Hv.
  destruct c as [[] [] [] [] [] [] [] []]; try exact (fun h => h);
    try (exfalso; apply Hp; reflexivity); try (exfalso; apply Hm; reflexivity).
Qed.

Lemma length_substring (n m : nat) (s : string) :
  (n + m <= String.length s)%nat -> String.length (substring n m s) = m.
Proof.
  revert n m. induction s as [|c s IH]; intros [|n] [|m]; cbn; try lia.
  - intros Hlen. f_equal. apply (IH 0%nat). cbn. lia.
  - intros Hlen. apply IH. lia.
  - intros Hlen. apply IH. lia.
Qed.

Lemma Atoi_last4_succ (code : string) (seq : Z) :
  (4 <= String.length code)%nat ->
  strconv.Atoi (PurchaseRepository.last4 code) = Some seq ->
  add seq 1 = seq + 1.
Proof.
  intros Hlen Hv. apply Atoi_bound in Hv.
  unfold PurchaseRepository.last4 in Hv.
  rewrite length_substring in Hv by lia.
  apply add_exact. unfold int_ok, MinInt, MaxInt. cbn in Hv. lia.
Qed.

(** ** The next sequence number *)

Section NextSequenceNumber.

Context `{Regex}.

Variable w : World.
Variable prefix : string.

Let matching (code : string) : bool := regex_match ("^" ++ prefix) "i" code.

Let selected : list Purchase :=
  filter (fun p => matching (PurchaseCode p)) (purchases w).

Hypothesis driver_ok : forall n, outcome w n = None.

(** The function, once the two driver calls have succeeded: a case
    analysis on the head of the sorted selection. *)
Lemma GetNextSequenceNumber_unfold :
  fst (PurchaseRepository.GetNextSequenceNumber prefix w) =
  match sort_desc PurchaseCode selected with
  | [] => (1, None)
  | lastPurchase :: _ =>
      let code := PurchaseCode lastPurchase in
      if (4 <=? String.length code)%nat then
        match strconv.Atoi (PurchaseRepository.last4 code) with
        | Some seq => (add seq 1, None)
        | None => (1, None)
        end
      else (1, None)
  end.
Proof.
  unfold PurchaseRepository.GetNextSequenceNumber, bind, driver_call, get, ret.
  rewrite driver_ok. cbn [purchases outcome calls].
  unfold selected, matching.
  destruct (sort_desc PurchaseCode _) as [|lastPurchase rest];
    [reflexivity|].
  cbn [firstn outcome calls]. rewrite driver_ok. cbv zeta.
  destruct (PurchaseCode lastPurchase) as [|c code] eqn:E; [reflexivity|].
  cbn [String.eqb negb].
  destruct (4 <=? String.length (String c code))%nat; [|reflexivity].
  now destruct (strconv.Atoi _).
Qed.

(** The head of the sorted selection carries the greatest matching code. *)
Lemma greatest_code_selected (code : string) :
  (exists p, In p (purchases w) /\ PurchaseCode p = code) ->
  matching code = true ->
  (forall p', In p' (purchases w) -> matching (PurchaseCode p') = true ->
              String.leb (PurchaseCode p') code = true) ->
  exists lastPurchase rest,
    sort_desc PurchaseCode selected = lastPurchase :: rest
    /\ PurchaseCode lastPurchase = code.
Proof.
  intros (p & Hin & Hcode) Hm Hmax.
  assert (Hsel : In p selected)
    by (apply filter_In; split; [exact Hin | now rewrite Hcode]).
  pose proof (sort_desc_head PurchaseCode selected) as Hhead.
  destruct (sort_desc PurchaseCode selected) as [|h r].
  - rewrite Hhead in Hsel. destruct Hsel.
  - exists h, r. split; [reflexivity|].
    destruct Hhead as [Hh Hall].
    apply filter_In in Hh. destruct Hh as [Hh1 Hh2].
    apply String.leb_antisym.
    + now apply Hmax.
    + rewrite <- Hcode. now apply Hall.
Qed.

End NextSequenceNumber.

(** C7. When the database answers, [GetNextSequenceNumber(prefix)] returns 1
    if no stored code matches [^prefix] (option [i]); otherwise, with [code]
    the greatest matching code in the byte order, it returns [s + 1] when
    [code] has at least four bytes and [strconv.Atoi] reads the integer [s]
    from its last four bytes, and 1 when it is shorter or they do not parse;
    never an error. *)
Theorem C7_next_sequence_number `{Regex} (w : World) (prefix : string) :
  (forall n, outcome w n = None) ->
  let matching := fun code => regex_match ("^" ++ prefix) "i" code = true in
  let result := fst (PurchaseRepository.GetNextSequenceNumber prefix w) in
  ((forall p, In p (purchases w) -> ~ matching (PurchaseCode p)) ->
   result = (1, None))
  /\ (forall code : string,
        (exists p, In p (purchases w) /\ PurchaseCode p = code) ->
        matching code ->
        (forall p', In p' (purchases w) -> matching (PurchaseCode p') ->
                    String.leb (PurchaseCode p') code = true) ->
        (forall s : Z,
           (4 <= String.length code)%nat ->
           strconv.Atoi (PurchaseRepository.last4 code) = Some s ->
           result = (s + 1, None))
        /\ ((String.length code < 4)%nat
            \/ strconv.Atoi (PurchaseRepository.last4 code) = None ->
            result = (1, None))).
Proof.
  intros Hok matching result. subst result.
  rewrite (GetNextSequenceNumber_unfold w prefix Hok). split.
  - intros Hnone. rewrite filter_nil_iff; [reflexivity|].
    intros p Hp. specialize (Hnone p Hp). unfold matching in Hnone.
    now destruct (regex_match _ _ _).
  - intros code Hex Hm Hmax.
    destruct (greatest_code_selected w prefix code Hex Hm Hmax)
      as (lastPurchase & rest & -> & ->).
    cbv zeta. split.
    + intros s Hlen Hs.
      apply Nat.leb_le in Hlen. rewrite Hlen, Hs.
      now rewrite (Atoi_last4_succ code s) by (try apply Nat.leb_le; assumption).
    + intros [Hshort | Hbad].
      * apply Nat.leb_gt in Hshort. now rewrite Hshort.
      * rewrite Hbad. now destruct (4 <=? String.length code)%nat.
Qed.

Lemma C7_next_sequence_number_witness :
  fst (@PurchaseRepository.GetNextSequenceNumber literal_regex "PUR-VAT-6701"
         purchaseWorld) = (4, None).
Proof.
  refine (proj1 (proj2 (@C7_next_sequence_number literal_regex purchaseWorld
                          "PUR-VAT-6701" (fun _ => eq_refl))
                   "PUR-VAT-6701-0003" _ eq_refl _) 3 _ eq_refl).
  - eexists. split; [right; left; reflexivity | reflexivity].
  - intros p' Hin Hm. cbn in Hin.
    destruct Hin as [<- | [<- | [<- | [<- | []]]]];
      first [reflexivity | discriminate Hm].
  - cbn. lia.
Defined.

(** ** The SKU generator *)

(** The shape of a SKU that matches the pattern, and of its two groups. *)
Lemma matchSKUID_shape (sku category digits : string) :
  matchSKUID sku = Some (category, digits) ->
  sku = category ++ "-" ++ digits
  /\ (String.length category = 2 \/ String.length category = 3)%nat
  /\ forallb is_upper (list_ascii_of_string category) = true
  /\ String.length digits = 4%nat
  /\ forallb strconv.is_digit (list_ascii_of_string digits) = true.
Proof.
  intros Em. unfold matchSKUID in Em.
  rewrite <- (string_of_list_ascii_of_string sku).
  destruct (list_ascii_of_string sku)
    as [|a [|b [|c [|x1 [|x2 [|x3 [|x4 [|x5 [|x6 l]]]]]]]]]; try discriminate.
  - destruct (forallb is_upper [a; b] && Ascii.eqb c "-"
              && forallb strconv.is_digit [x1; x2; x3; x4]) eqn:E; [|discriminate].
    injection Em as <- <-.
    apply andb_prop in E. destruct E as [E Hd].
    apply andb_prop in E. destruct E as [Hu Hdash].
    apply Ascii.eqb_eq in Hdash. subst c.
    repeat split; auto.
  - destruct (forallb is_upper [a; b; c] && Ascii.eqb x1 "-"
              && forallb strconv.is_digit [x2; x3; x4; x5]) eqn:E; [|discriminate].
    injection Em as <- <-.
    apply andb_prop in E. destruct E as [E Hd].
    apply andb_prop in E. destruct E as [Hu Hdash].
    apply Ascii.eqb_eq in Hdash. subst x1.
    repeat split; auto.
Qed.

(** X3. What [ParseSKUID] accepts is the pattern [^([A-Z]{2,3})-(\d{4})$]:
    two or three capital letters, a dash and four digits and nothing else;
    the number is the value of the digits, from 0 to 9999. *)
Lemma ParseSKUID_accepts (sku category : string) (number : Z) :
  ParseSKUID sku = (category, number, None) ->
  exists digits : string,
    sku = category ++ "-" ++ digits
    /\ (String.length category = 2 \/ String.length category = 3)%nat
    /\ forallb is_upper (list_ascii_of_string category) = true
    /\ String.length digits = 4%nat
    /\ forallb strconv.is_digit (list_ascii_of_string digits) = true
    /\ strconv.Atoi digits = Some number
    /\ 0 <= number <= 9999.
Proof.
  unfold ParseSKUID.
  destruct (matchSKUID sku) as [[c d]|] eqn:Em; [|discriminate].
  destruct (strconv.Atoi d) as [n|] eqn:Ea; [|discriminate].
  intros [= -> ->].
  destruct (matchSKUID_shape _ _ _ Em) as (Hs & Hl & Hu & Hd4 & Hd).
  exists d. repeat split; auto.
  - (* the value of four digits is not negative *)
    destruct d as [|c0 d0]; [discriminate|].
    unfold strconv.Atoi in Ea.
    cbn [list_ascii_of_string forallb] in Hd. apply andb_prop in Hd.
    destruct Hd as [Hc0 _].
    assert (Hns : c0 <> "+"%char /\ c0 <> "-"%char)
      by (split; intros ->; discriminate Hc0).
    assert (Ea' : match strconv.digits_value 0 (String c0 d0) with
                  | Some v => if in_range v then Some v else None
                  | None => None
                  end = Some number).
    { revert Ea. destruct Hns as [Hp Hm].
      destruct c0 as [[] [] [] [] [] [] [] []]; try exact (fun h => h);
        try (exfalso; apply Hp; reflexivity);
        try (exfalso; apply Hm; reflexivity). }
    destruct (strconv.digits_value 0 (String c0 d0)) as [v|] eqn:Ev; [|discriminate].
    apply digits_value_bound in Ev; [|lia].
    destruct (in_range v); [|discriminate]. injection Ea' as <-. lia.
  - apply Atoi_bound in Ea. rewrite Hd4 in Ea. cbn in Ea. lia.
Qed.

Section NextSKUNumber.

Context `{Strings}.

Variable sg : SKUGenerator.
Variable category : string.

Let abbrev := getCategoryAbbreviation sg category.

(** One iteration of the loop of [GetNextSKUNumber]. *)
Let step (maxNumber : Z) (sku : string) : Z :=
  match ParseSKUID sku with
  | (_, _, Some _) => maxNumber
  | (parsedCategory, number, None) =>
      if String.eqb parsedCategory abbrev && (maxNumber <? number)
      then number else maxNumber
  end.

Lemma loop_max (existingSKUs : list string) (m : Z) :
  let r := fold_left step existingSKUs m in
  m <= r
  /\ (forall sku n, In sku existingSKUs ->
                    ParseSKUID sku = (abbrev, n, None) -> n <= r)
  /\ (r = m \/ exists sku, In sku existingSKUs
                           /\ ParseSKUID sku = (abbrev, r, None)).
Proof.
  revert m. induction existingSKUs as [|sku l IH]; intros m; cbn [fold_left].
  - repeat split; [lia | intros ? ? [] | now left].
  - specialize (IH (step m sku)). cbv zeta in IH.
    destruct IH as (Hge & Hall & Hex).
    assert (Hstep : m <= step m sku
                    /\ (forall n, ParseSKUID sku = (abbrev, n, None) ->
                                  n <= step m sku)
                    /\ (step m sku = m
                        \/ ParseSKUID sku = (abbrev, step m sku, None))).
    { unfold step. destruct (ParseSKUID sku) as [[c n] [e|]].
      - repeat split; [lia | intros ? [=] | now left].
      - destruct (String.eqb_spec c abbrev) as [-> | Hne]; cbn [andb].
        + destruct (Z.ltb_spec m n).
          * repeat split; [lia | intros ? [= <-]; lia | now right].
          * repeat split; [lia | intros ? [= <-]; lia | now left].
        + repeat split; [lia | intros ? [= -> _]; congruence | now left]. }
    destruct Hstep as (H1 & H2 & H3).
    cbv zeta. split; [lia | split].
    + intros s n [<- | Hin] Hp; [specialize (H2 n Hp); lia | eauto].
    + destruct Hex as [Hr | (s & Hin & Hp)].
      * rewrite Hr. destruct H3 as [-> | Hp]; [now left|].
        right. exists sku. split; [now left | exact Hp].
      * right. exists s. split; [now right | exact Hp].
Qed.

(** X1 (the first half of C8). [GetNextSKUNumber] returns the greatest
    number among the existing SKUs that [ParseSKUID] accepts with the
    category's abbreviation as their letters, and 0 when there is none. *)
Lemma GetNextSKUNumber_max (existingSKUs : list string) :
  let r := GetNextSKUNumber sg category existingSKUs in
  (forall sku n, In sku existingSKUs ->
                 ParseSKUID sku = (abbrev, n, None) -> n <= r)
  /\ (r = 0 \/ exists sku, In sku existingSKUs
                           /\ ParseSKUID sku = (abbrev, r, None))
  /\ ((forall sku n, In sku existingSKUs ->
                     ParseSKUID sku <> (abbrev, n, None)) -> r = 0).
Proof.
  destruct (loop_max existingSKUs 0) as (_ & Hall & Hex).
  cbv zeta. change (GetNextSKUNumber sg category existingSKUs)
    with (fold_left step existingSKUs 0).
  split; [exact Hall | split; [exact Hex |]].
  intros Hnone. destruct Hex as [E | (s & Hin & Hp)]; [exact E|].
  now destruct (Hnone s _ Hin Hp).
Qed.

End NextSKUNumber.

(** ** [GenerateSKUID] and the format string *)

Lemma append_nil_r (s : string) : s ++ "" = s.
Proof. induction s as [|c s IH]; cbn; [reflexivity | now rewrite IH]. Qed.

Lemma append_assoc (a b c : string) : (a ++ b) ++ c = a ++ (b ++ c).
Proof. induction a as [|x a IH]; cbn; [reflexivity | now rewrite IH]. Qed.

(** Text without a percent sign is copied by [Sprintf]. *)
Lemma Sprintf_literal (s rest : string) (args : list fmt.arg) :
  no_percent s ->
  fmt.Sprintf (s ++ rest) args = option_map (append s) (fmt.Sprintf rest args).
Proof.
  unfold no_percent.
  induction s as [|c s IH]; cbn [append list_ascii_of_string]; intros Hno.
  - now destruct (fmt.Sprintf rest args).
  - assert (Hc : c <> "%"%char) by (intros ->; apply Hno; now left).
    assert (Hs : ~ In "%"%char (list_ascii_of_string s))
      by (intros Hin; apply Hno; now right).
    specialize (IH Hs).
    transitivity (option_map (String c) (fmt.Sprintf (s ++ rest) args)).
    + destruct c as [[] [] [] [] [] [] [] []];
        try reflexivity; exfalso; apply Hc; reflexivity.
    + rewrite IH. now destruct (fmt.Sprintf rest args).
Qed.

(** The first call builds the format [abbrev ++ "-%04d"], whatever the
    abbreviation. *)
Lemma GenerateSKUID_format (abbrev : string) :
  fmt.Sprintf "%s-%%04d" [fmt.ArgString abbrev] = Some (abbrev ++ "-%04d").
Proof. reflexivity. Qed.

(** On an abbreviation without a percent sign, [GenerateSKUID] returns the
    abbreviation, a dash and the number after [lastNumber] under [%04d]. *)
Lemma GenerateSKUID_plain `{Strings} (sg : SKUGenerator) (category : string)
    (lastNumber : Z) :
  no_percent (getCategoryAbbreviation sg category) ->
  GenerateSKUID sg category lastNumber
  = Some (getCategoryAbbreviation sg category ++ "-"
          ++ fmt.fmt_04d (add lastNumber 1)).
Proof.
  intros Hno. unfold GenerateSKUID. rewrite GenerateSKUID_format.
  rewrite (Sprintf_literal _ _ _ Hno). cbn. now rewrite append_nil_r.
Qed.

(** [%04d] of a number from 0 to 9999 is its four digits. *)
Lemma fmt_04d_pad4 (n : Z) : 0 <= n <= 9999 -> fmt.fmt_04d n = pad4 n.
Proof.
  intros Hn.
  assert (Hall : forallb (fun k => String.eqb (fmt.fmt_04d (Z.of_nat k))
                                     (pad4 (Z.of_nat k)))
                         (seq 0 (Z.to_nat 10000)) = true) by (vm_compute; reflexivity).
  rewrite forallb_forall in Hall.
  specialize (Hall (Z.to_nat n)).
  rewrite Z2Nat.id in Hall by lia.
  apply String.eqb_eq, Hall, in_seq. lia.
Qed.

(** P7: when the category abbreviates to [ABC] and the greatest existing
    number is 42, the generated SKU is [ABC-0043]. *)
Lemma GenerateSKUID_ABC `{Strings} (sg : SKUGenerator) (category : string)
    (existingSKUs : list string) :
  getCategoryAbbreviation sg category = "ABC" ->
  GetNextSKUNumber sg category existingSKUs = 42 ->
  GenerateSKUID sg category (GetNextSKUNumber sg category existingSKUs)
  = Some "ABC-0043".
Proof.
  intros Ha ->. rewrite GenerateSKUID_plain; rewrite Ha.
  - reflexivity.
  - unfold no_percent. cbn. intuition discriminate.
Qed.

(** ** The handlers *)

(** One step of a run: the redexes a rewrite has uncovered, and the fields
    of the worlds built on the way. *)
Ltac run :=
  cbv beta iota zeta;
  cbn [products adjustments purchases stdout outcome calls now ticks fresh
       allocs fst snd].

Lemma is_hex_lower (c : ascii) : is_hex c = true -> is_hex (lower_hex c) = true.
Proof. destruct c as [[] [] [] [] [] [] [] []]; intros E; first [exact E | reflexivity]. Qed.

Lemma lower_hex_idem (c : ascii) : lower_hex (lower_hex c) = lower_hex c.
Proof. destruct c as [[] [] [] [] [] [] [] []]; reflexivity. Qed.

(** An object id read from its hexadecimal form reads as itself. *)
Lemma ObjectIDFromHex_canonical (s : string) (oid : ObjectID) :
  ObjectIDFromHex s = Some oid -> ObjectIDFromHex oid = Some oid.
Proof.
  unfold ObjectIDFromHex.
  destruct (Nat.eqb (List.length (list_ascii_of_string s)) 24
            && forallb is_hex (list_ascii_of_string s)) eqn:E; [|discriminate].
  intros [= <-]. apply andb_prop in E. destruct E as [Hlen Hhex].
  rewrite list_ascii_of_string_of_list_ascii, length_map, Hlen.
  rewrite map_map.
  assert (Hh : forallb is_hex (map lower_hex (list_ascii_of_string s)) = true).
  { rewrite forallb_forall in Hhex |- *. intros c Hc.
    apply in_map_iff in Hc. destruct Hc as (c0 & <- & Hc0).
    now apply is_hex_lower, Hhex. }
  rewrite Hh. cbn. f_equal. f_equal. apply map_ext, lower_hex_idem.
Qed.

Lemma find_eqb_ID (oid : ObjectID) (l : list Product) (p : Product) :
  find (fun x => String.eqb (ID x) oid) l = Some p -> ID p = oid.
Proof. intros Hf. apply find_some in Hf. now apply String.eqb_eq. Qed.

Lemma find_existsb {A} (f : A -> bool) (l : list A) (x : A) :
  find f l = Some x -> existsb f l = true.
Proof.
  intros Hf. apply find_some in Hf. apply existsb_exists. now exists x.
Qed.

Lemma ApplyStockAdjustment_ID (p : Product) (at_ : StockAdjustmentType)
    (st : StockType) (q : Z) : ID (ApplyStockAdjustment p at_ st q) = ID p.
Proof.
  unfold ApplyStockAdjustment. cbv zeta.
  destruct (String.eqb st StockTypeActualStock);
    destruct (String.eqb at_ AdjustmentTypeAdd);
    destruct (String.eqb st StockTypeVAT); reflexivity.
Qed.

Section DeleteStockAdjustment.

Variable w : World.
Variable adjustmentID : string.
Variable aid pid : ObjectID.
Variable adjustment : StockAdjustment.
Variable product : Product.

Hypothesis driver_ok : forall n, outcome w n = None.
Hypothesis id_ok : ObjectIDFromHex adjustmentID = Some aid.
Hypothesis adjustment_found :
  find (fun a => String.eqb (SA_ID a) aid) (adjustments w) = Some adjustment.
Hypothesis pid_ok : ObjectIDFromHex (ProductID adjustment) = Some pid.
Hypothesis product_found :
  find (fun p => String.eqb (ID p) pid) (products w) = Some product.

(** The reversal the handler applies, and the product it stores. *)
Let reverseType : StockAdjustmentType :=
  if String.eqb (AdjustmentType adjustment) AdjustmentTypeAdd
  then AdjustmentTypeReduce else AdjustmentTypeAdd.

Let reversed : Product :=
  set_UpdatedAt
    (ApplyStockAdjustment product reverseType (SA_StockType adjustment)
       (Quantity adjustment))
    (now w (ticks w)).

Lemma DeleteStockAdjustment_run :
  let '(response, w') := DeleteStockAdjustment adjustmentID w in
  response = json_Encode reversed
  /\ products w'
     = replace_first (fun p => String.eqb (ID p) pid) reversed (products w)
  /\ adjustments w'
     = delete_first (fun a => String.eqb (SA_ID a) aid) (adjustments w).
Proof.
  assert (Hid : ID reversed = pid).
  { unfold reversed. cbn [ID set_UpdatedAt].
    rewrite ApplyStockAdjustment_ID. exact (find_eqb_ID _ _ _ product_found). }
  pose proof (ObjectIDFromHex_canonical _ _ pid_ok) as Hpid.
  pose proof (find_existsb _ _ _ adjustment_found) as Hex.
  unfold DeleteStockAdjustment, StockAdjustmentRepository.GetByID,
    ProductRepository.GetByID, ProductRepository.Update,
    StockAdjustmentRepository.Delete.
  unfold bind, driver_call, get, ret, time_Now, set_products, set_adjustments.
  rewrite id_ok, driver_ok. run.
  rewrite adjustment_found. run.
  rewrite pid_ok. run.
  rewrite driver_ok. run.
  rewrite product_found. run.
  fold reverseType. fold reversed. rewrite Hid, Hpid. run.
  rewrite driver_ok. run.
  rewrite driver_ok. run.
  rewrite Hex. run. repeat split.
Qed.

End DeleteStockAdjustment.

(** An addition followed by a reduction of the same quantity, on the ["vat"]
    and on the ["nonvat"] stock: what remains and the actual stock are back
    to what they were, purchased and sold have both grown. *)
Lemma add_then_reduce_vat (p : Product) (q : Z) :
  let s := Product_Stock p in
  let s2 := Product_Stock
              (ApplyStockAdjustment
                 (ApplyStockAdjustment p AdjustmentTypeAdd StockTypeVAT q)
                 AdjustmentTypeReduce StockTypeVAT q) in
  int_ok (Remaining (VAT s)) -> int_ok (ActualStock s) ->
  Remaining (VAT s2) = Remaining (VAT s)
  /\ ActualStock s2 = ActualStock s
  /\ Purchased (VAT s2) = add (Purchased (VAT s)) q
  /\ Sold (VAT s2) = add (Sold (VAT s)) q
  /\ NonVAT s2 = NonVAT s.
Proof.
  intros s s2 Hr Ha. subst s2.
  rewrite apply_reduce_vat, apply_add_vat. fold s. cbn.
  repeat split; auto using sub_add_cancel.
Qed.

Lemma add_then_reduce_nonvat (p : Product) (q : Z) :
  let s := Product_Stock p in
  let s2 := Product_Stock
              (ApplyStockAdjustment
                 (ApplyStockAdjustment p AdjustmentTypeAdd StockTypeNonVAT q)
                 AdjustmentTypeReduce StockTypeNonVAT q) in
  int_ok (Remaining (NonVAT s)) -> int_ok (ActualStock s) ->
  Remaining (NonVAT s2) = Remaining (NonVAT s)
  /\ ActualStock s2 = ActualStock s
  /\ Purchased (NonVAT s2) = add (Purchased (NonVAT s)) q
  /\ Sold (NonVAT s2) = add (Sold (NonVAT s)) q
  /\ VAT s2 = VAT s.
Proof.
  intros s s2 Hr Ha. subst s2.
  rewrite apply_reduce_nonvat, apply_add_nonvat. fold s. cbn.
  repeat split; auto using sub_add_cancel.
Qed.

(** C6. [DeleteStockAdjustment], when the record and its product are found
    and the database answers, applies [ApplyStockAdjustment] to the product
    as it is now stored, with the recorded stock type and quantity and the
    adjustment type flipped (["add"] becomes ["reduce"], anything else
    ["add"]), stores the result, removes the record and answers with the
    product.  On the ["vat"] or ["nonvat"] stock, a reduction after an
    addition of the same quantity puts [remaining] and [actualStock] back to
    their earlier values and leaves both [purchased] and [sold] raised by the
    quantity (Go's [+=]): the cumulative counters are not taken back. *)
Theorem C6_delete_reapplies_flipped (w : World) (adjustmentID : string)
    (aid pid : ObjectID) (adjustment : StockAdjustment) (product : Product) :
  (forall n, outcome w n = None) ->
  ObjectIDFromHex adjustmentID = Some aid ->
  find (fun a => String.eqb (SA_ID a) aid) (adjustments w) = Some adjustment ->
  ObjectIDFromHex (ProductID adjustment) = Some pid ->
  find (fun p => String.eqb (ID p) pid) (products w) = Some product ->
  let reverseType :=
    if String.eqb (AdjustmentType adjustment) AdjustmentTypeAdd
    then AdjustmentTypeReduce else AdjustmentTypeAdd in
  let reversed :=
    set_UpdatedAt
      (ApplyStockAdjustment product reverseType (SA_StockType adjustment)
         (Quantity adjustment))
      (now w (ticks w)) in
  let run := DeleteStockAdjustment adjustmentID w in
  (fst run = json_Encode reversed
   /\ products (snd run)
      = replace_first (fun p => String.eqb (ID p) pid) reversed (products w)
   /\ adjustments (snd run)
      = delete_first (fun a => String.eqb (SA_ID a) aid) (adjustments w))
  /\ (forall (p0 : Product) (q : Z),
        let s := Product_Stock p0 in
        let s2 := Product_Stock
                    (ApplyStockAdjustment
                       (ApplyStockAdjustment p0 AdjustmentTypeAdd StockTypeVAT q)
                       AdjustmentTypeReduce StockTypeVAT q) in
        int_ok (Remaining (VAT s)) -> int_ok (ActualStock s) ->
        Remaining (VAT s2) = Remaining (VAT s)
        /\ ActualStock s2 = ActualStock s
        /\ Purchased (VAT s2) = add (Purchased (VAT s)) q
        /\ Sold (VAT s2) = add (Sold (VAT s)) q
        /\ NonVAT s2 = NonVAT s)
  /\ (forall (p0 : Product) (q : Z),
        let s := Product_Stock p0 in
        let s2 := Product_Stock
                    (ApplyStockAdjustment
                       (ApplyStockAdjustment p0 AdjustmentTypeAdd StockTypeNonVAT q)
                       AdjustmentTypeReduce StockTypeNonVAT q) in
        int_ok (Remaining (NonVAT s)) -> int_ok (ActualStock s) ->
        Remaining (NonVAT s2) = Remaining (NonVAT s)
        /\ ActualStock s2 = ActualStock s
        /\ Purchased (NonVAT s2) = add (Purchased (NonVAT s)) q
        /\ Sold (NonVAT s2) = add (Sold (NonVAT s)) q
        /\ VAT s2 = VAT s).
Proof.
  intros Hok Hid Ha Hpid Hp reverseType reversed run.
  split; [| split; [exact add_then_reduce_vat | exact add_then_reduce_nonvat]].
  pose proof (DeleteStockAdjustment_run w adjustmentID aid pid adjustment
                product Hok Hid Ha Hpid Hp) as H.
  fold reverseType in H. fold reversed in H. subst run.
  destruct (DeleteStockAdjustment adjustmentID w) as [response w']. exact H.
Qed.

Lemma C6_delete_reapplies_flipped_witness :
  let run := DeleteStockAdjustment "65f0000000000000000000c1" (shopWorld []) in
  fst run
  = json_Encode
      (set_Stock zeroProduct (mkStock (mkStockInfo 5 5 0) zeroStockInfo 0))
  /\ adjustments (snd run) = [].
Proof.
  destruct (C6_delete_reapplies_flipped (shopWorld [])
              "65f0000000000000000000c1" "65f0000000000000000000c1"
              "65f000000000000000000001" auditRecord stockedProduct
              (fun _ => eq_refl) eq_refl eq_refl eq_refl eq_refl)
    as ((Hr & _ & Hadj) & _).
  split; [exact Hr | exact Hadj].
Defined.

Section AdjustStockRun.

Variables w w1 : World.
Variable productID : string.
Variable req : StockAdjustmentRequest.
Variable product : Product.
Variable oid : ObjectID.

Hypothesis found : lookupProduct productID w = (inr product, w1).
Hypothesis quantity_ok : 0 < Req_Quantity req.
Hypothesis type_ok :
  Req_AdjustmentType req = AdjustmentTypeAdd
  \/ Req_AdjustmentType req = AdjustmentTypeReduce.
Hypothesis stock_ok :
  Req_StockType req = StockTypeVAT \/ Req_StockType req = StockTypeNonVAT
  \/ Req_StockType req = StockTypeActualStock.
Hypothesis oid_ok : ObjectIDFromHex (ID product) = Some oid.
Hypothesis update_ok : outcome w1 (calls w1) = None.

(** The product the handler stores and answers with. *)
Let adjusted : Product :=
  set_UpdatedAt
    (ApplyStockAdjustment product (Req_AdjustmentType req)
       (Req_StockType req) (Req_Quantity req))
    (now w1 (S (ticks w1))).

Lemma AdjustStock_run :
  let '(response, w') := AdjustStock productID (Some req) w in
  response = json_Encode adjusted
  /\ products w'
     = replace_first (fun p => String.eqb (ID p) oid) adjusted (products w1)
  /\ (forall err, outcome w1 (S (calls w1)) = Some err ->
        adjustments w' = adjustments w1
        /\ stdout w'
           = (stdout w1
              ++ [("Warning: Failed to save stock adjustment history: "
                   ++ err ++ LF)%string])%list).
Proof.
  assert (Hq : (Req_Quantity req <=? 0) = false) by (apply Z.leb_gt; lia).
  assert (Ht : negb (String.eqb (Req_AdjustmentType req) AdjustmentTypeAdd)
               && negb (String.eqb (Req_AdjustmentType req) AdjustmentTypeReduce)
               = false) by (destruct type_ok as [-> | ->]; reflexivity).
  assert (Hs : negb (String.eqb (Req_StockType req) StockTypeVAT)
               && negb (String.eqb (Req_StockType req) StockTypeNonVAT)
               && negb (String.eqb (Req_StockType req) StockTypeActualStock)
               = false) by (destruct stock_ok as [-> | [-> | ->]]; reflexivity).
  assert (Hid : ID adjusted = ID product)
    by (unfold adjusted; cbn [ID set_UpdatedAt]; apply ApplyStockAdjustment_ID).
  unfold AdjustStock. unfold bind at 1. rewrite found. run.
  rewrite Hq, Ht, Hs.
  unfold ProductRepository.Update, StockAdjustmentRepository.Create.
  unfold bind, driver_call, get, ret, time_Now, set_products, set_adjustments,
    NewObjectID, print. run.
  fold adjusted. rewrite Hid, oid_ok. run. rewrite update_ok. run.
  cbn [SetAfterValues ToStockAdjustment SA_ID String.eqb NilObjectID Ascii.eqb
       Bool.eqb set_SA_ID]. run.
  destruct (outcome w1 (S (calls w1))) as [err|] eqn:Eaudit; run.
  - split; [reflexivity | split; [reflexivity |]].
    intros err' [= <-]. split; reflexivity.
  - destruct (existsb _ (adjustments w1)); run;
      (split; [reflexivity | split; [reflexivity | intros ? [=]]]).
Qed.

End AdjustStockRun.

Section UpdateProductItemRun.

Context `{Platform}.

Variable w : World.
Variable purchase : Purchase.
Variable item : PurchaseItem.
Variable product : Product.
Variable oid : ObjectID.

Hypothesis oid_ok : ObjectIDFromHex (Item_ProductID item) = Some oid.
Hypothesis get_ok : outcome w (calls w) = None.
Hypothesis found :
  find (fun p => String.eqb (ID p) oid) (products w) = Some product.
Hypothesis update_ok : outcome w (S (calls w)) = None.

Let stockType : StockType :=
  if IsVAT purchase then StockTypeVAT else StockTypeNonVAT.

(** The product the iteration stores. *)
Let purchased : Product :=
  ApplyStockAdjustment
    (UpdatePrice (now w (ticks w)) product (UnitPrice item) (IsVAT purchase) true)
    AdjustmentTypeAdd stockType (Item_Quantity item).

Lemma updateProductItem_run :
  let w' := snd (updateProductItem purchase item w) in
  products w'
  = replace_first (fun p => String.eqb (ID p) oid) purchased (products w)
  /\ (forall err, outcome w (S (S (calls w))) = Some err ->
        adjustments w' = adjustments w
        /\ stdout w'
           = (stdout w
              ++ [("Warning: Failed to record stock change history: "
                   ++ err ++ LF)%string])%list).
Proof.
  unfold updateProductItem, RecordStockChange, ProductRepository.GetByID,
    ProductRepository.Update, StockAdjustmentRepository.Create.
  unfold bind, driver_call, get, ret, time_Now, set_products, set_adjustments,
    NewObjectID, print. run.
  rewrite oid_ok. run. rewrite get_ok. run. rewrite found. run.
  fold stockType. fold purchased. rewrite update_ok. run.
  cbn [SetAfterValues SA_ID String.eqb NilObjectID Ascii.eqb Bool.eqb
       set_SA_ID]. run.
  destruct (outcome w (S (S (calls w)))) as [err|] eqn:Eaudit; run.
  - split; [reflexivity |]. intros err' [= <-]. split; reflexivity.
  - destruct (existsb _ (adjustments w)); run;
      (split; [reflexivity | intros ? [=]]).
Qed.

End UpdateProductItemRun.

Lemma updateProductData_nil `{Platform} (purchase : Purchase) (w : World) :
  fst (updateProductData purchase w) = None.
Proof.
  unfold updateProductData, bind, ret.
  now destruct (for_range (Items purchase) (updateProductItem purchase) w).
Qed.

(** C9. When the write of the audit record fails after the stock was
    changed, the failure goes to standard output and nowhere else.  In
    [AdjustStock]: the updated product is in the database, the answer is the
    200 response carrying it, no record was added.  In an iteration of
    [updateProductData]: the updated product is in the database and no record
    was added; and [updateProductData] returns no error, whatever
    happened. *)
Theorem C9_audit_failure_is_only_logged `{Platform} :
  (forall (w w1 : World) (productID : string) (req : StockAdjustmentRequest)
          (product : Product) (oid : ObjectID) (err : error),
      lookupProduct productID w = (inr product, w1) ->
      0 < Req_Quantity req ->
      Req_AdjustmentType req = AdjustmentTypeAdd
      \/ Req_AdjustmentType req = AdjustmentTypeReduce ->
      Req_StockType req = StockTypeVAT \/ Req_StockType req = StockTypeNonVAT
      \/ Req_StockType req = StockTypeActualStock ->
      ObjectIDFromHex (ID product) = Some oid ->
      outcome w1 (calls w1) = None ->
      outcome w1 (S (calls w1)) = Some err ->
      let adjusted :=
        set_UpdatedAt
          (ApplyStockAdjustment product (Req_AdjustmentType req)
             (Req_StockType req) (Req_Quantity req))
          (now w1 (S (ticks w1))) in
      let run := AdjustStock productID (Some req) w in
      fst run = mkResponse 200 (BodyProduct adjusted)
      /\ products (snd run)
         = replace_first (fun p => String.eqb (ID p) oid) adjusted (products w1)
      /\ adjustments (snd run) = adjustments w1
      /\ stdout (snd run)
         = (stdout w1
            ++ [("Warning: Failed to save stock adjustment history: "
                 ++ err ++ LF)%string])%list)
  /\ (forall (w : World) (purchase : Purchase) (item : PurchaseItem)
             (product : Product) (oid : ObjectID) (err : error),
        ObjectIDFromHex (Item_ProductID item) = Some oid ->
        outcome w (calls w) = None ->
        find (fun p => String.eqb (ID p) oid) (products w) = Some product ->
        outcome w (S (calls w)) = None ->
        outcome w (S (S (calls w))) = Some err ->
        let stockType :=
          if IsVAT purchase then StockTypeVAT else StockTypeNonVAT in
        let purchased :=
          ApplyStockAdjustment
            (UpdatePrice (now w (ticks w)) product (UnitPrice item)
               (IsVAT purchase) true)
            AdjustmentTypeAdd stockType (Item_Quantity item) in
        let w' := snd (updateProductItem purchase item w) in
        products w'
        = replace_first (fun p => String.eqb (ID p) oid) purchased (products w)
        /\ adjustments w' = adjustments w
        /\ stdout w'
           = (stdout w
              ++ [("Warning: Failed to record stock change history: "
                   ++ err ++ LF)%string])%list)
  /\ (forall (purchase : Purchase) (w : World),
        fst (updateProductData purchase w) = None).
Proof.
  split; [| split; [| exact updateProductData_nil]].
  - intros w w1 productID req product oid err Hf Hq Ht Hs Ho Hu He adjusted run.
    pose proof (AdjustStock_run w w1 productID req product oid Hf Hq Ht Hs Ho Hu)
      as R.
    fold adjusted in R. subst run.
    destruct (AdjustStock productID (Some req) w) as [response w'].
    destruct R as (R1 & R2 & R3). destruct (R3 err He) as [R4 R5].
    repeat split; assumption.
  - intros w purchase item product oid err Ho Hg Hf Hu He stockType purchased w'.
    destruct (updateProductItem_run w purchase item product oid Ho Hg Hf Hu)
      as [R1 R2].
    destruct (R2 err He) as [R3 R4]. repeat split; assumption.
Qed.

Lemma C9_audit_failure_is_only_logged_witness :
  let req := mkStockAdjustmentRequest AdjustmentTypeAdd StockTypeVAT 3 None in
  let run := AdjustStock "65f000000000000000000001" (Some req) (shopWorld [2%nat]) in
  let run' := @updateProductData amd64 purchaseOfTen (shopWorld [2%nat]) in
  (StatusCode (fst run) = 200
   /\ map (fun p => Product_Stock p) (products (snd run))
      = [mkStock (mkStockInfo 8 0 8) zeroStockInfo 8]
   /\ adjustments (snd run) = [auditRecord]
   /\ stdout (snd run)
      = [("Warning: Failed to save stock adjustment history: connection reset"
          ++ LF)%string])
  /\ (fst run' = None
      /\ map (fun p => Product_Stock p) (products (snd run'))
         = [mkStock (mkStockInfo 15 0 15) zeroStockInfo 15]
      /\ adjustments (snd run') = [auditRecord]
      /\ stdout (snd run')
         = [("Warning: Failed to record stock change history: connection reset"
             ++ LF)%string]).
Proof.
  intros req run run'.
  destruct (@C9_audit_failure_is_only_logged amd64) as (A & B & C).
  split.
  - destruct (A (shopWorld [2%nat])
                (snd (lookupProduct "65f000000000000000000001" (shopWorld [2%nat])))
                "65f000000000000000000001" req stockedProduct
                "65f000000000000000000001" "connection reset"
                eq_refl eq_refl (or_introl eq_refl) (or_introl eq_refl)
                eq_refl eq_refl eq_refl)
      as (R1 & R2 & R3 & R4).
    fold run in R1, R2, R3, R4.
    split; [now rewrite R1 | split; [now rewrite R2 | split; [exact R3 | exact R4]]].
  - split; [apply C |]. subst run'. vm_compute. repeat split.
Defined.

(** C8, at a category whose abbreviation holds percent signs: the category
    ["%%"] abbreviates to itself, and with the greatest existing number 42
    [GenerateSKUID] returns ["%-0043"], one percent sign short of the
    abbreviation followed by a dash and the number. *)
Theorem C8_GenerateSKUID_percent_sign :
  @getCategoryAbbreviation ascii_strings bareGenerator "%%" = "%%"
  /\ @GenerateSKUID ascii_strings bareGenerator "%%" 42 = Some "%-0043"
  /\ @GenerateSKUID ascii_strings bareGenerator "%%" 42
     <> Some ("%%" ++ "-" ++ pad4 43).
Proof.
  split; [reflexivity | split; [reflexivity | discriminate]].
Qed.

Lemma ParseSKUID_accepts_witness :
  exists digits : string,
    "ABC-0042" = "ABC" ++ "-" ++ digits /\ strconv.Atoi digits = Some 42.
Proof.
  destruct (ParseSKUID_accepts "ABC-0042" "ABC" 42 eq_refl)
    as (digits & E & _ & _ & _ & _ & Ha & _).
  exists digits. split; [exact E | exact Ha].
Defined.

(** X2 (the second half of C8, away from the percent sign). When the
    category's abbreviation holds no percent sign, [GenerateSKUID] returns
    the abbreviation, a dash and [lastNumber + 1] (Go's [+]) under [%04d];
    and for [lastNumber] from 0 to 9998 that is the four digits of
    [lastNumber + 1]. *)
Theorem X2_GenerateSKUID_without_percent `{Strings} (sg : SKUGenerator)
    (category : string) (lastNumber : Z) :
  no_percent (getCategoryAbbreviation sg category) ->
  GenerateSKUID sg category lastNumber
  = Some (getCategoryAbbreviation sg category ++ "-"
          ++ fmt.fmt_04d (add lastNumber 1))
  /\ (0 <= lastNumber <= 9998 ->
      GenerateSKUID sg category lastNumber
      = Some (getCategoryAbbreviation sg category ++ "-"
              ++ pad4 (lastNumber + 1))).
Proof.
  intros Hno. split; [now apply GenerateSKUID_plain|].
  intros Hn. rewrite (GenerateSKUID_plain sg category lastNumber Hno).
  rewrite add_exact by (unfold int_ok, MinInt, MaxInt; lia).
  now rewrite fmt_04d_pad4 by lia.
Qed.

Lemma X2_GenerateSKUID_without_percent_witness :
  @GenerateSKUID ascii_strings bareGenerator "abcdef" 42 = Some "ABC-0043".
Proof.
  refine (proj2 (@X2_GenerateSKUID_without_percent ascii_strings bareGenerator
                   "abcdef" 42 _) _).
  - unfold no_percent. cbn. intuition discriminate.
  - lia.
Defined.

(** X4 (P3). When the stored [ytdYear] is not the current year, one update
    sets [ytdYear] to the current year, [ytdCount] to 1 and [ytdTotal] and
    [averageYTD] to the new price, unrounded; likewise for the month-to-date
    fields when the stored year or month is not the current one. *)
Theorem X4_period_reset `{Platform} (t : Time) (pi : PriceInfo) (v : float) :
  let pi' := updatePriceInfo t pi v in
  (YTDYear pi <> Year t ->
   YTDYear pi' = Year t /\ YTDCount pi' = 1
   /\ YTDTotal pi' = v /\ AverageYTD pi' = v)
  /\ (MTDYear pi <> Year t \/ MTDMonth pi <> Month t ->
      MTDYear pi' = Year t /\ MTDMonth pi' = Month t /\ MTDCount pi' = 1
      /\ MTDTotal pi' = v /\ AverageMTD pi' = v).
Proof.
  cbv zeta. unfold updatePriceInfo. split.
  - intros Hy. apply Z.eqb_neq in Hy. rewrite Hy. cbn [negb].
    destruct (negb (MTDYear pi =? Year t) || negb (MTDMonth pi =? Month t));
      repeat split.
  - intros Hm.
    assert (E : negb (MTDYear pi =? Year t) || negb (MTDMonth pi =? Month t) = true).
    { destruct Hm as [Hm | Hm]; apply Z.eqb_neq in Hm; rewrite Hm;
        [reflexivity | apply orb_true_r]. }
    rewrite E. destruct (negb (YTDYear pi =? Year t)); repeat split.
Qed.

(** X6. The record [RecordStockChange] writes takes its before values and
    its after values from the same product, the one it is passed: the two
    snapshots are equal, field by field.  ([updateProductData] passes the
    product after the adjustment.) *)
Theorem X6_RecordStockChange_snapshots (w : World) (product : Product)
    (sourceType : SourceType) (sourceID sourceCode : option string)
    (adjustmentType : StockAdjustmentType) (stockType : StockType) (q : Z)
    (notes : option string) :
  outcome w (calls w) = None ->
  existsb (fun a => String.eqb (SA_ID a) (fresh w (allocs w))) (adjustments w)
  = false ->
  let run := RecordStockChange product sourceType sourceID sourceCode
               adjustmentType stockType q notes w in
  fst run = None
  /\ exists a : StockAdjustment,
       adjustments (snd run) = (adjustments w ++ [a])%list
       /\ BeforeVATPurchased a = AfterVATPurchased a
       /\ BeforeVATSold a = AfterVATSold a
       /\ BeforeVATRemaining a = AfterVATRemaining a
       /\ BeforeNonVATPurchased a = AfterNonVATPurchased a
       /\ BeforeNonVATSold a = AfterNonVATSold a
       /\ BeforeNonVATRemaining a = AfterNonVATRemaining a
       /\ BeforeActualStock a = AfterActualStock a
       /\ AfterActualStock a = ActualStock (Product_Stock product).
Proof.
  intros Hcall Hfresh run. subst run.
  unfold RecordStockChange, StockAdjustmentRepository.Create.
  unfold bind, driver_call, get, ret, time_Now, set_adjustments, NewObjectID. run.
  cbn [SetAfterValues SA_ID String.eqb NilObjectID Ascii.eqb Bool.eqb set_SA_ID].
  run. rewrite Hcall. run. rewrite Hfresh. run.
  split; [reflexivity|]. eexists. split; [reflexivity|]. repeat split.
Qed.

Lemma X6_RecordStockChange_snapshots_witness :
  map (fun a => (BeforeVATRemaining a, AfterVATRemaining a))
    (adjustments (snd (RecordStockChange stockedProduct SourceTypePurchase
                         None None AdjustmentTypeAdd StockTypeVAT 5 None
                         (shopWorld []))))
  = [(0, 5); (5, 5)].
Proof.
  destruct (X6_RecordStockChange_snapshots (shopWorld []) stockedProduct
              SourceTypePurchase None None AdjustmentTypeAdd StockTypeVAT 5 None
              eq_refl eq_refl) as (_ & a & E & _).
  reflexivity.
Defined.

(** A string that starts with a digit has no sign for [Atoi] to strip. *)
Lemma Atoi_digit_head (c : ascii) (rest : string) :
  strconv.is_digit c = true ->
  strconv.Atoi (String c rest)
  = match strconv.digits_value 0 (String c rest) with
    | Some v => if in_range v then Some v else None
    | None => None
    end.
Proof.
  intros Hc.
  destruct c as [[] [] [] [] [] [] [] []]; try reflexivity; discriminate Hc.
Qed.

Lemma digits_value_total (s : string) (acc : Z) :
  forallb strconv.is_digit (list_ascii_of_string s) = true ->
  exists v, strconv.digits_value acc s = Some v.
Proof.
  revert acc. induction s as [|c s IH]; intros acc; cbn.
  - now exists acc.
  - intros Hd. apply andb_prop in Hd. destruct Hd as [Hc Hs].
    rewrite Hc. now apply IH.
Qed.

(** The pattern matches two or three capital letters, a dash and four
    digits, with the letters and the digits as its groups. *)
Lemma matchSKUID_pattern (letters digits : string) :
  (String.length letters = 2 \/ String.length letters = 3)%nat ->
  forallb is_upper (list_ascii_of_string letters) = true ->
  String.length digits = 4%nat ->
  forallb strconv.is_digit (list_ascii_of_string digits) = true ->
  matchSKUID (letters ++ "-" ++ digits) = Some (letters, digits).
Proof.
  intros Hl Hu Hd4 Hd.
  destruct digits as [|d1 [|d2 [|d3 [|d4 [|d5 rest]]]]]; try discriminate Hd4.
  unfold matchSKUID.
  destruct Hl as [Hl | Hl].
  - destruct letters as [|a [|b [|c rest]]]; try discriminate Hl.
    cbn [append list_ascii_of_string].
    cbn [list_ascii_of_string] in Hu, Hd. rewrite Hu, Hd. reflexivity.
  - destruct letters as [|a [|b [|c [|d rest]]]]; try discriminate Hl.
    cbn [append list_ascii_of_string].
    cbn [list_ascii_of_string] in Hu, Hd. rewrite Hu, Hd. reflexivity.
Qed.

(** X7. [ParseSKUID] accepts every SKU of the pattern: two or three capital
    letters, a dash and four digits parse to the letters and the value of
    the digits, without error. *)
Theorem ParseSKUID_complete (letters digits : string) :
  (String.length letters = 2 \/ String.length letters = 3)%nat ->
  forallb is_upper (list_ascii_of_string letters) = true ->
  String.length digits = 4%nat ->
  forallb strconv.is_digit (list_ascii_of_string digits) = true ->
  exists n : Z,
    strconv.Atoi digits = Some n
    /\ ParseSKUID (letters ++ "-" ++ digits) = (letters, n, None).
Proof.
  intros Hl Hu Hd4 Hd.
  assert (Ha : exists n, strconv.Atoi digits = Some n).
  { destruct digits as [|c rest]; [discriminate Hd4|].
    assert (Hc : strconv.is_digit c = true)
      by (cbn in Hd; now apply andb_prop in Hd).
    rewrite (Atoi_digit_head c rest Hc).
    destruct (digits_value_total (String c rest) 0 Hd) as [v Hv].
    rewrite Hv. pose proof (digits_value_bound _ _ _ (Z.le_refl 0) Hv) as Hb.
    rewrite Hd4 in Hb. exists v.
    assert (Hr : in_range v = true).
    { unfold in_range, MinInt, MaxInt. cbn in Hb.
      apply andb_true_intro. split; apply Z.leb_le; lia. }
    now rewrite Hr. }
  destruct Ha as [n Ha]. exists n. split; [exact Ha|].
  unfold ParseSKUID.
  now rewrite (matchSKUID_pattern letters digits Hl Hu Hd4 Hd), Ha.
Qed.

Lemma ParseSKUID_complete_witness :
  exists n : Z, ParseSKUID "XY-0007" = ("XY", n, None).
Proof.
  destruct (ParseSKUID_complete "XY" "0007" (or_introl eq_refl) eq_refl
              eq_refl eq_refl) as (n & _ & E).
  exists n. exact E.
Defined.

(* ================================================================== *)
(** * Further properties *)
(* ================================================================== *)

Import text purchase_handler sale_models migration samples notions.

(** ** The algebra of stock adjustments *)

(** X5. An adjustment of the ["actualstock"] type changes [actualStock]
    alone, by Go's [+=] or [-=], and leaves both [StockInfo] as they were.
    Whenever the actual stock is an [int], an addition followed by a
    reduction of the same quantity, or the reduction first, gives back the
    product it started from, field for field: on the actual stock the two
    are exact inverses (on the ["vat"] and ["nonvat"] stock they are not,
    see C6). *)
Theorem ApplyStockAdjustment_actualstock (p : Product) (q : Z) :
  int_ok (ActualStock (Product_Stock p)) ->
  let up := ApplyStockAdjustment p AdjustmentTypeAdd StockTypeActualStock q in
  let down :=
    ApplyStockAdjustment p AdjustmentTypeReduce StockTypeActualStock q in
  Product_Stock up
  = mkStock (VAT (Product_Stock p)) (NonVAT (Product_Stock p))
      (add (ActualStock (Product_Stock p)) q)
  /\ Product_Stock down
     = mkStock (VAT (Product_Stock p)) (NonVAT (Product_Stock p))
         (sub (ActualStock (Product_Stock p)) q)
  /\ ApplyStockAdjustment up AdjustmentTypeReduce StockTypeActualStock q = p
  /\ ApplyStockAdjustment down AdjustmentTypeAdd StockTypeActualStock q = p.
Proof.
  intros Hok up down.
  split; [reflexivity | split; [reflexivity |]].
  subst up down. destruct p as [? ? ? ? ? ? ? ? ? ? ? [v n a] ? ?].
  cbn in Hok. unfold ApplyStockAdjustment. cbn.
  now rewrite sub_add_cancel, add_sub_cancel.
Qed.

Lemma ApplyStockAdjustment_actualstock_witness :
  ApplyStockAdjustment
    (ApplyStockAdjustment stockedProduct AdjustmentTypeAdd
       StockTypeActualStock 4)
    AdjustmentTypeReduce StockTypeActualStock 4 = stockedProduct.
Proof.
  refine (proj1 (proj2 (proj2
    (ApplyStockAdjustment_actualstock stockedProduct 4 _)))).
  vm_compute. split; discriminate.
Defined.

(** Sums and differences on [int] are sums and differences modulo 2^64:
    [int_ring] proves an equation between them by [ring]. *)
#[local] Existing Instances Zdiv.eqm_setoid Zdiv.Zplus_eqm Zdiv.Zminus_eqm.

Lemma wrap_eqm (z : Z) : Zdiv.eqm (2 ^ 64) (wrap z) z.
Proof. apply wrap_mod. Qed.

Lemma wrap_eq_eqm (x y : Z) : Zdiv.eqm (2 ^ 64) x y -> wrap x = wrap y.
Proof. apply wrap_eq_mod. Qed.

Ltac int_ring :=
  unfold add, sub; apply wrap_eq_eqm; rewrite ?wrap_eqm;
  match goal with |- Zdiv.eqm _ ?l ?r => replace l with r by ring end;
  reflexivity.

(** An equation between two products, field by field down to the
    counters. *)
Ltac by_counters :=
  repeat match goal with
         | |- mkProduct _ _ _ _ _ _ _ _ _ _ _ _ _ _ = _ => f_equal
         | |- mkStock _ _ _ = _ => f_equal
         | |- mkStockInfo _ _ _ = _ => f_equal
         end.

(** X8. Two calls of [ApplyStockAdjustment] commute: whatever the two
    adjustment types, stock types and quantities, applying them in either
    order leaves the same product. *)
Theorem ApplyStockAdjustment_commute (p : Product)
    (at1 at2 : StockAdjustmentType) (st1 st2 : StockType) (q1 q2 : Z) :
  ApplyStockAdjustment (ApplyStockAdjustment p at1 st1 q1) at2 st2 q2
  = ApplyStockAdjustment (ApplyStockAdjustment p at2 st2 q2) at1 st1 q1.
Proof.
  destruct p as [? ? ? ? ? ? ? ? ? ? ? [[vp vs vr] [np ns nr] a] ? ?].
  unfold ApplyStockAdjustment. cbv zeta.
  destruct (String.eqb st1 StockTypeActualStock);
    destruct (String.eqb at1 AdjustmentTypeAdd);
    destruct (String.eqb st1 StockTypeVAT);
    destruct (String.eqb st2 StockTypeActualStock);
    destruct (String.eqb at2 AdjustmentTypeAdd);
    destruct (String.eqb st2 StockTypeVAT);
    unfold set_Stock; cbn; by_counters; int_ring.
Qed.

(** X9. The difference [actualStock - vat.remaining - nonvat.remaining],
    as Go computes it, is kept by every adjustment whose stock type is not
    ["actualstock"], whatever its adjustment type and quantity; an
    ["actualstock"] adjustment raises it by the quantity when the type is
    ["add"] and lowers it by the quantity otherwise. *)
Theorem ApplyStockAdjustment_unaccounted (p : Product)
    (at_ : StockAdjustmentType) (st : StockType) (q : Z) :
  let s := Product_Stock p in
  let s' := Product_Stock (ApplyStockAdjustment p at_ st q) in
  (st <> StockTypeActualStock -> unaccounted s' = unaccounted s)
  /\ (st = StockTypeActualStock ->
      unaccounted s'
      = if String.eqb at_ AdjustmentTypeAdd then add (unaccounted s) q
        else sub (unaccounted s) q).
Proof.
  cbv zeta. rewrite apply_cases. cbv zeta. split.
  - intros Hne. apply String.eqb_neq in Hne. rewrite Hne.
    unfold unaccounted.
    destruct (String.eqb st StockTypeVAT);
      destruct (String.eqb at_ AdjustmentTypeAdd);
      cbn [VAT NonVAT ActualStock Remaining]; int_ring.
  - intros ->. cbn [String.eqb Ascii.eqb Bool.eqb StockTypeActualStock].
    rewrite ?String.eqb_refl. unfold unaccounted.
    destruct (String.eqb at_ AdjustmentTypeAdd);
      cbn [VAT NonVAT ActualStock Remaining]; int_ring.
Qed.

(** ** The sequence of SKUs of a category *)

Lemma capitals23_spec (s : string) :
  capitals23 s = true <->
  (String.length s = 2 \/ String.length s = 3)%nat
  /\ forallb is_upper (list_ascii_of_string s) = true.
Proof.
  unfold capitals23. rewrite andb_true_iff, orb_true_iff, !Nat.eqb_eq.
  reflexivity.
Qed.

(** Capital letters are not percent signs. *)
Lemma capitals_no_percent (s : string) :
  forallb is_upper (list_ascii_of_string s) = true -> no_percent s.
Proof.
  unfold no_percent. intros Hu Hin.
  rewrite forallb_forall in Hu. specialize (Hu _ Hin). discriminate Hu.
Qed.

(** The four digits of a number below 10000 read back as the number. *)
Lemma pad4_digits (n : Z) :
  0 <= n <= 9999 ->
  String.length (pad4 n) = 4%nat
  /\ forallb strconv.is_digit (list_ascii_of_string (pad4 n)) = true
  /\ strconv.Atoi (pad4 n) = Some n.
Proof.
  intros Hn.
  assert (Hall :
    forallb (fun k =>
               let s := pad4 (Z.of_nat k) in
               Nat.eqb (String.length s) 4
               && forallb strconv.is_digit (list_ascii_of_string s)
               && match strconv.Atoi s with
                  | Some v => v =? Z.of_nat k
                  | None => false
                  end)
            (seq 0 (Z.to_nat 10000)) = true) by (vm_compute; reflexivity).
  rewrite forallb_forall in Hall.
  specialize (Hall (Z.to_nat n)). rewrite Z2Nat.id in Hall by lia.
  cbv zeta in Hall.
  assert (Hin : In (Z.to_nat n) (seq 0 (Z.to_nat 10000))) by (apply in_seq; lia).
  apply Hall in Hin. apply andb_prop in Hin. destruct Hin as [Hin Ha].
  apply andb_prop in Hin. destruct Hin as [Hl Hd].
  apply Nat.eqb_eq in Hl. repeat split; try assumption.
  destruct (strconv.Atoi (pad4 n)) as [v|]; [|discriminate Ha].
  apply Z.eqb_eq in Ha. now subst v.
Qed.

Lemma ParseSKUID_pad4 (letters : string) (n : Z) :
  capitals23 letters = true -> 0 <= n <= 9999 ->
  ParseSKUID (letters ++ "-" ++ pad4 n) = (letters, n, None).
Proof.
  intros Hc Hn. apply capitals23_spec in Hc. destruct Hc as [Hl Hu].
  destruct (pad4_digits n Hn) as (H4 & Hd & Ha).
  unfold ParseSKUID.
  now rewrite (matchSKUID_pattern letters (pad4 n) Hl Hu H4 Hd), Ha.
Qed.

(** Five digits after the dash are one too many for the pattern. *)
Lemma matchSKUID_10000 (s : string) : matchSKUID (s ++ "-10000") = None.
Proof.
  unfold matchSKUID.
  destruct s as [|a [|b [|c [|d rest]]]]; try reflexivity.
  - cbn. now destruct (is_upper a).
  - cbn. now destruct (is_upper a), (is_upper b).
  - destruct rest as [|e [|f [|g [|h [|i rest]]]]]; reflexivity.
Qed.

Section SKUSequence.

Context `{Strings}.

Variable sg : SKUGenerator.
Variable category : string.

Let abbrev := getCategoryAbbreviation sg category.

(** The SKU after [lastNumber], and how it reads. *)
Lemma GenerateSKUID_parses (lastNumber : Z) :
  capitals23 abbrev = true ->
  0 <= lastNumber <= 9998 ->
  GenerateSKUID sg category lastNumber
  = Some (abbrev ++ "-" ++ pad4 (lastNumber + 1))
  /\ ParseSKUID (abbrev ++ "-" ++ pad4 (lastNumber + 1))
     = (abbrev, lastNumber + 1, None).
Proof.
  intros Hc Hn. split.
  - unfold abbrev. rewrite GenerateSKUID_plain.
    + rewrite add_exact by (unfold int_ok, MinInt, MaxInt; lia).
      now rewrite fmt_04d_pad4 by lia.
    + apply capitals_no_percent. now apply capitals23_spec in Hc.
  - apply ParseSKUID_pad4; [exact Hc | lia].
Qed.

(** X10. A round trip: when the category's abbreviation is two or three
    capital letters and [lastNumber] is from 0 to 9998, the SKU that
    [GenerateSKUID] returns is read back by [ParseSKUID] as that
    abbreviation and [lastNumber + 1], without error. *)
Theorem GenerateSKUID_round_trip (lastNumber : Z) :
  capitals23 abbrev = true ->
  0 <= lastNumber <= 9998 ->
  exists sku : string,
    GenerateSKUID sg category lastNumber = Some sku
    /\ ParseSKUID sku = (abbrev, lastNumber + 1, None).
Proof.
  intros Hc Hn. destruct (GenerateSKUID_parses lastNumber Hc Hn) as [Hg Hp].
  eexists. split; [exact Hg | exact Hp].
Qed.

(** One more SKU at the end of the list. *)
Lemma GetNextSKUNumber_snoc (existingSKUs : list string) (sku : string) :
  GetNextSKUNumber sg category (existingSKUs ++ [sku])
  = let maxNumber := GetNextSKUNumber sg category existingSKUs in
    match ParseSKUID sku with
    | (_, _, Some _) => maxNumber
    | (parsedCategory, number, None) =>
        if String.eqb parsedCategory abbrev && (maxNumber <? number)
        then number else maxNumber
    end.
Proof. unfold GetNextSKUNumber. now rewrite fold_left_app. Qed.

Lemma GetNextSKUNumber_bounds (existingSKUs : list string) :
  let r := GetNextSKUNumber sg category existingSKUs in
  0 <= r
  /\ (forall sku n, In sku existingSKUs ->
                    ParseSKUID sku = (abbrev, n, None) -> n <= r)
  /\ (r = 0 \/ exists sku, In sku existingSKUs
                           /\ ParseSKUID sku = (abbrev, r, None)).
Proof. exact (loop_max sg category existingSKUs 0). Qed.

(** X11. With such an abbreviation, and the number [GetNextSKUNumber]
    finds among the existing SKUs at most 9998, the SKU generated from that
    number (the two steps of [ProductRepository.Create]) is not among the
    existing ones; and once it is added to them, [GetNextSKUNumber] returns
    one more. *)
Theorem GenerateSKUID_fresh (existingSKUs : list string) :
  capitals23 abbrev = true ->
  let last := GetNextSKUNumber sg category existingSKUs in
  last <= 9998 ->
  exists sku : string,
    GenerateSKUID sg category last = Some sku
    /\ ~ In sku existingSKUs
    /\ GetNextSKUNumber sg category (existingSKUs ++ [sku]) = last + 1.
Proof.
  intros Hc last Hlast.
  destruct (GetNextSKUNumber_bounds existingSKUs) as (H0 & Hmax & _).
  fold last in H0, Hmax.
  destruct (GenerateSKUID_parses last Hc (conj H0 Hlast)) as (Hg & Hp).
  exists (abbrev ++ "-" ++ pad4 (last + 1)). split; [exact Hg | split].
  - intros Hin. specialize (Hmax _ _ Hin Hp). lia.
  - rewrite GetNextSKUNumber_snoc. cbv zeta. fold last. rewrite Hp.
    rewrite String.eqb_refl. cbn [andb].
    destruct (Z.ltb_spec last (last + 1)); [reflexivity | lia].
Qed.

(** X12. The numbers end at 9999.  When [GetNextSKUNumber] returns 9999,
    the SKU generated is the abbreviation followed by [-10000];
    [ParseSKUID] rejects it (five digits), so with it among the existing
    SKUs [GetNextSKUNumber] still returns 9999: every later product of the
    category is given the same SKU. *)
Theorem GenerateSKUID_saturates (existingSKUs : list string) :
  no_percent abbrev ->
  GetNextSKUNumber sg category existingSKUs = 9999 ->
  GenerateSKUID sg category 9999 = Some (abbrev ++ "-10000")
  /\ (exists err, ParseSKUID (abbrev ++ "-10000") = ("", 0, Some err))
  /\ GetNextSKUNumber sg category (existingSKUs ++ [abbrev ++ "-10000"])
     = 9999.
Proof.
  intros Hno Hlast.
  pose proof (matchSKUID_10000 abbrev) as Hm.
  assert (Hp : ParseSKUID (abbrev ++ "-10000")
               = ("", 0, Some ("invalid SKU ID format: " ++ abbrev ++ "-10000")))
    by (unfold ParseSKUID; now rewrite Hm).
  split; [| split].
  - unfold abbrev. now rewrite GenerateSKUID_plain.
  - eexists. exact Hp.
  - rewrite GetNextSKUNumber_snoc. cbv zeta. now rewrite Hp.
Qed.

(** X13. When the category's abbreviation is not two or three capital
    letters (one byte, four bytes, a digit, bytes outside [A-Z]), no
    existing SKU counts for it: [GetNextSKUNumber] returns 0 whatever the
    existing SKUs are, and, the abbreviation holding no percent sign, the
    SKU generated for every product of the category is the abbreviation
    followed by [-0001]. *)
Theorem GenerateSKUID_degenerate (existingSKUs : list string) :
  capitals23 abbrev = false ->
  GetNextSKUNumber sg category existingSKUs = 0
  /\ (no_percent abbrev ->
      GenerateSKUID sg category (GetNextSKUNumber sg category existingSKUs)
      = Some (abbrev ++ "-0001")).
Proof.
  intros Hc.
  assert (H0 : GetNextSKUNumber sg category existingSKUs = 0).
  { destruct (GetNextSKUNumber_bounds existingSKUs) as (_ & _ & [E | (s & _ & Hp)]);
      [exact E|].
    unfold ParseSKUID in Hp.
    destruct (matchSKUID s) as [[c d]|] eqn:Em; [|discriminate Hp].
    destruct (strconv.Atoi d); [|discriminate Hp].
    injection Hp as -> _.
    destruct (matchSKUID_shape _ _ _ Em) as (_ & Hl & Hu & _).
    assert (Ht : capitals23 abbrev = true) by (apply capitals23_spec; now split).
    congruence. }
  split; [exact H0|]. intros Hno. rewrite H0.
  unfold abbrev. now rewrite GenerateSKUID_plain.
Qed.

End SKUSequence.

Lemma GenerateSKUID_round_trip_witness :
  exists sku : string,
    @GenerateSKUID ascii_strings bareGenerator "abcdef" 42 = Some sku
    /\ ParseSKUID sku = ("ABC", 43, None).
Proof.
  apply (@GenerateSKUID_round_trip ascii_strings bareGenerator "abcdef" 42);
    [reflexivity | lia].
Defined.

Lemma GenerateSKUID_fresh_witness :
  exists sku : string,
    @GenerateSKUID ascii_strings bareGenerator "abcdef" 7 = Some sku
    /\ ~ In sku ["ABC-0007"; "XY-0100"; "ABC-0002"]
    /\ @GetNextSKUNumber ascii_strings bareGenerator "abcdef"
         (["ABC-0007"; "XY-0100"; "ABC-0002"] ++ [sku]) = 8.
Proof.
  apply (@GenerateSKUID_fresh ascii_strings bareGenerator "abcdef"
           ["ABC-0007"; "XY-0100"; "ABC-0002"]);
    [reflexivity | vm_compute; discriminate].
Defined.

Lemma GenerateSKUID_saturates_witness :
  @GenerateSKUID ascii_strings bareGenerator "abcdef" 9999 = Some "ABC-10000"
  /\ @GetNextSKUNumber ascii_strings bareGenerator "abcdef"
       ["ABC-9999"; "ABC-10000"] = 9999.
Proof.
  destruct (@GenerateSKUID_saturates ascii_strings bareGenerator "abcdef"
              ["ABC-9999"]) as (Hg & _ & Hn).
  - unfold no_percent. cbn. intuition discriminate.
  - reflexivity.
  - split; [exact Hg | exact Hn].
Defined.

Lemma GenerateSKUID_degenerate_witness :
  @GetNextSKUNumber ascii_strings bareGenerator "x" ["X-0001"; "X-0001"] = 0
  /\ @GenerateSKUID ascii_strings bareGenerator "x" 0 = Some "X-0001".
Proof.
  destruct (@GenerateSKUID_degenerate ascii_strings bareGenerator "x"
              ["X-0001"; "X-0001"] eq_refl) as [H0 Hg].
  split; [exact H0|]. rewrite H0 in Hg. apply Hg.
  unfold no_percent. cbn. intuition discriminate.
Defined.

(** ** What the repository calls leave alone *)

Lemma unchanged_refl (w : World) : unchanged w w.
Proof. repeat split. Qed.

Lemma unchanged_trans (w1 w2 w3 : World) :
  unchanged w1 w2 -> unchanged w2 w3 -> unchanged w1 w3.
Proof.
  unfold unchanged. intros (A & B & C & D) (A' & B' & C' & D').
  repeat split; congruence.
Qed.

(** The repository functions and the operations of the monad, unfolded. *)
Ltac repo :=
  unfold ProductRepository.GetByID, ProductRepository.GetBySKUID,
    ProductRepository.Update, StockAdjustmentRepository.GetByID,
    StockAdjustmentRepository.Create, StockAdjustmentRepository.Delete;
  unfold bind, driver_call, get, ret, time_Now, set_products,
    set_adjustments, NewObjectID, print.

Lemma ProductRepository_GetByID_unchanged (id : string) (w : World) :
  unchanged w (snd (ProductRepository.GetByID id w)).
Proof.
  repo. destruct (ObjectIDFromHex id); [|apply unchanged_refl]. run.
  destruct (outcome w (calls w)); run; [repeat split|].
  destruct (find _ (products w)); repeat split.
Qed.

Lemma ProductRepository_GetBySKUID_unchanged (id : string) (w : World) :
  unchanged w (snd (ProductRepository.GetBySKUID id w)).
Proof.
  repo. run.
  destruct (outcome w (calls w)); run; [repeat split|].
  destruct (find _ (products w)); repeat split.
Qed.

Lemma StockAdjustmentRepository_GetByID_unchanged (id : string) (w : World) :
  unchanged w (snd (StockAdjustmentRepository.GetByID id w)).
Proof.
  repo. destruct (ObjectIDFromHex id); [|apply unchanged_refl]. run.
  destruct (outcome w (calls w)); run; [repeat split|].
  destruct (find _ (adjustments w)); repeat split.
Qed.

Lemma lookupProduct_unchanged (id : string) (w : World) :
  unchanged w (snd (lookupProduct id w)).
Proof.
  unfold lookupProduct. unfold bind at 1.
  pose proof (ProductRepository_GetByID_unchanged id w) as H1.
  destruct (ProductRepository.GetByID id w) as [[e | p] w1]; cbn [snd] in *.
  - eapply unchanged_trans; [exact H1|].
    apply ProductRepository_GetBySKUID_unchanged.
  - exact H1.
Qed.

(** ** [AdjustStock]: the requests it turns down *)

Lemma well_formed_checks (req : StockAdjustmentRequest) :
  well_formed req = true ->
  (Req_Quantity req <=? 0) = false
  /\ negb (String.eqb (Req_AdjustmentType req) AdjustmentTypeAdd)
     && negb (String.eqb (Req_AdjustmentType req) AdjustmentTypeReduce) = false
  /\ negb (String.eqb (Req_StockType req) StockTypeVAT)
     && negb (String.eqb (Req_StockType req) StockTypeNonVAT)
     && negb (String.eqb (Req_StockType req) StockTypeActualStock) = false.
Proof.
  unfold well_formed. intros H.
  apply andb_prop in H. destruct H as [H Hs].
  apply andb_prop in H. destruct H as [Hq Ht].
  apply Z.ltb_lt in Hq. split; [apply Z.leb_gt; lia|].
  split.
  - destruct (String.eqb (Req_AdjustmentType req) AdjustmentTypeAdd),
      (String.eqb (Req_AdjustmentType req) AdjustmentTypeReduce);
      first [reflexivity | discriminate Ht].
  - destruct (String.eqb (Req_StockType req) StockTypeVAT),
      (String.eqb (Req_StockType req) StockTypeNonVAT),
      (String.eqb (Req_StockType req) StockTypeActualStock);
      first [reflexivity | discriminate Hs].
Qed.

(** X14. What [AdjustStock] turns down changes nothing.  When the product
    is found neither by object id nor by SKU id the answer is 404
    ["Product not found"], whatever the body is (the product is looked up
    first); when it is found and the body does not decode, or the quantity
    is not positive, or the adjustment type or the stock type is not one of
    the known ones, the answer is a 400.  In both cases the products, the
    audit records and the purchases are as before and nothing is
    printed. *)
Theorem AdjustStock_rejects (w : World) (productID : string)
    (body : option StockAdjustmentRequest) :
  let found := fst (lookupProduct productID w) in
  let run := AdjustStock productID body w in
  (forall err, found = inl err ->
     fst run = http_Error "Product not found" 404 /\ unchanged w (snd run))
  /\ (forall product, found = inr product ->
        body = None
        \/ (exists req, body = Some req /\ well_formed req = false) ->
        StatusCode (fst run) = 400 /\ unchanged w (snd run)).
Proof.
  cbv zeta. pose proof (lookupProduct_unchanged productID w) as Hu.
  unfold AdjustStock, bind, ret.
  destruct (lookupProduct productID w) as [[e | p] w1]; cbn [fst snd] in *.
  - split; [| intros ? [=]]. intros err _. split; [reflexivity | exact Hu].
  - split; [intros ? [=]|]. intros product _ Hbad.
    destruct Hbad as [-> | (req & -> & Hreq)]; [split; [reflexivity | exact Hu]|].
    unfold well_formed in Hreq.
    destruct (Z.leb_spec (Req_Quantity req) 0) as [Hq | Hq];
      [split; [reflexivity | exact Hu]|].
    assert (Hq' : (0 <? Req_Quantity req) = true) by (apply Z.ltb_lt; lia).
    rewrite Hq' in Hreq. cbn [andb] in Hreq.
    destruct (String.eqb (Req_AdjustmentType req) AdjustmentTypeAdd);
      destruct (String.eqb (Req_AdjustmentType req) AdjustmentTypeReduce);
      cbn [negb andb orb] in *;
      try (split; [reflexivity | exact Hu]);
      destruct (String.eqb (Req_StockType req) StockTypeVAT);
      destruct (String.eqb (Req_StockType req) StockTypeNonVAT);
      destruct (String.eqb (Req_StockType req) StockTypeActualStock);
      cbn [negb andb orb] in *;
      first [discriminate Hreq | split; [reflexivity | exact Hu]].
Qed.

Lemma stock_eta (s : Stock) :
  mkStock
    (mkStockInfo (Purchased (VAT s)) (Sold (VAT s)) (Remaining (VAT s)))
    (mkStockInfo (Purchased (NonVAT s)) (Sold (NonVAT s))
       (Remaining (NonVAT s)))
    (ActualStock s) = s.
Proof. now destruct s as [[? ? ?] [? ? ?] ?]. Qed.

Section AdjustStockOutcomes.

Variables w w1 : World.
Variable productID : string.
Variable req : StockAdjustmentRequest.
Variable product : Product.

Hypothesis found : lookupProduct productID w = (inr product, w1).
Hypothesis req_ok : well_formed req = true.

(** The product the handler tries to store. *)
Let adjusted : Product :=
  set_UpdatedAt
    (ApplyStockAdjustment product (Req_AdjustmentType req)
       (Req_StockType req) (Req_Quantity req))
    (now w1 (S (ticks w1))).

(** X15. When the product is found and the request is well formed but the
    update of the product fails (its id is not an object id, or the driver
    answers an error), [AdjustStock] answers 500
    ["Failed to update product stock"]; the stored product is unchanged, no
    audit record is written and nothing is printed. *)
Theorem AdjustStock_update_fails :
  ObjectIDFromHex (ID product) = None
  \/ (exists err, outcome w1 (calls w1) = Some err) ->
  let run := AdjustStock productID (Some req) w in
  fst run = http_Error "Failed to update product stock" 500
  /\ unchanged w (snd run).
Proof.
  intros Hfail run. subst run.
  destruct (well_formed_checks req req_ok) as (Hq & Ht & Hs).
  pose proof (lookupProduct_unchanged productID w) as Hu.
  rewrite found in Hu. cbn [snd] in Hu. destruct Hu as (A & B & C & D).
  assert (Hid : ID adjusted = ID product)
    by (unfold adjusted; cbn [ID set_UpdatedAt]; apply ApplyStockAdjustment_ID).
  remember (AdjustStock productID (Some req) w) as r eqn:E. revert E.
  unfold AdjustStock. unfold bind at 1. rewrite found. run.
  rewrite Hq, Ht, Hs. repo. run. fold adjusted. rewrite Hid.
  destruct Hfail as [Hhex | [err Herr]].
  - rewrite Hhex. run. intros ->. unfold unchanged. run. repeat split; assumption.
  - destruct (ObjectIDFromHex (ID product)); run.
    + rewrite Herr. run. intros ->. unfold unchanged. run.
      repeat split; assumption.
    + intros ->. unfold unchanged. run. repeat split; assumption.
Qed.

(** X16. When [AdjustStock] succeeds and the audit record is written, the
    answer carries the adjusted product and exactly one record is added at
    the end of the history: its id is the fresh object id, it names the
    product, the adjustment type, the stock type and the quantity of the
    request, its source type is ["adjustment"], its notes are the
    request's, its time is the first reading of the clock; its before
    snapshot is the stock the product had and its after snapshot the stock
    of the adjusted product. *)
Theorem AdjustStock_audit_record (oid : ObjectID) :
  ObjectIDFromHex (ID product) = Some oid ->
  outcome w1 (calls w1) = None ->
  outcome w1 (S (calls w1)) = None ->
  existsb (fun a => String.eqb (SA_ID a) (fresh w1 (allocs w1)))
    (adjustments w1) = false ->
  let run := AdjustStock productID (Some req) w in
  fst run = json_Encode adjusted
  /\ stdout (snd run) = stdout w
  /\ exists a : StockAdjustment,
       adjustments (snd run) = (adjustments w ++ [a])%list
       /\ SA_ID a = fresh w1 (allocs w1)
       /\ ProductID a = ID product
       /\ AdjustmentType a = Req_AdjustmentType req
       /\ SA_StockType a = Req_StockType req
       /\ Quantity a = Req_Quantity req
       /\ before_stock a = Product_Stock product
       /\ after_stock a = Product_Stock adjusted
       /\ SA_SourceType a = SourceTypeAdjustment
       /\ Notes a = Req_Notes req
       /\ SA_CreatedAt a = now w1 (ticks w1).
Proof.
  intros Hoid Hupd Haud Hfresh run. subst run.
  destruct (well_formed_checks req req_ok) as (Hq & Ht & Hs).
  pose proof (lookupProduct_unchanged productID w) as Hu.
  rewrite found in Hu. cbn [snd] in Hu. destruct Hu as (A & B & C & D).
  assert (Hid : ID adjusted = ID product)
    by (unfold adjusted; cbn [ID set_UpdatedAt]; apply ApplyStockAdjustment_ID).
  remember (AdjustStock productID (Some req) w) as r eqn:E. revert E.
  unfold AdjustStock. unfold bind at 1. rewrite found. run.
  rewrite Hq, Ht, Hs. repo. run. fold adjusted. rewrite Hid, Hoid. run.
  rewrite Hupd. run.
  cbn [SetAfterValues ToStockAdjustment SA_ID String.eqb NilObjectID Ascii.eqb
       Bool.eqb set_SA_ID]. run.
  rewrite Haud. run. rewrite Hfresh. run. intros ->. run.
  split; [reflexivity | split; [exact D|]].
  eexists. split; [rewrite B; reflexivity|].
  repeat (split; [reflexivity|]).
  split; [apply stock_eta|]. split; [apply stock_eta|]. repeat split.
Qed.

End AdjustStockOutcomes.

(** ** [DeleteStockAdjustment]: the ways it fails *)

(** X17. The three failures of [DeleteStockAdjustment] that change
    nothing: the record is not found (404 ["Stock adjustment not found"]);
    the record is found but its product is not (500 ["Product not found"]);
    both are found but the update of the product fails (500
    ["Failed to update product stock"]).  In each case products, audit
    records and purchases are as before, and the record is still there. *)
Theorem DeleteStockAdjustment_refuses (w : World) (adjustmentID : string) :
  let run := DeleteStockAdjustment adjustmentID w in
  (forall err,
     fst (StockAdjustmentRepository.GetByID adjustmentID w) = inl err ->
     fst run = http_Error "Stock adjustment not found" 404
     /\ unchanged w (snd run))
  /\ (forall adjustment w1 err,
        StockAdjustmentRepository.GetByID adjustmentID w
        = (inr adjustment, w1) ->
        fst (ProductRepository.GetByID (ProductID adjustment) w1) = inl err ->
        fst run = http_Error "Product not found" 500
        /\ unchanged w (snd run))
  /\ (forall adjustment w1 product w2 err,
        StockAdjustmentRepository.GetByID adjustmentID w
        = (inr adjustment, w1) ->
        ProductRepository.GetByID (ProductID adjustment) w1
        = (inr product, w2) ->
        ObjectIDFromHex (ID product) = None
        \/ outcome w2 (calls w2) = Some err ->
        fst run = http_Error "Failed to update product stock" 500
        /\ unchanged w (snd run)).
Proof.
  cbv zeta.
  pose proof (StockAdjustmentRepository_GetByID_unchanged adjustmentID w) as H1.
  remember (DeleteStockAdjustment adjustmentID w) as r eqn:E. revert E.
  unfold DeleteStockAdjustment. unfold bind at 1.
  destruct (StockAdjustmentRepository.GetByID adjustmentID w)
    as [[e | adjustment] w1]; cbn [fst snd] in H1 |- *.
  - unfold ret. intros ->. cbn [fst snd].
    split; [| split; intros; discriminate].
    intros err _. split; [reflexivity | exact H1].
  - pose proof (ProductRepository_GetByID_unchanged (ProductID adjustment) w1)
      as H2.
    unfold bind at 1.
    destruct (ProductRepository.GetByID (ProductID adjustment) w1)
      as [[e | product] w2] eqn:E2; cbn [fst snd] in H2 |- *.
    + unfold ret. intros ->. cbn [fst snd].
      split; [intros ? [=] | split].
      * intros a w' err [= <- <-] _. split; [reflexivity|].
        eapply unchanged_trans; eassumption.
      * intros a w' p w'' err [= <- <-] Hp. rewrite E2 in Hp. discriminate Hp.
    + intros E.
      split; [intros ? [=] | split].
      { intros a w' err [= <- <-] Hp. rewrite E2 in Hp. discriminate Hp. }
      intros a w' p w'' err [= <- <-] Hp Hfail. rewrite E2 in Hp.
      injection Hp as <- <-. subst r.
      assert (Hu : unchanged w w2) by (eapply unchanged_trans; eassumption).
      destruct Hu as (A & B & C & D).
      assert (Hid : forall t,
                ID (set_UpdatedAt
                      (ApplyStockAdjustment product
                         (if String.eqb (AdjustmentType adjustment)
                               AdjustmentTypeAdd
                          then AdjustmentTypeReduce else AdjustmentTypeAdd)
                         (SA_StockType adjustment) (Quantity adjustment)) t)
                = ID product)
        by (intros t; cbn [ID set_UpdatedAt]; apply ApplyStockAdjustment_ID).
      repo. run. rewrite Hid.
      destruct Hfail as [Hhex | Herr].
      * rewrite Hhex. run. unfold unchanged. run. repeat split; assumption.
      * destruct (ObjectIDFromHex (ID product)); run;
          [rewrite Herr; run |];
          unfold unchanged; run; repeat split; assumption.
Qed.

Lemma find_replace_first {A} (f : A -> bool) (x : A) (l : list A) :
  f x = true -> existsb f l = true -> find f (replace_first f x l) = Some x.
Proof.
  intros Hx. induction l as [|y l IH]; cbn; [discriminate|].
  destruct (f y) eqn:Hy; cbn.
  - now rewrite Hx.
  - now rewrite Hy.
Qed.

(** The stock a call leaves depends on the stock it finds, not on the
    rest of the product. *)
Lemma ApplyStockAdjustment_stock (p p' : Product) (at_ : StockAdjustmentType)
    (st : StockType) (q : Z) :
  Product_Stock p = Product_Stock p' ->
  Product_Stock (ApplyStockAdjustment p at_ st q)
  = Product_Stock (ApplyStockAdjustment p' at_ st q).
Proof.
  intros E. pose proof (apply_cases p at_ st q) as H1.
  pose proof (apply_cases p' at_ st q) as H2. cbv zeta in H1, H2.
  rewrite H1, H2, E. reflexivity.
Qed.

Section DeleteStockAdjustmentSteps.

Variable w : World.
Variable adjustmentID : string.
Variable aid pid : ObjectID.
Variable adjustment : StockAdjustment.
Variable product : Product.

Hypothesis id_ok : ObjectIDFromHex adjustmentID = Some aid.
Hypothesis adjustment_found :
  find (fun a => String.eqb (SA_ID a) aid) (adjustments w) = Some adjustment.
Hypothesis pid_ok : ObjectIDFromHex (ProductID adjustment) = Some pid.
Hypothesis product_found :
  find (fun p => String.eqb (ID p) pid) (products w) = Some product.
Hypothesis reads_ok :
  outcome w (calls w) = None /\ outcome w (S (calls w)) = None.
Hypothesis update_ok : outcome w (S (S (calls w))) = None.

Let reverseType : StockAdjustmentType :=
  if String.eqb (AdjustmentType adjustment) AdjustmentTypeAdd
  then AdjustmentTypeReduce else AdjustmentTypeAdd.

Let reverse (p : Product) : Product :=
  ApplyStockAdjustment p reverseType (SA_StockType adjustment)
    (Quantity adjustment).

(** The handler up to its last step, the deletion of the record. *)
Lemma DeleteStockAdjustment_steps :
  DeleteStockAdjustment adjustmentID w
  = let reversed := set_UpdatedAt (reverse product) (now w (ticks w)) in
    let w3 :=
      mkWorld
        (replace_first (fun p => String.eqb (ID p) pid) reversed (products w))
        (adjustments w) (purchases w) (stdout w) (outcome w)
        (S (S (S (S (calls w))))) (now w) (S (ticks w)) (fresh w) (allocs w) in
    match outcome w (S (S (S (calls w)))) with
    | Some _ => (http_Error "Failed to delete stock adjustment" 500, w3)
    | None =>
        (json_Encode reversed,
         mkWorld (products w3)
           (delete_first (fun a => String.eqb (SA_ID a) aid) (adjustments w))
           (purchases w) (stdout w) (outcome w) (calls w3) (now w) (ticks w3)
           (fresh w) (allocs w))
    end.
Proof.
  destruct reads_ok as [read1 read2].
  assert (Hid : ID (set_UpdatedAt (reverse product) (now w (ticks w))) = pid).
  { cbn [ID set_UpdatedAt]. unfold reverse.
    rewrite ApplyStockAdjustment_ID. exact (find_eqb_ID _ _ _ product_found). }
  pose proof (ObjectIDFromHex_canonical _ _ pid_ok) as Hpid.
  pose proof (find_existsb _ _ _ adjustment_found) as Hex.
  unfold DeleteStockAdjustment. repo.
  rewrite id_ok, read1. run.
  rewrite adjustment_found. run.
  rewrite pid_ok. run.
  rewrite read2. run.
  rewrite product_found. run.
  fold reverseType. fold (reverse product). rewrite Hid, Hpid. run.
  rewrite update_ok. run.
  destruct (outcome w (S (S (S (calls w))))); run; [reflexivity|].
  now rewrite Hex.
Qed.

End DeleteStockAdjustmentSteps.

(** X18. The fourth failure is not harmless.  When only the last step of
    [DeleteStockAdjustment], the deletion of the record, fails, the answer
    is 500 ["Failed to delete stock adjustment"] while the reversed product
    is already stored and the record is still in the history; a second
    request for the same record, the driver answering, reverses the stock
    once more: the product it answers with and stores has the reversal
    applied twice. *)
Theorem DeleteStockAdjustment_retry (w : World) (adjustmentID : string)
    (aid pid : ObjectID) (adjustment : StockAdjustment) (product : Product)
    (err : error) :
  ObjectIDFromHex adjustmentID = Some aid ->
  find (fun a => String.eqb (SA_ID a) aid) (adjustments w) = Some adjustment ->
  ObjectIDFromHex (ProductID adjustment) = Some pid ->
  find (fun p => String.eqb (ID p) pid) (products w) = Some product ->
  (forall n, n <> (3 + calls w)%nat -> outcome w n = None) ->
  outcome w (3 + calls w) = Some err ->
  let reverse := fun p =>
    ApplyStockAdjustment p
      (if String.eqb (AdjustmentType adjustment) AdjustmentTypeAdd
       then AdjustmentTypeReduce else AdjustmentTypeAdd)
      (SA_StockType adjustment) (Quantity adjustment) in
  let run1 := DeleteStockAdjustment adjustmentID w in
  let run2 := DeleteStockAdjustment adjustmentID (snd run1) in
  (fst run1 = http_Error "Failed to delete stock adjustment" 500
   /\ products (snd run1)
      = replace_first (fun p => String.eqb (ID p) pid)
          (set_UpdatedAt (reverse product) (now w (ticks w))) (products w)
   /\ adjustments (snd run1) = adjustments w)
  /\ (exists answered : Product,
        fst run2 = json_Encode answered
        /\ Product_Stock answered = Product_Stock (reverse (reverse product))
        /\ find (fun p => String.eqb (ID p) pid) (products (snd run2))
           = Some answered
        /\ adjustments (snd run2)
           = delete_first (fun a => String.eqb (SA_ID a) aid) (adjustments w)).
Proof.
  intros Hid Ha Hpid Hp Hok Herr reverse run1 run2.
  assert (E1 := DeleteStockAdjustment_steps w adjustmentID aid pid adjustment
                  product Hid Ha Hpid Hp
                  (conj (Hok (calls w) ltac:(lia)) (Hok (S (calls w)) ltac:(lia)))
                  (Hok (S (S (calls w))) ltac:(lia))).
  cbv zeta in E1. change (S (S (S (calls w)))) with (3 + calls w)%nat in E1.
  rewrite Herr in E1. fold reverse in E1.
  subst run2 run1. rewrite E1. cbn [fst snd].
  split; [repeat split|].
  set (reversed := set_UpdatedAt (reverse product) (now w (ticks w))) in *.
  set (w3 := mkWorld _ _ _ _ _ _ _ _ _ _).
  assert (Hrid : ID reversed = pid).
  { unfold reversed, reverse. cbn [ID set_UpdatedAt].
    rewrite ApplyStockAdjustment_ID. exact (find_eqb_ID _ _ _ Hp). }
  assert (Hp3 : find (fun p => String.eqb (ID p) pid) (products w3)
                = Some reversed).
  { unfold w3. cbn [products]. apply find_replace_first.
    - rewrite Hrid. apply String.eqb_refl.
    - exact (find_existsb _ _ _ Hp). }
  assert (E2 := DeleteStockAdjustment_steps w3 adjustmentID aid pid adjustment
                  reversed Hid Ha Hpid Hp3).
  unfold w3 in E2 at 1 2 3. cbn [outcome calls] in E2.
  specialize (E2 (conj (Hok (4 + calls w)%nat ltac:(lia))
                       (Hok (5 + calls w)%nat ltac:(lia)))
                 (Hok (6 + calls w)%nat ltac:(lia))).
  cbv zeta in E2. fold reverse in E2.
  change (calls w3) with (S (S (S (S (calls w))))) in E2.
  change (outcome w3) with (outcome w) in E2.
  rewrite (Hok (S (S (S (S (S (S (S (calls w))))))))) in E2 by lia.
  rewrite E2. cbn [fst snd products adjustments].
  eexists. split; [reflexivity | split; [| split]].
  - cbn [Product_Stock set_UpdatedAt].
    change (Product_Stock (reverse reversed)
            = Product_Stock (reverse (reverse product))).
    subst reversed reverse. cbv beta. now apply ApplyStockAdjustment_stock.
  - apply find_replace_first.
    + cbn [ID set_UpdatedAt].
      assert (E : ID (reverse reversed) = pid)
        by (unfold reverse; now rewrite ApplyStockAdjustment_ID).
      fold reversed. fold (reverse reversed). rewrite E.
      apply String.eqb_refl.
    + rewrite (find_existsb _ _ _ Hp3). reflexivity.
  - reflexivity.
Qed.

(** ** Purchases: a missing product in the handler and in the migration *)

Lemma for_range_ext {A} (l : list A) (f g : A -> M unit) (w : World) :
  (forall x w', f x w' = g x w') -> for_range l f w = for_range l g w.
Proof.
  intros Hfg. revert w. induction l as [|x l IH]; intros w; [reflexivity|].
  cbn [for_range]. unfold bind. rewrite Hfg.
  destruct (g x w) as [u w1]. apply IH.
Qed.

(** X19. [updateProductData] skips an item whose product cannot be read
    (a product id that is not an object id, an unknown product, a driver
    error): nothing is stored or printed for it, and the loop goes on with
    the remaining items as if the item had not been there. *)
Theorem updateProductData_skips `{Platform} (purchase : Purchase)
    (item : PurchaseItem) (rest : list PurchaseItem) (w : World) (err : error) :
  let lookup := ProductRepository.GetByID (Item_ProductID item) w in
  fst lookup = inl err ->
  updateProductData (set_Items purchase (item :: rest)) w
  = updateProductData (set_Items purchase rest) (snd lookup)
  /\ unchanged w (snd lookup).
Proof.
  intros lookup Hfail.
  split; [| apply ProductRepository_GetByID_unchanged].
  unfold updateProductData. cbn [Items set_Items for_range].
  unfold bind at 1 2. unfold updateProductItem at 1. unfold bind at 1.
  fold lookup. destruct lookup as [[e | p] w1]; [|discriminate Hfail].
  cbn [snd]. unfold ret at 1. unfold bind.
  rewrite (for_range_ext rest
             (updateProductItem (set_Items purchase (item :: rest)))
             (updateProductItem (set_Items purchase rest)));
    reflexivity.
Qed.

(** ** The migration of purchases *)

(** The stock statements of the migration are an ["add"] of
    [ApplyStockAdjustment]. *)
Lemma purchasedStock_apply (p : Product) (isVAT : bool) (q : Z) :
  set_Stock p (purchasedStock isVAT q (Product_Stock p))
  = ApplyStockAdjustment p AdjustmentTypeAdd
      (if isVAT then StockTypeVAT else StockTypeNonVAT) q.
Proof. now destruct isVAT. Qed.

Lemma RecordStockChange_products (product : Product) (sourceType : SourceType)
    (sourceID sourceCode : option string) (at_ : StockAdjustmentType)
    (st : StockType) (q : Z) (notes : option string) (w : World) :
  products (snd (RecordStockChange product sourceType sourceID sourceCode
                   at_ st q notes w)) = products w.
Proof.
  unfold RecordStockChange. repo. run.
  cbn [SetAfterValues SA_ID String.eqb NilObjectID Ascii.eqb Bool.eqb
       set_SA_ID]. run.
  destruct (outcome w (calls w)); run; [reflexivity|].
  now destruct (existsb _ (adjustments w)).
Qed.

(** An update touches the products only. *)
Lemma ProductRepository_Update_frame (id : string) (p : Product) (w : World) :
  let w' := snd (ProductRepository.Update id p w) in
  adjustments w' = adjustments w /\ purchases w' = purchases w
  /\ stdout w' = stdout w.
Proof.
  cbv zeta. repo. destruct (ObjectIDFromHex id); [|repeat split]. run.
  destruct (outcome w (calls w)); repeat split.
Qed.

(** X20. On one item, [updateProductsFromPurchase] of the migration
    leaves the same products in the database as the iteration of
    [updateProductData] does (its three [+=] are the ["add"] of
    [ApplyStockAdjustment] on the ["vat"] or ["nonvat"] stock), whether the
    product is found and stored or not; but it writes no audit record and
    prints nothing. *)
Theorem updateProductsFromPurchase_item `{Platform} (purchase : Purchase)
    (item : PurchaseItem) (w : World) :
  let migrated :=
    snd (updateProductsFromPurchase (set_Items purchase [item]) w) in
  let handled := snd (updateProductItem purchase item w) in
  products migrated = products handled
  /\ adjustments migrated = adjustments w
  /\ stdout migrated = stdout w.
Proof.
  cbv zeta.
  remember (updateProductsFromPurchase (set_Items purchase [item]) w)
    as m eqn:Em.
  remember (updateProductItem purchase item w) as h eqn:Eh.
  revert Em Eh.
  unfold updateProductsFromPurchase. cbn [Items set_Items].
  unfold updateProductsFromPurchase_items, updateProductItem.
  cbn [IsVAT set_Items].
  unfold bind, time_Now, ret.
  pose proof (ProductRepository_GetByID_unchanged (Item_ProductID item) w) as Hu.
  destruct (ProductRepository.GetByID (Item_ProductID item) w)
    as [[e | product] w1]; cbn [snd] in Hu; destruct Hu as (A & B & C & D).
  - intros -> ->. cbn [snd]. repeat split; congruence.
  - rewrite purchasedStock_apply.
    match goal with
    | |- context [ProductRepository.Update ?i ?p ?w0] =>
        pose proof (ProductRepository_Update_frame i p w0) as Hf;
        destruct (ProductRepository.Update i p w0) as [[err |] w2]
    end; cbv zeta in Hf; cbn [snd adjustments stdout purchases] in Hf;
      destruct Hf as (A' & B' & C').
    + intros -> ->. cbn [snd]. repeat split; congruence.
    + match goal with
      | |- context [RecordStockChange ?a ?b ?c ?d ?e ?f ?g ?h ?w0] =>
          pose proof (RecordStockChange_products a b c d e f g h w0) as Hr;
          destruct (RecordStockChange a b c d e f g h w0) as [[err |] w3]
      end; cbn [snd] in Hr; intros -> ->; unfold print; cbn [snd products];
        repeat split; congruence.
Qed.

(** The loop over two lists of items, one after the other: the second is
    reached when the first returned no error. *)
Lemma updateProductsFromPurchase_items_app `{Platform} (purchase : Purchase)
    (l1 l2 : list PurchaseItem) (w : World) :
  updateProductsFromPurchase_items purchase (l1 ++ l2) w
  = match updateProductsFromPurchase_items purchase l1 w with
    | (Some err, w1) => (Some err, w1)
    | (None, w1) => updateProductsFromPurchase_items purchase l2 w1
    end.
Proof.
  revert w. induction l1 as [|item l1 IH]; intros w; [reflexivity|].
  cbn [app updateProductsFromPurchase_items]. unfold bind, ret, time_Now.
  destruct (ProductRepository.GetByID (Item_ProductID item) w)
    as [[e | product] w1]; [reflexivity|].
  match goal with
  | |- context [ProductRepository.Update ?i ?p ?w0] =>
      destruct (ProductRepository.Update i p w0) as [[err |] w2]
  end; [reflexivity | apply IH].
Qed.

(** X21. [updateProductsFromPurchase] stops at the first item whose
    product cannot be read: it returns
    ["failed to get product <id>: <error>"], the items before it stay
    stored as they were processed, the items after it are not looked at. *)
Theorem updateProductsFromPurchase_stops `{Platform} (purchase : Purchase)
    (done rest : list PurchaseItem) (item : PurchaseItem) (w w1 : World)
    (err : error) :
  updateProductsFromPurchase_items purchase done w = (None, w1) ->
  fst (ProductRepository.GetByID (Item_ProductID item) w1) = inl err ->
  let run :=
    updateProductsFromPurchase
      (set_Items purchase (done ++ item :: rest)) w in
  fst run
  = Some ("failed to get product " ++ Item_ProductID item ++ ": " ++ err)
  /\ unchanged w1 (snd run).
Proof.
  intros Hdone Hfail run. subst run.
  unfold updateProductsFromPurchase. cbn [Items set_Items].
  assert (E : forall l w0,
             updateProductsFromPurchase_items
               (set_Items purchase (done ++ item :: rest)) l w0
             = updateProductsFromPurchase_items purchase l w0).
  { induction l as [|x l IH]; intros w0; [reflexivity|].
    cbn [updateProductsFromPurchase_items]. unfold bind.
    destruct (ProductRepository.GetByID (Item_ProductID x) w0)
      as [[e | product] w2]; [reflexivity|].
    destruct (time_Now w2) as [t w3]. cbn [IsVAT set_Items].
    match goal with
    | |- context [ProductRepository.Update ?i ?p ?w4] =>
        destruct (ProductRepository.Update i p w4) as [[e |] w5]
    end; [reflexivity | apply IH]. }
  rewrite E, updateProductsFromPurchase_items_app, Hdone.
  cbn [updateProductsFromPurchase_items]. unfold bind.
  pose proof (ProductRepository_GetByID_unchanged (Item_ProductID item) w1) as Hu.
  destruct (ProductRepository.GetByID (Item_ProductID item) w1)
    as [[e | product] w2]; [|discriminate Hfail].
  cbn [fst snd] in *. injection Hfail as ->. split; [reflexivity | exact Hu].
Qed.

(** ** The migration of sales *)

(** The three floors: after the stock statements of
    [updateProductsFromSale] no counter of what is in stock is negative. *)
Lemma soldStock_nonneg (isVAT : bool) (q : Z) (s : Stock) :
  let s' := soldStock isVAT q s in
  0 <= ActualStock s' /\ 0 <= Remaining (VAT s')
  /\ 0 <= Remaining (NonVAT s').
Proof.
  cbv zeta. unfold soldStock, set_VAT, set_NonVAT, set_ActualStock,
    set_Remaining.
  destruct s as [[vp vs vr] [np ns nr] a].
  destruct isVAT; cbn [VAT NonVAT ActualStock Remaining Purchased Sold].
  - destruct (Z.ltb_spec (sub a q) 0);
      cbn [VAT NonVAT ActualStock Remaining Purchased Sold];
      destruct (Z.ltb_spec (sub vr q) 0);
      cbn [VAT NonVAT ActualStock Remaining Purchased Sold];
      destruct (Z.ltb_spec nr 0);
      cbn [VAT NonVAT ActualStock Remaining Purchased Sold]; lia.
  - destruct (Z.ltb_spec (sub a q) 0);
      cbn [VAT NonVAT ActualStock Remaining Purchased Sold];
      destruct (Z.ltb_spec vr 0);
      cbn [VAT NonVAT ActualStock Remaining Purchased Sold];
      destruct (Z.ltb_spec (sub nr q) 0);
      cbn [VAT NonVAT ActualStock Remaining Purchased Sold]; lia.
Qed.

(** X22. The stock statements of [updateProductsFromSale], for every stock,
    VAT flag and quantity: afterwards [actualStock] and both [remaining]
    are at least 0, that of the ledger the sale is not booked on included;
    [sold] of the ledger it is booked on is raised by the quantity and both
    [purchased] are as before; a sale of more than remains leaves
    [remaining] at 0; and whenever the ["reduce"] of [ApplyStockAdjustment]
    leaves none of the three negative, the migration leaves the same
    stock. *)
Theorem soldStock_floors (isVAT : bool) (q : Z) (s : Stock) :
  let s' := soldStock isVAT q s in
  let sold := if isVAT then VAT else NonVAT in
  (0 <= ActualStock s' /\ 0 <= Remaining (VAT s')
   /\ 0 <= Remaining (NonVAT s'))
  /\ (Sold (sold s') = add (Sold (sold s)) q
      /\ Purchased (VAT s') = Purchased (VAT s)
      /\ Purchased (NonVAT s') = Purchased (NonVAT s))
  /\ (sub (Remaining (sold s)) q < 0 -> Remaining (sold s') = 0)
  /\ (forall p : Product,
        Product_Stock p = s ->
        let reduced :=
          ApplyStockAdjustment p AdjustmentTypeReduce
            (if isVAT then StockTypeVAT else StockTypeNonVAT) q in
        0 <= ActualStock (Product_Stock reduced) ->
        0 <= Remaining (VAT (Product_Stock reduced)) ->
        0 <= Remaining (NonVAT (Product_Stock reduced)) ->
        set_Stock p s' = reduced).
Proof.
  cbv zeta. unfold soldStock, set_VAT, set_NonVAT, set_ActualStock,
    set_Remaining.
  destruct s as [[vp vs vr] [np ns nr] a].
  destruct isVAT; cbn [VAT NonVAT ActualStock Remaining Purchased Sold].
  - destruct (Z.ltb_spec (sub a q) 0);
      cbn [VAT NonVAT ActualStock Remaining Purchased Sold];
      destruct (Z.ltb_spec (sub vr q) 0);
      cbn [VAT NonVAT ActualStock Remaining Purchased Sold];
      destruct (Z.ltb_spec nr 0);
      cbn [VAT NonVAT ActualStock Remaining Purchased Sold];
      (split; [lia | split; [repeat split | split; [intros; first [lia | reflexivity] |]]]);
      intros p Hp; destruct p; cbn in Hp; subst;
      unfold ApplyStockAdjustment, set_Stock; cbn -[add sub]; intros;
      first [lia | reflexivity].
  - destruct (Z.ltb_spec (sub a q) 0);
      cbn [VAT NonVAT ActualStock Remaining Purchased Sold];
      destruct (Z.ltb_spec vr 0);
      cbn [VAT NonVAT ActualStock Remaining Purchased Sold];
      destruct (Z.ltb_spec (sub nr q) 0);
      cbn [VAT NonVAT ActualStock Remaining Purchased Sold];
      (split; [lia | split; [repeat split | split; [intros; first [lia | reflexivity] |]]]);
      intros p Hp; destruct p; cbn in Hp; subst;
      unfold ApplyStockAdjustment, set_Stock; cbn -[add sub]; intros;
      first [lia | reflexivity].
Qed.

Lemma UpdatePrice_ID `{Platform} (t : Time) (p : Product) (v : float)
    (isVAT isPurchase : bool) : ID (UpdatePrice t p v isVAT isPurchase) = ID p.
Proof. unfold UpdatePrice. now destruct isPurchase, isVAT. Qed.

Lemma UpdatePrice_Stock `{Platform} (t : Time) (p : Product) (v : float)
    (isVAT isPurchase : bool) :
  Product_Stock (UpdatePrice t p v isVAT isPurchase) = Product_Stock p.
Proof. unfold UpdatePrice. now destruct isPurchase, isVAT. Qed.

(** X23. A migrated sale of one item, the product found and the driver
    answering: no error is returned, no audit record is written, and the
    product then stored under the id has the stock [soldStock] computes
    from the stock it had (the price update does not touch the stock), so
    its [actualStock] and both [remaining] are at least 0. *)
Theorem updateProductsFromSale_item `{Platform} (sale : Sale) (item : SaleItem)
    (w : World) (oid : ObjectID) (product : Product) :
  Sale_Items sale = [item] ->
  ObjectIDFromHex (SaleItem_ProductID item) = Some oid ->
  find (fun p => String.eqb (ID p) oid) (products w) = Some product ->
  outcome w (calls w) = None ->
  outcome w (S (calls w)) = None ->
  let run := updateProductsFromSale sale w in
  fst run = None
  /\ adjustments (snd run) = adjustments w
  /\ exists stored : Product,
       find (fun p => String.eqb (ID p) oid) (products (snd run)) = Some stored
       /\ Product_Stock stored
          = soldStock (Sale_IsVAT sale) (SaleItem_Quantity item)
              (Product_Stock product)
       /\ 0 <= ActualStock (Product_Stock stored)
       /\ 0 <= Remaining (VAT (Product_Stock stored))
       /\ 0 <= Remaining (NonVAT (Product_Stock stored)).
Proof.
  intros Hitems Hoid Hfound Hget Hupd run. subst run.
  remember (updateProductsFromSale sale w) as r eqn:E. revert E.
  unfold updateProductsFromSale. rewrite Hitems.
  unfold updateProductsFromSale_items. repo. run.
  rewrite Hoid. run. rewrite Hget. run. rewrite Hfound. run.
  rewrite Hupd. run. intros ->. cbn [fst snd products adjustments].
  split; [reflexivity | split; [reflexivity|]].
  eexists. split; [| split].
  - apply find_replace_first.
    + cbn [ID set_Stock]. rewrite UpdatePrice_ID.
      rewrite (find_eqb_ID _ _ _ Hfound). apply String.eqb_refl.
    + exact (find_existsb _ _ _ Hfound).
  - cbn [Product_Stock set_Stock]. now rewrite UpdatePrice_Stock.
  - cbn [Product_Stock set_Stock].
    apply (soldStock_nonneg (Sale_IsVAT sale) (SaleItem_Quantity item)).
Qed.

(** ** The product code of the migration *)

Lemma length_append (a b : string) :
  String.length (a ++ b) = (String.length a + String.length b)%nat.
Proof. induction a as [|c a IH]; cbn; [reflexivity | now rewrite IH]. Qed.

Lemma twoBytes_length `{Strings} (s : string) : String.length (twoBytes s) = 2%nat.
Proof.
  unfold twoBytes. cbv zeta.
  destruct (Nat.ltb_spec 2 (String.length (ToUpper s))) as [Hl | Hl].
  - apply length_substring. lia.
  - destruct (Nat.eqb_spec (String.length (ToUpper s)) 1) as [E | N1].
    + rewrite length_append, E. reflexivity.
    + destruct (Nat.eqb_spec (String.length (ToUpper s)) 0) as [E | N0];
        [reflexivity | lia].
Qed.

(** X24. The product code of the migration is always eight bytes: two
    bytes of the category, a dash, two bytes of the size, a slash, two
    bytes of the color, each pair being what [twoBytes] keeps of the
    operand (for every [strings.ToUpper]). *)
Theorem generateProductCode_shape `{Strings} (category size color : string) :
  exists a b c d e f : ascii,
    generateProductCode category size color
    = Some (string_of_list_ascii [a; b; "-"%char; c; d; "/"%char; e; f])
    /\ twoBytes category = string_of_list_ascii [a; b]
    /\ twoBytes size = string_of_list_ascii [c; d]
    /\ twoBytes color = string_of_list_ascii [e; f].
Proof.
  unfold generateProductCode. cbv zeta.
  pose proof (twoBytes_length category) as H1.
  pose proof (twoBytes_length size) as H2.
  pose proof (twoBytes_length color) as H3.
  destruct (twoBytes category) as [|a [|b [|? ?]]]; try discriminate H1.
  destruct (twoBytes size) as [|c [|d [|? ?]]]; try discriminate H2.
  destruct (twoBytes color) as [|e [|f [|? ?]]]; try discriminate H3.
  exists a, b, c, d, e, f. repeat split.
Qed.

(** ** The order of the prices *)

Lemma SFcompare_antisym (x y : spec_float) :
  SFcompare y x = option_map CompOpp (SFcompare x y).
Proof.
  destruct x as [sx | sx | | sx mx ex], y as [sy | sy | | sy my ey];
    cbn; try reflexivity;
    try (destruct sx; reflexivity); try (destruct sy; reflexivity);
    try (destruct sx, sy; reflexivity).
  destruct sx, sy; cbn; try reflexivity;
    rewrite (Z.compare_antisym ex ey);
    destruct (ex ?= ey)%Z; cbn; try reflexivity;
    rewrite (Pos.compare_cont_antisym mx my Eq); cbn;
    now rewrite ?CompOpp_involutive.
Qed.

Lemma is_number_compare (x y : float) :
  is_number x -> is_number y ->
  exists c, SFcompare (Prim2SF x) (Prim2SF y) = Some c.
Proof.
  unfold is_number. rewrite !eqb_spec. unfold SFeqb.
  destruct (Prim2SF x) as [sx | sx | | sx mx ex],
           (Prim2SF y) as [sy | sy | | sy my ey];
    cbn; intros Hx Hy; try discriminate; eauto.
Qed.

Lemma leb_refl (x : float) : is_number x -> (x <=? x)%float = true.
Proof.
  unfold is_number. rewrite eqb_spec, leb_spec. unfold SFeqb, SFleb.
  now destruct (SFcompare (Prim2SF x) (Prim2SF x)) as [[]|].
Qed.

Lemma ltb_leb (x y : float) : (x <? y)%float = true -> (x <=? y)%float = true.
Proof.
  rewrite ltb_spec, leb_spec. unfold SFltb, SFleb.
  now destruct (SFcompare (Prim2SF x) (Prim2SF y)) as [[]|].
Qed.

Lemma not_ltb_leb (x y : float) :
  is_number x -> is_number y ->
  (x <? y)%float = false -> (y <=? x)%float = true.
Proof.
  intros Hx Hy. destruct (is_number_compare x y Hx Hy) as [c Hc].
  rewrite ltb_spec, leb_spec. unfold SFltb, SFleb.
  rewrite (SFcompare_antisym (Prim2SF x) (Prim2SF y)), Hc.
  now destruct c.
Qed.

(** X25. The order of the prices of a [PriceInfo].  When the new price
    and the stored [min] and [max] are numbers (not NaN), one update leaves
    [latest] equal to the new price, [min <= latest <= max], [max] not
    below the stored [max], [min] not above the stored [min] unless that
    was 0; a stored [min] of 0 counts as unset and is replaced by the new
    price. *)
Theorem updatePriceInfo_bounds `{Platform} (t : Time) (pi : PriceInfo)
    (v : float) :
  is_number v -> is_number (Min pi) -> is_number (Max pi) ->
  let pi' := updatePriceInfo t pi v in
  Latest pi' = v
  /\ (Min pi' <=? Latest pi')%float = true
  /\ (Latest pi' <=? Max pi')%float = true
  /\ (Max pi <=? Max pi')%float = true
  /\ ((Min pi =? 0)%float = false -> (Min pi' <=? Min pi)%float = true)
  /\ ((Min pi =? 0)%float = true -> Min pi' = v).
Proof.
  intros Hv Hmin Hmax pi'.
  assert (E : Latest pi' = v
              /\ Min pi' = (if (Min pi =? 0)%float || (v <? Min pi)%float
                            then v else Min pi)
              /\ Max pi' = (if (Max pi <? v)%float then v else Max pi)).
  { subst pi'. unfold updatePriceInfo.
    destruct (negb (YTDYear pi =? Year t));
      destruct (negb (MTDYear pi =? Year t) || negb (MTDMonth pi =? Month t));
      repeat split. }
  destruct E as (-> & -> & ->).
  split; [reflexivity|].
  destruct (Min pi =? 0)%float eqn:E0; cbn [orb];
    destruct (v <? Min pi)%float eqn:E1;
    destruct (Max pi <? v)%float eqn:E2;
    repeat split;
    try discriminate;
    auto using leb_refl, ltb_leb, not_ltb_leb.
Qed.

(** ** The purchase code *)

Lemma substring_append_r (a b : string) :
  substring (String.length a) (String.length b) (a ++ b) = b.
Proof.
  induction a as [|c a IH]; cbn [String.length append].
  - induction b as [|c b IH]; [reflexivity|]. cbn. now rewrite IH.
  - cbn. exact IH.
Qed.

(** The last four bytes of a code that ends with four bytes. *)
Lemma last4_append (a b : string) :
  String.length b = 4%nat -> PurchaseRepository.last4 (a ++ b) = b.
Proof.
  intros Hb. unfold PurchaseRepository.last4.
  rewrite length_append, Hb.
  replace (String.length a + 4 - 4)%nat with (String.length a) by lia.
  rewrite <- Hb. apply substring_append_r.
Qed.

Lemma string_leb_append (a b c : string) :
  String.leb (a ++ b) (a ++ c) = String.leb b c.
Proof.
  unfold String.leb. induction a as [|x a IH]; [reflexivity|].
  cbn. now rewrite ascii_compare_refl.
Qed.

Lemma fmt_0d_4 (n : Z) : fmt_0d 4 n = fmt.fmt_04d n.
Proof. reflexivity. Qed.

Section PurchaseCode.

Context `{Regex}.

Variable w : World.
Variable isVAT : bool.

Hypothesis driver_ok : forall n, outcome w n = None.

Let prefix : string := purchasePrefix isVAT (now w (ticks w)).

Let matching (code : string) : Prop :=
  regex_match ("^" ++ prefix) "i" code = true.

Lemma generatePurchaseID_unfold :
  fst (generatePurchaseID isVAT w)
  = match fst (PurchaseRepository.GetNextSequenceNumber prefix
                 (snd (time_Now w))) with
    | (_, Some err) => ("", Some err)
    | (nextSeq, None) => (prefix ++ "-" ++ fmt_0d 4 nextSeq, None)
    end.
Proof.
  unfold generatePurchaseID. unfold bind at 1. unfold time_Now at 1.
  cbv zeta. unfold bind at 1.
  assert (E : (if isVAT
               then "PUR-VAT-" ++ fmt_0d 2 (Z.rem (add (Year (now w (ticks w))) 543) 100)
                    ++ fmt_0d 2 (Month (now w (ticks w)))
               else "PUR-NV-" ++ fmt_0d 2 (Z.rem (add (Year (now w (ticks w))) 543) 100)
                    ++ fmt_0d 2 (Month (now w (ticks w)))) = prefix)
    by (unfold prefix, purchasePrefix; now destruct isVAT).
  rewrite E. unfold time_Now. cbn [snd].
  destruct (PurchaseRepository.GetNextSequenceNumber prefix _) as [[n [e|]] w1];
    reflexivity.
Qed.

(** The code after the greatest stored code, when that one ends with four
    digits. *)
Lemma generatePurchaseID_after (digits : string) (n : Z) :
  String.length digits = 4%nat ->
  strconv.Atoi digits = Some n ->
  (exists p, In p (purchases w) /\ PurchaseCode p = prefix ++ "-" ++ digits) ->
  matching (prefix ++ "-" ++ digits) ->
  (forall p', In p' (purchases w) -> matching (PurchaseCode p') ->
              String.leb (PurchaseCode p') (prefix ++ "-" ++ digits) = true) ->
  fst (generatePurchaseID isVAT w)
  = (prefix ++ "-" ++ fmt_0d 4 (add n 1), None).
Proof.
  intros H4 Ha Hex Hm Hmax.
  rewrite generatePurchaseID_unfold.
  rewrite (GetNextSequenceNumber_unfold (snd (time_Now w)) prefix driver_ok).
  destruct (greatest_code_selected (snd (time_Now w)) prefix _ Hex Hm Hmax)
    as (lastPurchase & rest & E & Hcode).
  cbn [time_Now snd purchases] in E |- *. rewrite E. cbv zeta. rewrite Hcode.
  assert (Hlen : (4 <=? String.length (prefix ++ "-" ++ digits))%nat = true).
  { apply Nat.leb_le. rewrite !length_append, H4. lia. }
  rewrite Hlen.
  now rewrite <- append_assoc, (last4_append _ _ H4), Ha.
Qed.

Lemma generatePurchaseID_first :
  (forall p, In p (purchases w) -> ~ matching (PurchaseCode p)) ->
  fst (generatePurchaseID isVAT w) = (prefix ++ "-0001", None).
Proof.
  intros Hnone. rewrite generatePurchaseID_unfold.
  rewrite (GetNextSequenceNumber_unfold (snd (time_Now w)) prefix driver_ok).
  cbn [time_Now snd purchases].
  rewrite filter_nil_iff; [reflexivity|].
  intros p Hp. specialize (Hnone p Hp). unfold matching in Hnone.
  now destruct (regex_match _ _ _).
Qed.

End PurchaseCode.

(** X26. The database answering, [generatePurchaseID] builds the prefix
    [PUR-VAT-] or [PUR-NV-] followed by the last two digits of the Buddhist
    year and the two digits of the month of the clock.  When no stored code
    matches the prefix the code is the prefix followed by [-0001]; when the
    greatest matching code is the prefix, a dash and the four digits of a
    number [n] from 0 to 9998, the code is the prefix, a dash and the four
    digits of [n + 1]. *)
Theorem generatePurchaseID_next `{Regex} (w : World) (isVAT : bool) :
  (forall n, outcome w n = None) ->
  let prefix := purchasePrefix isVAT (now w (ticks w)) in
  let matching := fun code => regex_match ("^" ++ prefix) "i" code = true in
  ((forall p, In p (purchases w) -> ~ matching (PurchaseCode p)) ->
   fst (generatePurchaseID isVAT w) = (prefix ++ "-0001", None))
  /\ (forall n : Z,
        0 <= n <= 9998 ->
        (exists p, In p (purchases w)
                   /\ PurchaseCode p = prefix ++ "-" ++ pad4 n) ->
        matching (prefix ++ "-" ++ pad4 n) ->
        (forall p', In p' (purchases w) -> matching (PurchaseCode p') ->
                    String.leb (PurchaseCode p') (prefix ++ "-" ++ pad4 n)
                    = true) ->
        fst (generatePurchaseID isVAT w)
        = (prefix ++ "-" ++ pad4 (n + 1), None)).
Proof.
  intros Hok prefix matching. split.
  - now apply generatePurchaseID_first.
  - intros n Hn Hex Hm Hmax.
    assert (Hn' : 0 <= n <= 9999) by lia.
    destruct (pad4_digits n Hn') as (H4 & _ & Ha).
    rewrite (generatePurchaseID_after w isVAT Hok (pad4 n) n H4 Ha Hex Hm Hmax).
    rewrite add_exact by (unfold int_ok, MinInt, MaxInt; lia).
    now rewrite fmt_0d_4, fmt_04d_pad4 by lia.
Qed.

(** X27. The codes of a month end at 9999.  When the greatest matching
    code is the prefix followed by [-9999], the code generated is the
    prefix followed by [-10000]; that code is below [-9999] in the byte
    order, so once a purchase is stored under it the greatest code is still
    the one ending in [-9999], and the next purchase of the month is given
    the code [-10000] again. *)
Theorem generatePurchaseID_saturates `{Regex} (w w' : World) (isVAT : bool)
    (stored : Purchase) :
  (forall n, outcome w n = None) ->
  let prefix := purchasePrefix isVAT (now w (ticks w)) in
  let matching := fun code => regex_match ("^" ++ prefix) "i" code = true in
  (exists p, In p (purchases w) /\ PurchaseCode p = prefix ++ "-9999") ->
  matching (prefix ++ "-9999") ->
  (forall p', In p' (purchases w) -> matching (PurchaseCode p') ->
              String.leb (PurchaseCode p') (prefix ++ "-9999") = true) ->
  fst (generatePurchaseID isVAT w) = (prefix ++ "-10000", None)
  /\ (purchases w' = (purchases w ++ [stored])%list ->
      PurchaseCode stored = prefix ++ "-10000" ->
      (forall n, outcome w' n = None) ->
      purchasePrefix isVAT (now w' (ticks w')) = prefix ->
      fst (generatePurchaseID isVAT w') = (prefix ++ "-10000", None)).
Proof.
  intros Hok prefix matching Hex Hm Hmax. split.
  - now rewrite (generatePurchaseID_after w isVAT Hok "9999" 9999 eq_refl
                   eq_refl Hex Hm Hmax).
  - intros Hp Hcode Hok' Hprefix.
    rewrite (generatePurchaseID_after w' isVAT Hok' "9999" 9999 eq_refl
               eq_refl); rewrite Hprefix; [reflexivity | | exact Hm |].
    + destruct Hex as (p & Hin & E). exists p. split; [|exact E].
      rewrite Hp. apply in_or_app. now left.
    + intros p' Hin Hm'. rewrite Hp in Hin. apply in_app_or in Hin.
      destruct Hin as [Hin | [<- | []]]; [now apply Hmax|].
      rewrite Hcode. fold prefix. now rewrite string_leb_append.
Qed.

(** ** Instances *)

Lemma AdjustStock_update_fails_witness :
  let req := mkStockAdjustmentRequest AdjustmentTypeReduce StockTypeVAT 2 None in
  let run := AdjustStock "65f000000000000000000001" (Some req) (shopWorld [1%nat]) in
  StatusCode (fst run) = 500 /\ products (snd run) = [stockedProduct]
  /\ adjustments (snd run) = [auditRecord].
Proof.
  intros req run.
  destruct (AdjustStock_update_fails (shopWorld [1%nat])
              (snd (lookupProduct "65f000000000000000000001" (shopWorld [1%nat])))
              "65f000000000000000000001" req stockedProduct eq_refl eq_refl
              (or_intror (ex_intro _ "connection reset" eq_refl)))
    as (R & P & A & _).
  fold run in R, P, A. rewrite R. split; [reflexivity | split; assumption].
Defined.

Lemma AdjustStock_audit_record_witness :
  let req := mkStockAdjustmentRequest AdjustmentTypeReduce StockTypeVAT 2 None in
  let run := AdjustStock "65f000000000000000000001" (Some req) (shopWorld []) in
  map (fun a => (before_stock a, after_stock a)) (adjustments (snd run))
  = [ (zeroStock, mkStock (mkStockInfo 5 0 5) zeroStockInfo 5);
      (mkStock (mkStockInfo 5 0 5) zeroStockInfo 5,
       mkStock (mkStockInfo 5 2 3) zeroStockInfo 3) ].
Proof.
  intros req run.
  destruct (AdjustStock_audit_record (shopWorld [])
              (snd (lookupProduct "65f000000000000000000001" (shopWorld [])))
              "65f000000000000000000001" req stockedProduct eq_refl eq_refl
              "65f000000000000000000001" eq_refl eq_refl eq_refl eq_refl)
    as (_ & _ & a & E & _ & _ & _ & _ & _ & Hb & Ha & _).
  fold run in E. rewrite E. cbn [map app shopWorld adjustments].
  now rewrite Hb, Ha.
Defined.

Lemma shopWorld_outcome (k n : nat) :
  n <> k -> outcome (shopWorld [k]) n = None.
Proof.
  intros Hn. cbn. destruct (Nat.eqb_spec n k); [contradiction | reflexivity].
Qed.

Lemma DeleteStockAdjustment_retry_witness :
  let run1 := DeleteStockAdjustment "65f0000000000000000000c1" (shopWorld [3%nat]) in
  let run2 := DeleteStockAdjustment "65f0000000000000000000c1" (snd run1) in
  StatusCode (fst run1) = 500
  /\ (exists answered : Product,
        fst run2 = json_Encode answered
        /\ Product_Stock answered = mkStock (mkStockInfo 5 10 (-5)) zeroStockInfo (-5)).
Proof.
  intros run1 run2.
  destruct (DeleteStockAdjustment_retry (shopWorld [3%nat])
              "65f0000000000000000000c1" "65f0000000000000000000c1"
              "65f000000000000000000001" auditRecord stockedProduct
              "connection reset" eq_refl eq_refl eq_refl eq_refl
              (shopWorld_outcome 3) eq_refl)
    as ((R1 & _) & answered & R2 & S2 & _).
  fold run1 in R1. fold run1 run2 in R2.
  split; [now rewrite R1|]. exists answered. split; [exact R2 | exact S2].
Defined.

Lemma updateProductData_skips_witness :
  products (snd (@updateProductData amd64
                   (set_Items purchaseOfTen [ghostItem; boxItem])
                   (shopWorld [])))
  = products (snd (@updateProductData amd64 purchaseOfTen (shopWorld []))).
Proof.
  destruct (@updateProductData_skips amd64 purchaseOfTen ghostItem [boxItem]
              (shopWorld []) ErrInvalidHex eq_refl) as [E _].
  now rewrite E.
Defined.

Lemma updateProductsFromPurchase_stops_witness :
  let run :=
    @updateProductsFromPurchase amd64
      (set_Items purchaseOfTen [boxItem; ghostItem; boxItem]) (shopWorld []) in
  fst run
  = Some ("failed to get product ghost: " ++ ErrInvalidHex)
  /\ map (fun p => Product_Stock p) (products (snd run))
     = [mkStock (mkStockInfo 15 0 15) zeroStockInfo 15].
Proof.
  intros run.
  destruct (@updateProductsFromPurchase_stops amd64 purchaseOfTen [boxItem]
              [boxItem] ghostItem (shopWorld [])
              (snd (@updateProductsFromPurchase_items amd64 purchaseOfTen
                      [boxItem] (shopWorld [])))
              ErrInvalidHex)
    as (R & P & _).
  - vm_compute. reflexivity.
  - reflexivity.
  - cbn [app] in R, P. fold run in R, P. split; [exact R|]. rewrite P.
    vm_compute. reflexivity.
Defined.

Lemma updateProductsFromSale_item_witness :
  exists stored : Product,
    find (fun p => String.eqb (ID p) "65f000000000000000000001")
      (products (snd (@updateProductsFromSale amd64 saleOfEight
                        (shopWorld []))))
    = Some stored
    /\ Product_Stock stored = mkStock (mkStockInfo 5 8 0) zeroStockInfo 0.
Proof.
  destruct (@updateProductsFromSale_item amd64 saleOfEight
              (mkSaleItem "65f000000000000000000001" "box" "ABC-s/RE" 8 120 960)
              (shopWorld []) "65f000000000000000000001" stockedProduct
              eq_refl eq_refl eq_refl eq_refl eq_refl)
    as (_ & _ & stored & F & S & _).
  exists stored. split; [exact F | exact S].
Defined.

Lemma updatePriceInfo_bounds_witness :
  let pi := @updatePriceInfo amd64 zeroTime
              (@updatePriceInfo amd64 zeroTime zeroPriceInfo 100) 80 in
  (Min pi <=? Latest pi)%float = true /\ (Latest pi <=? Max pi)%float = true.
Proof.
  intros pi.
  destruct (@updatePriceInfo_bounds amd64 zeroTime
              (@updatePriceInfo amd64 zeroTime zeroPriceInfo 100) 80)
    as (_ & A & B & _); try (vm_compute; reflexivity).
  split; [exact A | exact B].
Defined.

Lemma generatePurchaseID_next_witness :
  fst (@generatePurchaseID literal_regex true
         (with_purchases busyWorld
            [mkPurchase "65f0000000000000000000a1" "PUR-VAT-6701-0041" "c1" [] true]))
  = ("PUR-VAT-6701-0042", None).
Proof.
  refine (proj2 (@generatePurchaseID_next literal_regex
                   (with_purchases busyWorld _) true (fun _ => eq_refl))
            41 _ _ eq_refl _).
  - lia.
  - eexists. split; [left; reflexivity | reflexivity].
  - intros p' [<- | []] _. reflexivity.
Defined.

Lemma generatePurchaseID_saturates_witness :
  fst (@generatePurchaseID literal_regex true busyWorld)
  = ("PUR-VAT-6701-10000", None)
  /\ fst (@generatePurchaseID literal_regex true
            (with_purchases busyWorld
               (purchases busyWorld ++ [overflowPurchase])))
     = ("PUR-VAT-6701-10000", None).
Proof.
  destruct (@generatePurchaseID_saturates literal_regex busyWorld
              (with_purchases busyWorld
                 (purchases busyWorld ++ [overflowPurchase]))
              true overflowPurchase (fun _ => eq_refl)) as [A B].
  - eexists. split; [right; left; reflexivity | reflexivity].
  - reflexivity.
  - intros p' Hin Hm. cbn in Hin.
    destruct Hin as [<- | [<- | [<- | []]]];
      first [reflexivity | discriminate Hm].
  - split; [exact A|]. apply B; reflexivity.
Defined.

(** ** Sales *)

Import shop sale_handler.

(** The steps of a run in the shop. *)
Ltac shop_run :=
  cbv beta iota zeta;
  cbn [world sales quotations products adjustments purchases stdout outcome
       calls now ticks fresh allocs fst snd].

Ltac shop_ops :=
  unfold SaleRepository.Create, SaleRepository.GetByID, SaleRepository.Delete,
    QuotationRepository.GetByCode, QuotationRepository.Update;
  unfold Sbind, Sret, lift, Sget, set_sales, set_quotations;
  unfold driver_call, NewObjectID, time_Now, print.

(** What the loop of [DeleteSale] leaves alone. *)
Lemma restoreItem_frame (sale : Sale) (item : SaleItem) (w : World) :
  let w' := snd (restoreItem sale item w) in
  adjustments w' = adjustments w /\ purchases w' = purchases w
  /\ stdout w' = stdout w /\ outcome w' = outcome w.
Proof.
  cbv zeta.
  remember (restoreItem sale item w) as r eqn:E. revert E.
  unfold restoreItem. unfold bind at 1.
  pose proof (ProductRepository_GetByID_unchanged (SaleItem_ProductID item) w)
    as Hu.
  assert (Ho : outcome (snd (ProductRepository.GetByID
                               (SaleItem_ProductID item) w)) = outcome w).
  { repo. destruct (ObjectIDFromHex _); [|reflexivity]. run.
    destruct (outcome w (calls w)); run; [reflexivity|].
    now destruct (find _ _). }
  destruct (ProductRepository.GetByID (SaleItem_ProductID item) w)
    as [[e | product] w1]; cbn [snd] in Hu, Ho;
    destruct Hu as (A & B & C & D).
  - unfold ret. intros ->. cbn [snd]. repeat split; assumption.
  - unfold bind, ret. cbv zeta.
    match goal with
    | |- context [ProductRepository.Update ?i ?p ?w0] =>
        pose proof (ProductRepository_Update_frame i p w0) as Hf;
        assert (Ho2 : outcome (snd (ProductRepository.Update i p w0))
                      = outcome w0)
          by (repo; destruct (ObjectIDFromHex i); [|reflexivity]; run;
              now destruct (outcome w0 (calls w0)));
        destruct (ProductRepository.Update i p w0) as [e w2]
    end.
    cbv zeta in Hf. cbn [snd] in Hf, Ho2. destruct Hf as (A' & B' & C').
    intros ->. cbn [snd]. repeat split; congruence.
Qed.

Lemma restoreItems_frame (sale : Sale) (items : list SaleItem) (w : World) :
  let w' := snd (for_range items (restoreItem sale) w) in
  adjustments w' = adjustments w /\ purchases w' = purchases w
  /\ stdout w' = stdout w /\ outcome w' = outcome w.
Proof.
  cbv zeta. revert w. induction items as [|item items IH]; intros w.
  - repeat split.
  - pose proof (restoreItem_frame sale item w) as H1. cbv zeta in H1.
    remember (for_range (item :: items) (restoreItem sale) w) as r eqn:E.
    revert E. cbn [for_range]. unfold bind.
    destruct (restoreItem sale item w) as [u w1]. cbn [snd] in H1.
    specialize (IH w1). destruct H1 as (A & B & C & D).
    destruct IH as (A' & B' & C' & D'). intros ->. repeat split; congruence.
Qed.

Section DeleteSale.

Variable s : Shop.
Variable path id : string.
Variable oid : ObjectID.
Variable sale : Sale.

Hypothesis path_ok : (4 <= List.length (Split path "/"))%nat.
Hypothesis id_last : last (Split path "/") "" = id.
Hypothesis oid_ok : ObjectIDFromHex id = Some oid.
Hypothesis read_ok : outcome (world s) (calls (world s)) = None.
Hypothesis sale_found :
  find (fun x => String.eqb (Sale_ID x) oid) (sales s) = Some sale.

(** The world once the sale was read. *)
Let w0 : World := snd (driver_call (world s)).

(** The world after the loop that gives the stock back. *)
Let w1 : World := snd (for_range (Sale_Items sale) (restoreItem sale) w0).

Lemma DeleteSale_steps :
  DeleteSale path s
  = match outcome w1 (calls w1) with
    | Some _ =>
        (sale_Error "Failed to delete sale" 500,
         mkShop (snd (driver_call w1)) (sales s) (quotations s))
    | None =>
        (mkSaleResponse 204 NoBody,
         mkShop (snd (driver_call w1))
           (delete_first (fun x => String.eqb (Sale_ID x) oid) (sales s))
           (quotations s))
    end.
Proof.
  unfold DeleteSale. cbv zeta.
  apply Nat.ltb_ge in path_ok. rewrite path_ok, id_last.
  shop_ops. rewrite oid_ok. shop_run. rewrite read_ok. shop_run.
  rewrite sale_found. shop_run.
  match goal with
  | |- context [for_range (Sale_Items sale) (restoreItem sale) ?x] =>
      change x with w0
  end.
  unfold w1. destruct (for_range (Sale_Items sale) (restoreItem sale) w0)
    as [u w']. shop_run.
  now destruct (outcome w' (calls w')).
Qed.

End DeleteSale.

(** X28. [DeleteSale], the path having at least four parts, the last of
    them the id of a stored sale: whenever the final deletion is answered,
    the answer is 204 without a body and the sale is removed, whatever
    happened to the products in between (a missing product and a failed
    update are passed over in silence); no audit record is written and
    nothing is printed.  For a sale of one item whose product is found and
    stored, the product is replaced by the ["add"] of
    [ApplyStockAdjustment] on the ledger of the sale: [purchased] of that
    ledger is raised by the quantity and [sold] stays as the sale left
    it. *)
Theorem DeleteSale_restores (s : Shop) (path id : string) (oid : ObjectID)
    (sale : Sale) :
  (4 <= List.length (Split path "/"))%nat ->
  last (Split path "/") "" = id ->
  ObjectIDFromHex id = Some oid ->
  outcome (world s) (calls (world s)) = None ->
  find (fun x => String.eqb (Sale_ID x) oid) (sales s) = Some sale ->
  let restored :=
    snd (for_range (Sale_Items sale) (restoreItem sale)
           (snd (driver_call (world s)))) in
  outcome restored (calls restored) = None ->
  let run := DeleteSale path s in
  fst run = mkSaleResponse 204 NoBody
  /\ sales (snd run)
     = delete_first (fun x => String.eqb (Sale_ID x) oid) (sales s)
  /\ adjustments (world (snd run)) = adjustments (world s)
  /\ stdout (world (snd run)) = stdout (world s)
  /\ products (world (snd run)) = products restored
  /\ (forall (item : SaleItem) (pid : ObjectID) (product : Product),
        Sale_Items sale = [item] ->
        ObjectIDFromHex (SaleItem_ProductID item) = Some pid ->
        find (fun p => String.eqb (ID p) pid) (products (world s))
        = Some product ->
        outcome (world s) (S (calls (world s))) = None ->
        outcome (world s) (S (S (calls (world s)))) = None ->
        let ledger := if Sale_IsVAT sale then VAT else NonVAT in
        let back :=
          ApplyStockAdjustment product AdjustmentTypeAdd
            (stockTypeOf (Sale_IsVAT sale)) (SaleItem_Quantity item) in
        products restored
        = replace_first (fun p => String.eqb (ID p) pid) back
            (products (world s))
        /\ Purchased (ledger (Product_Stock back))
           = add (Purchased (ledger (Product_Stock product)))
               (SaleItem_Quantity item)
        /\ Sold (ledger (Product_Stock back))
           = Sold (ledger (Product_Stock product))).
Proof.
  intros Hpath Hlast Hoid Hread Hfound restored Hdel run.
  pose proof (DeleteSale_steps s path id oid sale Hpath Hlast Hoid Hread Hfound)
    as E.
  cbv zeta in E. fold restored in E. rewrite Hdel in E.
  subst run. rewrite E. cbn [fst snd world sales].
  pose proof (restoreItems_frame sale (Sale_Items sale)
                (snd (driver_call (world s)))) as F.
  cbv zeta in F. fold restored in F. destruct F as (A & B & C & D).
  unfold driver_call. cbn [snd adjustments stdout products].
  split; [reflexivity | split; [reflexivity | split; [exact A | split; [exact C |]]]].
  split; [reflexivity|].
  intros item pid product Hitems Hpid Hprod Hget Hupd.
  split.
  - unfold restored. rewrite Hitems. cbn [for_range].
    unfold restoreItem. repo. run. rewrite Hpid. run. rewrite Hget. run.
    rewrite Hprod. run. rewrite Hupd. run. reflexivity.
  - unfold stockTypeOf.
    destruct (Sale_IsVAT sale);
      [rewrite apply_add_vat | rewrite apply_add_nonvat]; split; reflexivity.
Qed.

Lemma DeleteSale_restores_witness :
  let s := mkShop (shopWorld [2%nat]) [saleOfEight] [] in
  let run := DeleteSale "/api/sales/65f0000000000000000000e1" s in
  fst run = mkSaleResponse 204 NoBody /\ sales (snd run) = []
  /\ products (world (snd run)) = [stockedProduct].
Proof.
  intros s run.
  assert (Hpath : (4 <= List.length
                          (Split "/api/sales/65f0000000000000000000e1" "/"))%nat)
    by (vm_compute; lia).
  destruct (DeleteSale_restores s "/api/sales/65f0000000000000000000e1"
              "65f0000000000000000000e1" "65f0000000000000000000e1"
              saleOfEight Hpath eq_refl eq_refl eq_refl eq_refl eq_refl)
    as (R & S1 & _ & _ & P & _).
  fold run in R, S1, P. split; [exact R | split; [exact S1 |]].
  rewrite P. reflexivity.
Defined.

(** ** [CreateSale] *)

Lemma generateSaleID_keeps `{Regex} (isVAT : bool) (s : Shop) :
  let s' := snd (generateSaleID isVAT s) in
  sales s' = sales s /\ quotations s' = quotations s
  /\ unchanged (world s) (world s').
Proof.
  cbv zeta. remember (generateSaleID isVAT s) as r eqn:E. revert E.
  unfold generateSaleID, SaleRepository.GetNextSequenceNumber. shop_ops.
  shop_run.
  destruct (outcome (world s) (calls (world s))); shop_run;
    [intros ->; repeat split|].
  destruct (sort_desc SaleCode _) as [|lastSale l]; cbn [firstn]; shop_run;
    [intros ->; repeat split|].
  destruct (outcome (world s) (S (calls (world s)))); shop_run;
    intros ->; repeat split.
Qed.

(** The loop over two lists of items, one after the other. *)
Lemma cutStock_app `{Platform} (sale : Sale) (l1 l2 : list SaleItem)
    (w : World) :
  cutStock sale (l1 ++ l2) w
  = match cutStock sale l1 w with
    | (Some response, w1) => (Some response, w1)
    | (None, w1) => cutStock sale l2 w1
    end.
Proof.
  revert w. induction l1 as [|item l1 IH]; intros w; [reflexivity|].
  cbn [app cutStock]. unfold bind, ret.
  destruct (ProductRepository.GetByID (SaleItem_ProductID item) w)
    as [[e | product] w1]; [reflexivity|].
  destruct (time_Now w1) as [t w2]. cbv zeta.
  match goal with
  | |- context [ProductRepository.Update ?i ?p ?w0] =>
      destruct (ProductRepository.Update i p w0) as [[err |] w3]
  end; [reflexivity|].
  match goal with
  | |- context [RecordStockChange ?a ?b ?c ?d ?e ?f ?g ?h ?w0] =>
      destruct (RecordStockChange a b c d e f g h w0) as [[err |] w4]
  end; [destruct (print _ w4) as [u w5] |]; apply IH.
Qed.

(** X29. [CreateSale] cuts the stock item by item before it stores the
    sale.  When the code was generated, the items before some item were
    processed and the product of that item cannot be read, the answer is
    400 ["Product not found: <id>"]: no sale is stored, no quotation is
    changed, and the products, the audit records and the standard output
    are as the earlier items left them: their stock stays cut. *)
Theorem CreateSale_partial `{Platform} `{Regex} (s s1 s2 : Shop)
    (req : SaleRequest) (code : string) (sale : Sale)
    (done rest : list SaleItem) (item : SaleItem) (w3 : World) (err : error) :
  generateSaleID (SaleReq_IsVAT req) s = ((code, None), s1) ->
  lift (ToSale req) s1 = (sale, s2) ->
  SaleReq_Items req = (done ++ item :: rest)%list ->
  cutStock (set_SaleCode sale code) done (world s2) = (None, w3) ->
  fst (ProductRepository.GetByID (SaleItem_ProductID item) w3) = inl err ->
  let run := CreateSale (Some req) s in
  fst run
  = sale_Error ("Product not found: " ++ SaleItem_ProductID item) 400
  /\ sales (snd run) = sales s
  /\ quotations (snd run) = quotations s
  /\ unchanged w3 (world (snd run)).
Proof.
  intros Hgen Hsale Hitems Hdone Hfail run. subst run.
  pose proof (generateSaleID_keeps (SaleReq_IsVAT req) s) as K.
  rewrite Hgen in K. cbv zeta in K. cbn [snd] in K. destruct K as (K1 & K2 & _).
  assert (Hs2 : sales s2 = sales s1 /\ quotations s2 = quotations s1
                /\ Sale_Items sale = SaleReq_Items req).
  { revert Hsale. unfold lift, ToSale, bind, ret, time_Now.
    intros [= <- <-]. repeat split. }
  destruct Hs2 as (L1 & L2 & L3).
  remember (CreateSale (Some req) s) as r eqn:E. revert E.
  unfold CreateSale. unfold Sbind at 1. rewrite Hgen.
  unfold Sbind at 1. rewrite Hsale. cbv zeta.
  unfold Sbind at 1. unfold lift at 1.
  cbn [Sale_Items set_SaleCode]. rewrite L3, Hitems, cutStock_app, Hdone.
  cbn [cutStock]. unfold bind at 1.
  pose proof (ProductRepository_GetByID_unchanged (SaleItem_ProductID item) w3)
    as Hu.
  destruct (ProductRepository.GetByID (SaleItem_ProductID item) w3)
    as [[e | product] w4]; [|discriminate Hfail].
  cbn [fst snd] in Hfail, Hu. unfold ret, Sret. intros ->. cbn [fst snd sales quotations world].
  split; [reflexivity | split; [congruence | split; [congruence | exact Hu]]].
Qed.






Lemma CreateSale_partial_witness :
  let req :=
    mkSaleRequest "c1"
      [mkSaleItem "65f000000000000000000001" "box" "ABC-s/RE" 2 120 240;
       mkSaleItem "ghost" "ghost" "" 1 10 10] true None in
  let run :=
    @CreateSale amd64 literal_regex (Some req) (mkShop (shopWorld []) [] []) in
  fst run = sale_Error "Product not found: ghost" 400
  /\ sales (snd run) = []
  /\ map (fun p => Product_Stock p) (products (world (snd run)))
     = [mkStock (mkStockInfo 5 2 3) zeroStockInfo 3]
  /\ List.length (adjustments (world (snd run))) = 2%nat.
Proof.
  intros req run. subst run.
  set (s := mkShop (shopWorld []) [] []).
  pose (s1 := snd (@generateSaleID literal_regex true s)).
  pose (sale := fst (lift (ToSale req) s1)).
  pose (s2 := snd (lift (ToSale req) s1)).
  pose (w3 := snd (@cutStock amd64 (set_SaleCode sale "INV-4300-0001")
                     [mkSaleItem "65f000000000000000000001" "box" "ABC-s/RE"
                        2 120 240] (world s2))).
  destruct (@CreateSale_partial amd64 literal_regex s s1 s2 req "INV-4300-0001"
              sale
              [mkSaleItem "65f000000000000000000001" "box" "ABC-s/RE" 2 120 240]
              [] (mkSaleItem "ghost" "ghost" "" 1 10 10) w3 ErrInvalidHex)
    as (R & S1 & _ & P & A & _ & _);
    [vm_compute; reflexivity | vm_compute; reflexivity | reflexivity
     | vm_compute; reflexivity | vm_compute; reflexivity |].
  split; [exact R | split; [exact S1 | split]].
  - rewrite P. vm_compute. reflexivity.
  - rewrite A. vm_compute. reflexivity.
Defined.
